(** * Assignment platform: submissions, assignments and login

  A shallow embedding of the two implementations found in the
  repository:

  - [Server]: the Express handlers of server.js over the SQLite file
    (tables users, assignments, submissions);
  - [Browser]: the in-browser simulation of public/app.js
    ([DatabaseEngine], [APIService] and the submission form handler).

  Tables are lists of rows in insertion order.  Every SQL statement the
  handlers issue is one function over these lists.  Effects are explicit
  state passing: a handler takes the session and the database and gives
  back the HTTP response with the session or database it leaves. *)

From Stdlib Require Import ZArith String Ascii List Lia.
From Stdlib Require SpecFloat.
From stdpp Require Import base tactics option list strings gmap sorting.

Local Open Scope string_scope.
Local Open Scope Z_scope.

(** ** JavaScript values used by both implementations *)

Module Js.

(** [!v] for a value that is a string, [undefined] or [null]: the empty
    string and the absent value are falsy. *)
Definition truthy (v : option string) : bool :=
  match v with
  | Some s => negb (bool_decide (s = ""))
  | None => false
  end.

(** A [Date] is its time value in milliseconds; [None] is Invalid Date,
    whose time value is NaN. *)
Definition Date : Type := option Z.

(** A Number is an IEEE 754 value: a zero, an infinity, NaN, or plus or
    minus [m * 2 ^ e]. *)
Definition number : Type := SpecFloat.spec_float.

(** The Number of an integer. *)
Definition number_of_Z (z : Z) : number :=
  match z with
  | Z0 => SpecFloat.S754_zero false
  | Zpos m => SpecFloat.S754_finite false m 0
  | Zneg m => SpecFloat.S754_finite true m 0
  end.

(** The largest time value a Date can hold. *)
Definition max_time : Z := 8640000000000000.

(** [new Date(n)] on a Number (TimeClip): Invalid Date unless [n] is
    finite and at most [max_time] in absolute value, and otherwise the
    date whose time value is [n] with its fraction dropped. *)
Definition Date_of_number (n : number) : Date :=
  match n with
  | SpecFloat.S754_zero _ => Some 0
  | SpecFloat.S754_finite neg m e =>
      if bool_decide (0 <= e) then
        if bool_decide (Z.pos m * 2 ^ e <= max_time) then
          Some (if neg then - (Z.pos m * 2 ^ e) else Z.pos m * 2 ^ e)
        else None
      else
        if bool_decide (Z.pos m <= max_time * 2 ^ (- e)) then
          Some (if neg then - (Z.pos m / 2 ^ (- e)) else Z.pos m / 2 ^ (- e))
        else None
  | _ => None
  end.

(** [a > b] on dates: false as soon as one side is NaN. *)
Definition date_gt (a b : Date) : bool :=
  match a, b with
  | Some x, Some y => bool_decide (y < x)
  | _, _ => false
  end.

Definition lower_ascii (c : ascii) : ascii :=
  let n := N_of_ascii c in
  if ((65 <=? n) && (n <=? 90))%N then ascii_of_N (n + 32) else c.

Fixpoint toLowerCase (s : string) : string :=
  match s with
  | EmptyString => EmptyString
  | String c r => String (lower_ascii c) (toLowerCase r)
  end.

Definition is_ws (c : ascii) : bool :=
  let n := N_of_ascii c in
  ((n =? 32) || ((9 <=? n) && (n <=? 13)))%N.

Fixpoint trimStart (s : string) : string :=
  match s with
  | String c r => if is_ws c then trimStart r else s
  | EmptyString => EmptyString
  end.

Fixpoint trimEnd (s : string) : string :=
  match s with
  | EmptyString => EmptyString
  | String c r =>
      match trimEnd r with
      | EmptyString => if is_ws c then EmptyString else String c EmptyString
      | r' => String c r'
      end
  end.

Definition trim (s : string) : string := trimEnd (trimStart s).

Definition startsWith (s p : string) : bool := String.prefix p s.

(** [s.includes(p)] *)
Fixpoint includes (s p : string) : bool :=
  String.prefix p s ||
  match s with
  | EmptyString => false
  | String _ r => includes r p
  end.

(** Objects handed back to a caller, with their keys in order.  A key
    can be present and hold [undefined]. *)
#[warnings="-register-all"]
Inductive json :=
| JUndefined
| JString (s : string)
| JNumber (z : Z)
| JObject (fields : list (string * json)).

(** [o.k] on an object; [None] when the object has no such key. *)
Fixpoint get_field (k : string) (fields : list (string * json)) : option json :=
  match fields with
  | [] => None
  | (k', v) :: r => if bool_decide (k' = k) then Some v else get_field k r
  end.

(** [o.k = v]: an existing key keeps its place, a new key goes last. *)
Fixpoint set_field (k : string) (v : json) (fields : list (string * json))
  : list (string * json) :=
  match fields with
  | [] => [(k, v)]
  | (k', w) :: r =>
      if bool_decide (k' = k) then (k', v) :: r else (k', w) :: set_field k v r
  end.

Definition prop (k : string) (j : json) : option json :=
  match j with
  | JObject fields => get_field k fields
  | _ => None
  end.

End Js.

(** ** The server: server.js *)

Module Server.

(** *** Rows of the three tables *)

Record user := {
  user_id : string;
  email : string;
  password_hash : string;
  name : string;
  role : string;
  user_created_at : Z
}.

(** What a row read from the file holds in a column declared DATETIME.
    The declared type gives the column NUMERIC affinity: a text stored
    in it that SQLite reads as an integer or real literal is kept as
    that number, and the driver hands it back as a Number; any other
    text is kept as it is. *)
Inductive datetime :=
| DateText (s : string)
| DateNumber (n : Js.number).

(** SQLite's reading of a text as a numeric literal is not part of the
    program: [numeric] below is the function that gives, for a text
    SQLite takes for a number, the Number the driver hands back for it. *)
Definition bind_datetime (numeric : string -> option Js.number) (s : string)
  : datetime :=
  match numeric s with
  | Some n => DateNumber n
  | None => DateText s
  end.

(** [description] and [instructions] are nullable columns.  [deadline]
    is what the DATETIME column made of the text the professor sent; it
    becomes a date only through [new Date(...)]. *)
Record assignment := {
  assignment_pk : string;
  title : string;
  description : option string;
  deadline : datetime;
  instructions : option string;
  created_by : string;
  created_at : Z
}.

Record submission := {
  submission_pk : string;
  assignment_id : string;
  student_id : string;
  repo_link : string;
  submitted_at : Z;
  status : string
}.

(** The schema is created with CREATE TABLE IF NOT EXISTS by whichever
    script touches the file first.  server.js declares the foreign key
    of submissions.assignment_id with no ON DELETE clause; the
    initialisation script declares it ON DELETE CASCADE. *)
Inductive fk_action := NoAction | Cascade.

Record database := {
  users : list user;
  assignments : list assignment;
  submissions : list submission;
  submissions_on_delete : fk_action
}.

Definition with_assignments (l : list assignment) (d : database) : database :=
  {| users := users d; assignments := l; submissions := submissions d;
     submissions_on_delete := submissions_on_delete d |}.

Definition with_submissions (l : list submission) (d : database) : database :=
  {| users := users d; assignments := assignments d; submissions := l;
     submissions_on_delete := submissions_on_delete d |}.

(** SQLite enforces FOREIGN KEY clauses only on a connection that ran
    PRAGMA foreign_keys = ON.  server.js opens the connection and never
    issues the pragma (nor does the initialisation script), so
    enforcement has its default value. *)
Definition foreign_keys : bool := false.

(** CURRENT_TIMESTAMP is UTC text 'YYYY-MM-DD HH:MM:SS'.  Its order as
    text is the order of the whole seconds it denotes, which is what the
    timestamp columns hold here. *)
Definition CURRENT_TIMESTAMP (now : Z) : Z := now / 1000.

(** *** Sessions, requests and responses *)

Record session := {
  userId : option string;
  userRole : option string
}.

Definition no_session : session := {| userId := None; userRole := None |}.

(** A row of [SELECT a.*, u.name as creator_name]. *)
Record assignment_view := {
  av_row : assignment;
  creator_name : string
}.

(** A row of the submission listings: [s.*] with [a.title], and for a
    professor the student's name and email as well. *)
Record submission_view := {
  sv_row : submission;
  student : option (string * string);
  assignment_title : string
}.

Inductive payload :=
| Error (msg : string)
| Message (msg : string)
| Json (j : Js.json)
| AssignmentRows (rows : list assignment_view)
| SubmissionRows (rows : list submission_view).

Record response := {
  code : nat;
  body : payload
}.

Definition reply (c : nat) (b : payload) : response := {| code := c; body := b |}.

(** The error taxonomy, as the handlers report it. *)
Definition Unauthenticated := reply 401 (Error "Authentication required").
Definition Forbidden := reply 403 (Error "Insufficient permissions").
Definition InvalidCredentials := reply 401 (Error "Invalid credentials").
Definition NotFound := reply 404 (Error "Assignment not found").
Definition NotFoundOrForbidden := reply 404 (Error "Assignment not found or not authorized").
Definition DeadlinePassed := reply 400 (Error "Assignment deadline has passed").
Definition InternalError := reply 500 (Error "Internal server error").
Definition CredentialsRequired := reply 400 (Error "Email and password are required").
Definition TitleDeadlineRequired := reply 400 (Error "Title and deadline are required").
Definition SubmissionFieldsRequired :=
  reply 400 (Error "Assignment ID and repository link are required").

(** *** Middleware: [None] calls [next()] *)

Definition requireAuth (s : session) : option response :=
  if negb (Js.truthy (userId s)) then Some Unauthenticated else None.

Definition requireRole (r : string) (s : session) : option response :=
  if negb (Js.truthy (userId s)) then Some Unauthenticated
  else if negb (bool_decide (userRole s = Some r)) then Some Forbidden
  else None.

(** *** The SQL statements *)

Definition id_is (k : string) (a : assignment) : bool :=
  bool_decide (assignment_pk a = k).

Definition owned (k owner : string) (a : assignment) : bool :=
  bool_decide (assignment_pk a = k) && bool_decide (created_by a = owner).

(** [SELECT * FROM users WHERE email = ?] through [db.get]: the first
    matching row; the comparison is SQLite's binary, case-sensitive one. *)
Definition user_by_email (e : string) (d : database) : option user :=
  find (fun u => bool_decide (email u = e)) (users d).

(** [SELECT * FROM assignments WHERE id = ?] through [db.get]. *)
Definition assignment_by_id (k : string) (d : database) : option assignment :=
  find (id_is k) (assignments d).

(** ORDER BY key DESC.  Rows with equal keys keep their table order. *)
Fixpoint insert_desc {A} (key : A -> Z) (x : A) (l : list A) : list A :=
  match l with
  | [] => [x]
  | y :: r =>
      if bool_decide (key y <= key x) then x :: y :: r
      else y :: insert_desc key x r
  end.

Definition order_by_desc {A} (key : A -> Z) (l : list A) : list A :=
  foldr (insert_desc key) [] l.

(** [FROM assignments a JOIN users u ON a.created_by = u.id] *)
Definition assignments_join_users (d : database) : list assignment_view :=
  flat_map (fun a =>
    map (fun u => {| av_row := a; creator_name := name u |})
        (filter (fun u => created_by a = user_id u) (users d)))
    (assignments d).

Definition select_assignments (d : database) : list assignment_view :=
  order_by_desc (fun v => created_at (av_row v)) (assignments_join_users d).

(** The professor's listing: submissions joined with users and
    assignments. *)
Definition submissions_for_professor (d : database) : list submission_view :=
  flat_map (fun s =>
    flat_map (fun u =>
      map (fun a => {| sv_row := s; student := Some (name u, email u);
                       assignment_title := title a |})
          (filter (fun a => assignment_id s = assignment_pk a) (assignments d)))
      (filter (fun u => student_id s = user_id u) (users d)))
    (submissions d).

(** The student's listing: own submissions joined with assignments. *)
Definition submissions_for_student (me : string) (d : database) : list submission_view :=
  flat_map (fun s =>
    map (fun a => {| sv_row := s; student := None; assignment_title := title a |})
        (filter (fun a => assignment_id s = assignment_pk a) (assignments d)))
    (filter (fun s => student_id s = me) (submissions d)).

Definition select_submissions (q : database -> list submission_view) (d : database)
  : list submission_view :=
  order_by_desc (fun v => submitted_at (sv_row v)) (q d).

(** What [db.run] hands to its callback: an error, or [this.changes]
    with the database the statement leaves. *)
Inductive run_result :=
| SqlError
| Changes (n : nat) (d : database).

Definition set_fields (t : string) (desc : option string) (dl : datetime)
    (ins : option string) (a : assignment) : assignment :=
  {| assignment_pk := assignment_pk a; title := t; description := desc;
     deadline := dl; instructions := ins; created_by := created_by a;
     created_at := created_at a |}.

(** [UPDATE assignments SET title = ?, description = ?, deadline = ?,
    instructions = ? WHERE id = ? AND created_by = ?].  The deadline is
    stored as the DATETIME column takes the text ([bind_datetime]). *)
Definition update_assignment (numeric : string -> option Js.number)
    (t : string) (desc : option string) (dl : string)
    (ins : option string) (k owner : string) (d : database) : run_result :=
  Changes (length (filter (fun a => owned k owner a = true) (assignments d)))
    (with_assignments
       (map (fun a => if owned k owner a
                      then set_fields t desc (bind_datetime numeric dl) ins a
                      else a)
            (assignments d)) d).

Definition references (k : string) (s : submission) : bool :=
  bool_decide (assignment_id s = k).

(** [DELETE FROM assignments WHERE id = ? AND created_by = ?].  With
    enforcement off the statement touches the assignments table only.
    With enforcement on, the action declared for the foreign key decides:
    NO ACTION fails the statement while a submission references a
    deleted row, CASCADE deletes the referencing submissions. *)
Definition delete_assignment_sql (fk : bool) (k owner : string) (d : database)
  : run_result :=
  let gone := filter (fun a => owned k owner a = true) (assignments d) in
  let kept := filter (fun a => owned k owner a = false) (assignments d) in
  match gone with
  | [] => Changes 0 d
  | _ :: _ =>
      if fk then
        match submissions_on_delete d with
        | NoAction =>
            if existsb (references k) (submissions d) then SqlError
            else Changes (length gone) (with_assignments kept d)
        | Cascade =>
            Changes (length gone)
              (with_submissions
                 (filter (fun s => references k s = false) (submissions d))
                 (with_assignments kept d))
        end
      else Changes (length gone) (with_assignments kept d)
  end.

Definition conflicts (a s : string) (r : submission) : bool :=
  bool_decide (assignment_id r = a) && bool_decide (student_id r = s).

Definition do_update (link : string) (ts : Z) (r : submission) : submission :=
  {| submission_pk := submission_pk r; assignment_id := assignment_id r;
     student_id := student_id r; repo_link := link; submitted_at := ts;
     status := status r |}.

(** [INSERT INTO submissions (id, assignment_id, student_id, repo_link,
    status) VALUES (?, ?, ?, ?, 'submitted') ON CONFLICT(assignment_id,
    student_id) DO UPDATE SET repo_link = excluded.repo_link,
    submitted_at = CURRENT_TIMESTAMP].  A row with the same pair takes the
    DO UPDATE branch; otherwise a taken primary key fails the statement;
    otherwise the row is appended, [submitted_at] taking its default. *)
Definition upsert_submission (ts : Z) (k a s link : string) (d : database)
  : run_result :=
  if existsb (conflicts a s) (submissions d) then
    Changes 1
      (with_submissions
         (map (fun r => if conflicts a s r then do_update link ts r else r)
              (submissions d)) d)
  else if existsb (fun r => bool_decide (submission_pk r = k)) (submissions d) then
    SqlError
  else
    Changes 1
      (with_submissions
         (submissions d ++
            [{| submission_pk := k; assignment_id := a; student_id := s;
                repo_link := link; submitted_at := ts; status := "submitted" |}])
         d).

(** *** The handlers *)

Section Handlers.

(** [new Date(text)]: the time value of a text, [None] for Invalid Date. *)
Variable Date_parse : string -> Js.Date.

(** [bcrypt.compare(password, hash)]; [None] when the promise rejects. *)
Variable bcrypt_compare : string -> string -> option bool.

(** SQLite's reading of a text as a numeric literal, see
    [bind_datetime]. *)
Variable numeric_literal : string -> option Js.number.

(** [new Date(assignment.deadline)] on what the column holds. *)
Definition deadline_date (v : datetime) : Js.Date :=
  match v with
  | DateText s => Date_parse s
  | DateNumber n => Js.Date_of_number n
  end.

Definition profile_json (u : user) : Js.json :=
  Js.JObject [("id", Js.JString (user_id u)); ("email", Js.JString (email u));
              ("name", Js.JString (name u)); ("role", Js.JString (role u))].

(** POST /api/auth/login *)
Definition login (e p : option string) (s : session) (d : database)
  : response * session :=
  if negb (Js.truthy e) || negb (Js.truthy p) then (CredentialsRequired, s)
  else
    match user_by_email (default "" e) d with
    | None => (InvalidCredentials, s)
    | Some u =>
        match bcrypt_compare (default "" p) (password_hash u) with
        | None => (InternalError, s)
        | Some false => (InvalidCredentials, s)
        | Some true =>
            (reply 200 (Json (Js.JObject [("user", profile_json u)])),
             {| userId := Some (user_id u); userRole := Some (role u) |})
        end
    end.

(** GET /api/assignments *)
Definition get_assignments (s : session) (d : database) : response :=
  match requireAuth s with
  | Some r => r
  | None => reply 200 (AssignmentRows (select_assignments d))
  end.

(** PUT /api/assignments/:id *)
Definition put_assignment (s : session) (k : string)
    (t desc dl ins : option string) (d : database) : response * database :=
  match requireRole "professor" s with
  | Some r => (r, d)
  | None =>
      if negb (Js.truthy t) || negb (Js.truthy dl) then (TitleDeadlineRequired, d)
      else
        match update_assignment numeric_literal (default "" t) desc
                (default "" dl) ins k (default "" (userId s)) d with
        | SqlError => (InternalError, d)
        | Changes O _ => (NotFoundOrForbidden, d)
        | Changes _ d' => (reply 200 (Message "Assignment updated successfully"), d')
        end
  end.

(** DELETE /api/assignments/:id *)
Definition delete_assignment (s : session) (k : string) (d : database)
  : response * database :=
  match requireRole "professor" s with
  | Some r => (r, d)
  | None =>
      match delete_assignment_sql foreign_keys k (default "" (userId s)) d with
      | SqlError => (InternalError, d)
      | Changes O _ => (NotFoundOrForbidden, d)
      | Changes _ d' => (reply 200 (Message "Assignment deleted successfully"), d')
      end
  end.

(** GET /api/submissions *)
Definition get_submissions (s : session) (d : database) : response :=
  match requireAuth s with
  | Some r => r
  | None =>
      if bool_decide (userRole s = Some "professor") then
        reply 200 (SubmissionRows (select_submissions submissions_for_professor d))
      else
        reply 200 (SubmissionRows
          (select_submissions (submissions_for_student (default "" (userId s))) d))
  end.

(** POST /api/submissions; [now] is the clock, [uuid] the value of
    [uuidv4()]. *)
Definition post_submissions (now : Z) (uuid : string) (s : session)
    (assignmentId repoLink : option string) (d : database) : response * database :=
  match requireRole "student" s with
  | Some r => (r, d)
  | None =>
      if negb (Js.truthy assignmentId) || negb (Js.truthy repoLink) then
        (SubmissionFieldsRequired, d)
      else
        match assignment_by_id (default "" assignmentId) d with
        | None => (NotFound, d)
        | Some a =>
            if Js.date_gt (Some now) (deadline_date (deadline a)) then
              (DeadlinePassed, d)
            else
              match upsert_submission (CURRENT_TIMESTAMP now) uuid
                      (default "" assignmentId) (default "" (userId s))
                      (default "" repoLink) d with
              | SqlError => (InternalError, d)
              | Changes _ d' =>
                  (reply 200 (Message "Submission saved successfully"), d')
              end
        end
  end.

(** *** Sequences of POST /api/submissions *)

(** One request of a sequence: the clock when it arrives, the identifier
    [uuidv4()] draws for it and the link it carries. *)
Record posting := {
  at_time : Z;
  drawn : string;
  sent : option string
}.

(** A request is accepted when it is answered 200. *)
Definition accepted (r : response) : bool := bool_decide (code r = 200%nat).

(** A student's session sends the requests one after the other for the
    same assignment.  Beside the database, the run keeps the link of the
    last request that was accepted. *)
Definition post_one (s : session) (a : option string)
    (st : database * option string) (p : posting) : database * option string :=
  let r := post_submissions (at_time p) (drawn p) s a (sent p) (fst st) in
  (snd r, if accepted (fst r) then sent p else snd st).

Definition post_all (s : session) (a : option string) (ps : list posting)
    (d : database) : database * option string :=
  foldl (post_one s a) (d, None) ps.


End Handlers.

(** What the run keeps true: the caller's rows for the assignment are
    none before the first accepted request, and afterwards exactly one,
    carrying the last accepted link. *)
Definition one_row (k me : string) (st : database * option string) : Prop :=
  match snd st with
  | None => filter (fun r => conflicts k me r = true) (submissions (fst st)) = []
  | Some l =>
      exists row,
        filter (fun r => conflicts k me r = true) (submissions (fst st)) = [row] /\
        repo_link row = l
  end.

(** [x] may stand before [y] in a listing that is descending in [key]. *)
Definition descending {A} (key : A -> Z) (x y : A) : Prop := key y <= key x.

End Server.

(** ** The in-browser simulation: public/app.js *)

Module Browser.

(** *** Strings as the browser has them *)

(** A JavaScript string is a sequence of UTF-16 code units.  What a user
    types into a password field is kept in this form; identifiers, e-mail
    addresses and links are kept as plain text. *)
Definition ustring : Type := list N.

Definition of_string (s : string) : ustring :=
  map N_of_ascii (list_ascii_of_string s).

Definition base64_alphabet : list ascii :=
  list_ascii_of_string
    "ABCDEFGHIJKLMNOPQRSTUVWXYZabcdefghijklmnopqrstuvwxyz0123456789+/".

Definition sextet (n : N) : ascii :=
  nth (N.to_nat n) base64_alphabet "="%char.

(** Base64 of a sequence of bytes. *)
Fixpoint base64 (bytes : list N) : string :=
  match bytes with
  | a :: b :: c :: r =>
      String (sextet (a / 4))
        (String (sextet ((a mod 4) * 16 + b / 16))
           (String (sextet ((b mod 16) * 4 + c / 64))
              (String (sextet (c mod 64)) (base64 r))))
  | [a; b] =>
      String (sextet (a / 4))
        (String (sextet ((a mod 4) * 16 + b / 16))
           (String (sextet ((b mod 16) * 4)) "="))
  | [a] =>
      String (sextet (a / 4)) (String (sextet ((a mod 4) * 16)) "==")
  | [] => ""
  end%N.

(** Every code unit is a byte. *)
Definition latin1 (s : ustring) : bool := forallb (fun c => (c <=? 255)%N) s.

(** [btoa(s)]: on a string that is not Latin-1 the call throws
    InvalidCharacterError ([None]). *)
Definition btoa (s : ustring) : option string :=
  if latin1 s then Some (base64 s) else None.

Definition alnum (c : ascii) : bool :=
  let n := N_of_ascii c in
  (((48 <=? n) && (n <=? 57)) || ((65 <=? n) && (n <=? 90))
   || ((97 <=? n) && (n <=? 122)))%N.

(** [s.replace(/[^a-zA-Z0-9]/g, '')] *)
Fixpoint strip_non_alnum (s : string) : string :=
  match s with
  | EmptyString => EmptyString
  | String c r =>
      if alnum c then String c (strip_non_alnum r) else strip_non_alnum r
  end.

(** [DatabaseEngine.hashPassword] *)
Definition hashPassword (password : ustring) : option string :=
  match btoa (password ++ of_string "salt")%list with
  | Some b => Some ("$2b$10$" ++ String.substring 0 50 (strip_non_alnum b))
  | None => None
  end.

(** [DatabaseEngine.verifyPassword] *)
Definition verifyPassword (password : ustring) (hash : string) : option bool :=
  match hashPassword password with
  | Some h => Some (bool_decide (h = hash))
  | None => None
  end.

(** *** Rows and the engine's state *)

Record user := {
  user_id : string;
  email : string;
  password_hash : string;
  name : string;
  role : string;
  user_created_at : Z
}.

Record assignment := {
  assignment_pk : string;
  title : string;
  description : string;
  deadline : string;
  instructions : string;
  created_by : string;
  created_at : Z
}.

Record submission := {
  submission_pk : string;
  assignment_id : string;
  student_id : string;
  repo_link : string;
  submitted_at : Z;
  status : string
}.

(** Submission objects are shared between [tables.submissions] and the two
    submission indexes and are mutated in place by [executeUpdate], so they
    live in a store and the arrays hold references into it.  User and
    assignment objects are never mutated; the arrays hold them directly. *)
Abbreviation ref := nat (only parsing).

Record engine := {
  store : list submission;
  t_users : list user;
  t_assignments : list assignment;
  t_submissions : list ref;
  users_email : gmap string user;
  assignments_created_by : gmap string (list assignment);
  submissions_assignment_id : gmap string (list ref);
  submissions_student_id : gmap string (list ref)
}.

(** The submission rows of the table, in table order. *)
Definition rows (e : engine) : list submission :=
  omap (fun l => store e !! l) (t_submissions e).

(** [if (!index.has(k)) index.set(k, []); index.get(k).push(x)] *)
Definition index_push {A} (k : string) (x : A) (m : gmap string (list A))
  : gmap string (list A) :=
  <[k := (default [] (m !! k) ++ [x])%list]> m.

Definition seed_hash : string :=
  default "" (hashPassword (of_string "password123")).

Definition seed_users : list user :=
  [ {| user_id := "prof1"; email := "prof.smith@university.edu";
       password_hash := seed_hash; name := "Dr. Sarah Smith";
       role := "professor"; user_created_at := 1736931600000 |};
    {| user_id := "stud1"; email := "john.doe@university.edu";
       password_hash := seed_hash; name := "John Doe";
       role := "student"; user_created_at := 1737369000000 |};
    {| user_id := "stud2"; email := "jane.smith@university.edu";
       password_hash := seed_hash; name := "Jane Smith";
       role := "student"; user_created_at := 1737555300000 |} ].

Definition seed_assignments : list assignment :=
  [ {| assignment_pk := "assign1"; title := "Web Development Project";
       description := "Create a responsive website using HTML, CSS, and JavaScript. Include at least 3 pages and implement modern design principles.";
       deadline := "2025-09-15T23:59:59.000Z";
       instructions := "Submit your GitHub repository link containing the complete project code.";
       created_by := "prof1"; created_at := 1755684000000 |};
    {| assignment_pk := "assign2"; title := "Database Design Assignment";
       description := "Design and implement a normalized database schema for a library management system.";
       deadline := "2025-09-20T23:59:59.000Z";
       instructions := "Include ER diagram, SQL scripts, and documentation in your repository.";
       created_by := "prof1"; created_at := 1755873000000 |} ].

Definition seed_submissions : list submission :=
  [ {| submission_pk := "sub1"; assignment_id := "assign1"; student_id := "stud1";
       repo_link := "https://github.com/johndoe/web-dev-project";
       submitted_at := 1756139400000; status := "submitted" |} ].

(** [createIndexes] *)
Definition createIndexes (e : engine) : engine :=
  {| store := store e; t_users := t_users e; t_assignments := t_assignments e;
     t_submissions := t_submissions e;
     users_email := foldl (fun m u => <[email u := u]> m) ∅ (t_users e);
     assignments_created_by :=
       foldl (fun m a => index_push (created_by a) a m) ∅ (t_assignments e);
     submissions_assignment_id :=
       foldl (fun m l =>
                match store e !! l with
                | Some s => index_push (assignment_id s) l m
                | None => m
                end) ∅ (t_submissions e);
     submissions_student_id :=
       foldl (fun m l =>
                match store e !! l with
                | Some s => index_push (student_id s) l m
                | None => m
                end) ∅ (t_submissions e) |}.

(** [initializeDatabase]: the state a fresh [DatabaseEngine] starts in. *)
Definition initializeDatabase : engine :=
  createIndexes
    {| store := seed_submissions; t_users := seed_users;
       t_assignments := seed_assignments;
       t_submissions := seq 0 (length seed_submissions);
       users_email := ∅; assignments_created_by := ∅;
       submissions_assignment_id := ∅; submissions_student_id := ∅ |}.

(** *** Query dispatch *)

Inductive value :=
| VUndefined
| VNull
| VEmpty
| VUser (u : user)
| VUsers (l : list user)
| VAssignment (a : assignment)
| VAssignments (l : list assignment)
| VSubmission (l : ref)
| VSubmissions (l : list ref).

(** A call returns normally or throws an [Error] with a message. *)
Inductive completion (A : Type) :=
| Normal (a : A)
| Throw (msg : string).
Arguments Normal {A} a.
Arguments Throw {A} msg.

(** [index.get(params[i])]; a missing parameter is [undefined], which is
    never a key. *)
Definition index_get {A} (m : gmap string A) (params : list string) (i : nat)
  : option A :=
  match params !! i with
  | Some k => m !! k
  | None => None
  end.

(** [executeSelect] *)
Definition executeSelect (sql : string) (params : list string) (e : engine) : value :=
  if Js.includes sql "from users" then
    if Js.includes sql "where email = ?" then
      match index_get (users_email e) params 0 with
      | Some u => VUser u
      | None => VUndefined
      end
    else VUsers (t_users e)
  else if Js.includes sql "from assignments" then
    if Js.includes sql "where created_by = ?" then
      VAssignments (default [] (index_get (assignments_created_by e) params 0))
    else VAssignments (t_assignments e)
  else if Js.includes sql "from submissions" then
    if Js.includes sql "where student_id = ?" then
      VSubmissions (default [] (index_get (submissions_student_id e) params 0))
    else if Js.includes sql "where assignment_id = ?" then
      VSubmissions (default [] (index_get (submissions_assignment_id e) params 0))
    else VSubmissions (t_submissions e)
  else VEmpty.

Definition param (params : list string) (i : nat) : string :=
  default "" (params !! i).

(** [executeInsert]; [id] is the generated identifier and [now] the clock.
    The new record is pushed on its table and on its indexes
    ([updateIndexes]). *)
Definition executeInsert (sql : string) (params : list string) (id : string)
    (now : Z) (e : engine) : completion (value * engine) :=
  if Js.includes sql "into assignments" then
    let a := {| assignment_pk := id; title := param params 0;
                description := param params 1; deadline := param params 2;
                instructions := param params 3; created_by := param params 4;
                created_at := now |} in
    Normal (VAssignment a,
      {| store := store e; t_users := t_users e;
         t_assignments := t_assignments e ++ [a];
         t_submissions := t_submissions e;
         users_email := users_email e;
         assignments_created_by :=
           index_push (created_by a) a (assignments_created_by e);
         submissions_assignment_id := submissions_assignment_id e;
         submissions_student_id := submissions_student_id e |})
  else if Js.includes sql "into submissions" then
    let s := {| submission_pk := id; assignment_id := param params 0;
                student_id := param params 1; repo_link := param params 2;
                submitted_at := now; status := "submitted" |} in
    let l := length (store e) in
    Normal (VSubmission l,
      {| store := store e ++ [s]; t_users := t_users e;
         t_assignments := t_assignments e;
         t_submissions := t_submissions e ++ [l];
         users_email := users_email e;
         assignments_created_by := assignments_created_by e;
         submissions_assignment_id :=
           index_push (assignment_id s) l (submissions_assignment_id e);
         submissions_student_id :=
           index_push (student_id s) l (submissions_student_id e) |})
  else Throw "Invalid INSERT query".

(** [s.assignment_id === a && s.student_id === b] on the object a
    reference points to. *)
Definition keyed (e : engine) (a b : option string) (l : ref) : bool :=
  match store e !! l with
  | Some s =>
      bool_decide (Some (assignment_id s) = a) && bool_decide (Some (student_id s) = b)
  | None => false
  end.

Definition set_store (st : list submission) (e : engine) : engine :=
  {| store := st; t_users := t_users e; t_assignments := t_assignments e;
     t_submissions := t_submissions e; users_email := users_email e;
     assignments_created_by := assignments_created_by e;
     submissions_assignment_id := submissions_assignment_id e;
     submissions_student_id := submissions_student_id e |}.

Definition overwrite (link : string) (now : Z) (s : submission) : submission :=
  {| submission_pk := submission_pk s; assignment_id := assignment_id s;
     student_id := student_id s; repo_link := link; submitted_at := now;
     status := status s |}.

(** [executeUpdate]: the first submission of the table with the given
    pair is changed in place. *)
Definition executeUpdate (sql : string) (params : list string) (now : Z)
    (e : engine) : value * engine :=
  if Js.includes sql "submissions set" then
    match find (keyed e (params !! 1%nat) (params !! 2%nat)) (t_submissions e) with
    | Some l =>
        (VSubmission l,
         set_store (alter (overwrite (param params 0) now) l (store e)) e)
    | None => (VNull, e)
    end
  else (VNull, e).

(** [executeDelete]: removes the first assignment with the identifier from
    the table; the indexes are left as they are. *)
Definition executeDelete (sql : string) (params : list string) (e : engine)
  : value * engine :=
  if Js.includes sql "from assignments where id = ?" then
    match list_find (fun a => Some (assignment_pk a) = params !! 0%nat) (t_assignments e) with
    | Some (i, a) =>
        (VAssignment a,
         {| store := store e; t_users := t_users e;
            t_assignments := delete i (t_assignments e);
            t_submissions := t_submissions e; users_email := users_email e;
            assignments_created_by := assignments_created_by e;
            submissions_assignment_id := submissions_assignment_id e;
            submissions_student_id := submissions_student_id e |})
    | None => (VNull, e)
    end
  else (VNull, e).

(** [executeQuery].  [query] adds timing and events around it and hands
    the result, or the exception, through. *)
Definition executeQuery (sql : string) (params : list string) (id : string)
    (now : Z) (e : engine) : completion (value * engine) :=
  let sql := Js.trim (Js.toLowerCase sql) in
  if Js.startsWith sql "select" then Normal (executeSelect sql params e, e)
  else if Js.startsWith sql "insert" then executeInsert sql params id now e
  else if Js.startsWith sql "update" then Normal (executeUpdate sql params now e)
  else if Js.startsWith sql "delete" then Normal (executeDelete sql params e)
  else Throw "Unsupported SQL operation".

Definition query := executeQuery.

(** *** APIService *)

Record session := {
  session_id : string;
  userId : string;
  session_user : user;
  createdAt : Z
}.

Record app := {
  db : engine;
  currentSession : option session
}.

(** What the promise of an API call does once its timer has fired: it
    resolves with a value, rejects with an error message, or stays
    pending because the timer callback threw outside any [try]. *)
Inductive result :=
| RValue (v : value)
| RJson (j : Js.json).

Inductive outcome :=
| Resolve (r : result)
| Reject (msg : string)
| Uncaught.

Definition user_fields (u : user) : list (string * Js.json) :=
  [("id", Js.JString (user_id u)); ("email", Js.JString (email u));
   ("password_hash", Js.JString (password_hash u));
   ("name", Js.JString (name u)); ("role", Js.JString (role u));
   ("created_at", Js.JNumber (user_created_at u))].

Definition session_json (s : session) : Js.json :=
  Js.JObject [("id", Js.JString (session_id s)); ("userId", Js.JString (userId s));
              ("user", Js.JObject (user_fields (session_user s)));
              ("createdAt", Js.JNumber (createdAt s))].

(** The message of the exception [btoa] throws. *)
Definition InvalidCharacterError : string :=
  "Failed to execute 'btoa' on 'Window': The string to be encoded contains characters outside of the Latin1 range.".

(** [APIService.login]; [sid] is ['session_' + Date.now()].  The query can
    only give a user row or [undefined]. *)
Definition login (e : string) (password : ustring) (sid : string) (now : Z)
    (a : app) : outcome * app :=
  match query "SELECT * FROM users WHERE email = ?" [e] sid now (db a) with
  | Throw m => (Reject m, a)
  | Normal (VUser u, _) =>
      match verifyPassword password (password_hash u) with
      | None => (Reject InvalidCharacterError, a)
      | Some true =>
          let s := {| session_id := sid; userId := user_id u; session_user := u;
                      createdAt := now |} in
          (Resolve (RJson (Js.JObject
             [("user", Js.JObject
                 (Js.set_field "password_hash" Js.JUndefined (user_fields u)));
              ("session", session_json s)])),
           {| db := db a; currentSession := Some s |})
      | Some false => (Reject "Invalid credentials", a)
      end
  | Normal _ => (Reject "Invalid credentials", a)
  end.

(** [this.currentSession?.user.role === r] *)
Definition session_role_is (r : string) (a : app) : bool :=
  match currentSession a with
  | Some s => bool_decide (role (session_user s) = r)
  | None => false
  end.

(** [APIService.getAssignments] *)
Definition getAssignments (a : app) : outcome :=
  let q :=
    if session_role_is "professor" a then
      query "SELECT * FROM assignments WHERE created_by = ?"
        [default "" (userId <$> currentSession a)] "" 0 (db a)
    else query "SELECT * FROM assignments" [] "" 0 (db a) in
  match q with
  | Normal (v, _) => Resolve (RValue v)
  | Throw _ => Uncaught
  end.

(** [APIService.getSubmissions]: without a session the second branch
    reads [userId] of [null]. *)
Definition getSubmissions (a : app) : outcome :=
  if session_role_is "professor" a then
    match query "SELECT * FROM submissions" [] "" 0 (db a) with
    | Normal (v, _) => Resolve (RValue v)
    | Throw _ => Uncaught
    end
  else
    match currentSession a with
    | None => Uncaught
    | Some s =>
        match query "SELECT * FROM submissions WHERE student_id = ?" [userId s]
                "" 0 (db a) with
        | Normal (v, _) => Resolve (RValue v)
        | Throw _ => Uncaught
        end
    end.

(** [APIService.createAssignment] *)
Definition createAssignment (t desc dl ins : string) (id : string) (now : Z)
    (a : app) : outcome * app :=
  match currentSession a with
  | None => (Reject "Unauthorized", a)
  | Some s =>
      if negb (bool_decide (role (session_user s) = "professor")) then
        (Reject "Unauthorized", a)
      else
        match query "INSERT INTO assignments (title, description, deadline, instructions, created_by) VALUES (?, ?, ?, ?, ?)"
                [t; desc; dl; ins; userId s] id now (db a) with
        | Throw m => (Reject m, a)
        | Normal (v, e') =>
            (Resolve (RValue v),
             {| db := e'; currentSession := currentSession a |})
        end
  end.


(** [APIService.createSubmission]; [id] is the identifier [executeInsert]
    would generate and [now] the clock. *)
Definition createSubmission (assignmentId repoLink : string) (id : string)
    (now : Z) (a : app) : outcome * app :=
  match currentSession a with
  | None => (Reject "Unauthorized", a)
  | Some s =>
      if negb (bool_decide (role (session_user s) = "student")) then
        (Reject "Unauthorized", a)
      else
        match find (keyed (db a) (Some assignmentId) (Some (userId s)))
                (t_submissions (db a)) with
        | Some existing =>
            match query "UPDATE submissions SET repo_link = ? WHERE assignment_id = ? AND student_id = ?"
                    [repoLink; assignmentId; userId s] id now (db a) with
            | Throw m => (Reject m, a)
            | Normal (VSubmission l, e') =>
                (Resolve (RValue (VSubmission l)),
                 {| db := e'; currentSession := currentSession a |})
            | Normal (_, e') =>
                (Resolve (RValue (VSubmission existing)),
                 {| db := e'; currentSession := currentSession a |})
            end
        | None =>
            match query "INSERT INTO submissions (assignment_id, student_id, repo_link) VALUES (?, ?, ?)"
                    [assignmentId; userId s; repoLink] id now (db a) with
            | Throw m => (Reject m, a)
            | Normal (v, e') =>
                (Resolve (RValue v),
                 {| db := e'; currentSession := currentSession a |})
            end
        end
  end.

(** *** The page *)

Section Page.

(** [new Date(text)]. *)
Variable Date_parse : string -> Js.Date.

(** [new URL(text)] returns ([URL_parses] is true) or throws a TypeError
    whose message is [URL_error]. *)
Variable URL_parses : string -> bool.
Variable URL_error : string -> string.

(** [isOverdue], at clock [now]. *)
Definition isOverdue (now : Z) (dl : string) : bool :=
  Js.date_gt (Some now) (Date_parse dl).

(** The [catch] of the submission form: message and kind of the
    notification shown. *)
Definition report (msg : string) : string * string :=
  if Js.includes msg "GitHub" then (msg, "error")
  else ("Please enter a valid GitHub repository URL", "error").

(** The submit handler of the submission form, from the values of the
    two fields to the notification it shows, if any. *)
Definition submit_form (assignmentId repoLink : string) (id : string) (now : Z)
    (a : app) : option (string * string) * app :=
  if negb (URL_parses repoLink) then (Some (report (URL_error repoLink)), a)
  else if negb (Js.includes repoLink "github.com") then
    (Some (report "Please provide a GitHub repository URL"), a)
  else
    match createSubmission assignmentId repoLink id now a with
    | (Resolve _, a') => (Some ("Assignment submitted successfully!", "success"), a')
    | (Reject m, a') => (Some (report m), a')
    | (Uncaught, a') => (None, a')
    end.

End Page.

(** The application as the page creates it: a fresh engine, nobody
    logged in. *)
Definition appState : app :=
  {| db := initializeDatabase; currentSession := None |}.

(** *** Sequences of submissions *)

(** One use of the form in a sequence: the clock, the identifier
    [executeInsert] would draw and the link entered. *)
Record submit := {
  at_time : Z;
  drawn : string;
  sent : string
}.

Definition resolved (o : outcome) : bool :=
  match o with
  | Resolve _ => true
  | _ => false
  end.

(** The page calls [createSubmission] for the same assignment again and
    again.  Beside the application, the run keeps the link of the last
    call whose promise resolved. *)
Definition create_one (k : string) (st : app * option string) (c : submit)
  : app * option string :=
  let r := createSubmission k (sent c) (drawn c) (at_time c) (fst st) in
  (snd r, if resolved (fst r) then Some (sent c) else snd st).

Definition create_all (k : string) (cs : list submit) (a : app)
  : app * option string :=
  foldl (create_one k) (a, None) cs.

Definition row_keyed (k me : string) (r : submission) : bool :=
  bool_decide (assignment_id r = k) && bool_decide (student_id r = me).

(** Every reference of the submissions table points into the store. *)
Definition refs_valid (e : engine) : bool :=
  forallb (fun l => (l <? length (store e))%nat) (t_submissions e).

(** The two indexes the listings and the login read agree with their
    tables. *)
Definition indexed (e : engine) : Prop :=
  (forall k, default [] (assignments_created_by e !! k)
             = filter (fun a => created_by a = k) (t_assignments e)) /\
  (forall k, users_email e !! k
             = last (filter (fun u => email u = k) (t_users e))).

(** What a run of [create_one] keeps true, for the session [cs] it starts
    with: the session stays, the table's references stay valid, and the
    references of the pair are none before the first resolved call and
    afterwards exactly one, whose object carries the last link. *)
Definition one_row (cs : option session) (k : string) (st : app * option string)
  : Prop :=
  let e := db (fst st) in
  let me := default "" (userId <$> cs) in
  currentSession (fst st) = cs /\ refs_valid e = true /\
  match snd st with
  | None =>
      filter (fun l => keyed e (Some k) (Some me) l = true) (t_submissions e) = []
  | Some link =>
      exists l row,
        filter (fun l => keyed e (Some k) (Some me) l = true) (t_submissions e) = [l] /\
        store e !! l = Some row /\ repo_link row = link
  end.

End Browser.

(** ** Concrete data used in the examples below *)

(** Time values of the deadline texts of the sample data, read as UTC. *)
Definition clock (s : string) : Js.Date :=
  if bool_decide (s = "2025-09-15T23:59:59") then Some 1757980799000
  else if bool_decide (s = "2025-09-20T23:59:59") then Some 1758412799000
  else if bool_decide (s = "2025-09-15T23:59:59.000Z") then Some 1757980799000
  else if bool_decide (s = "2025-09-20T23:59:59.000Z") then Some 1758412799000
  else None.

(** A stand-in, in the examples, for SQLite's reading of numeric
    literals: it knows the texts of one to fifteen decimal digits, which
    SQLite reads as the integer they spell, and takes every other text
    for a text, as SQLite takes every text used in the examples. *)
Fixpoint digits_value (acc : Z) (s : string) : option Z :=
  match s with
  | EmptyString => Some acc
  | String c r =>
      let n := Z.of_N (N_of_ascii c) in
      if bool_decide (48 <= n <= 57) then digits_value (10 * acc + (n - 48)) r
      else None
  end.

Definition sample_numeric (s : string) : option Js.number :=
  if bool_decide (1 <= String.length s <= 15)%nat
  then Js.number_of_Z <$> digits_value 0 s
  else None.

(** A stand-in for bcrypt in the examples: the hash of [p] is [p] behind a
    fixed prefix. *)
Definition sample_compare (p h : string) : option bool :=
  Some (bool_decide (h = "bcrypt:" ++ p)).

(** The rows [insertSampleData] of server.js puts in an empty file, under
    the schema of server.js.  SQLite reads neither sample deadline as a
    number. *)
Definition sample_db : Server.database :=
  {| Server.users :=
       [ {| Server.user_id := "prof1"; Server.email := "prof.smith@university.edu";
            Server.password_hash := "bcrypt:password123";
            Server.name := "Dr. Sarah Smith"; Server.role := "professor";
            Server.user_created_at := 1755684000 |};
         {| Server.user_id := "stud1"; Server.email := "john.doe@university.edu";
            Server.password_hash := "bcrypt:password123";
            Server.name := "John Doe"; Server.role := "student";
            Server.user_created_at := 1755684000 |};
         {| Server.user_id := "stud2"; Server.email := "jane.smith@university.edu";
            Server.password_hash := "bcrypt:password123";
            Server.name := "Jane Smith"; Server.role := "student";
            Server.user_created_at := 1755684000 |} ];
     Server.assignments :=
       [ {| Server.assignment_pk := "assign1";
            Server.title := "Web Development Project";
            Server.description := Some "Create a responsive website using HTML, CSS, and JavaScript. Include at least 3 pages and implement modern design principles.";
            Server.deadline := Server.DateText "2025-09-15T23:59:59";
            Server.instructions := Some "Submit your GitHub repository link containing the complete project code.";
            Server.created_by := "prof1"; Server.created_at := 1755684000 |};
         {| Server.assignment_pk := "assign2";
            Server.title := "Database Design Assignment";
            Server.description := Some "Design and implement a normalized database schema for a library management system.";
            Server.deadline := Server.DateText "2025-09-20T23:59:59";
            Server.instructions := Some "Include ER diagram, SQL scripts, and documentation in your repository.";
            Server.created_by := "prof1"; Server.created_at := 1755684000 |} ];
     Server.submissions :=
       [ {| Server.submission_pk := "sub1"; Server.assignment_id := "assign1";
            Server.student_id := "stud1";
            Server.repo_link := "https://github.com/johndoe/web-dev-project";
            Server.submitted_at := 1755684000; Server.status := "submitted" |} ];
     Server.submissions_on_delete := Server.NoAction |}.

(** The same file with a second professor among the users and an
    assignment created by that professor. *)
Definition two_professors : Server.database :=
  {| Server.users :=
       Server.users sample_db ++
       [ {| Server.user_id := "prof2"; Server.email := "prof.jones@university.edu";
            Server.password_hash := "bcrypt:secret";
            Server.name := "Dr. Alan Jones"; Server.role := "professor";
            Server.user_created_at := 1755770400 |} ];
     Server.assignments :=
       Server.assignments sample_db ++
       [ {| Server.assignment_pk := "assign3"; Server.title := "Compilers Project";
            Server.description := None; Server.deadline := Server.DateText "2025-09-20T23:59:59";
            Server.instructions := None;
            Server.created_by := "prof2"; Server.created_at := 1755770400 |} ];
     Server.submissions := Server.submissions sample_db;
     Server.submissions_on_delete := Server.NoAction |}.

Definition as_user (id r : string) : Server.session :=
  {| Server.userId := Some id; Server.userRole := Some r |}.

(** The page after a successful login with the sample password. *)
Definition logged_in (e : string) : Browser.app :=
  snd (Browser.login e (Browser.of_string "password123") "session_1"
         1756728000000 Browser.appState).

(** The scenario of the specification, on the server: student stud2
    submits for assign2 a day before its deadline, resubmits an hour
    later, and tries once more a day after the deadline. *)
Definition scenario_postings : list Server.posting :=
  [ {| Server.at_time := 1758326399000; Server.drawn := "5b1f";
       Server.sent := Some "https://github.com/s/x" |};
    {| Server.at_time := 1758329999000; Server.drawn := "9c2e";
       Server.sent := Some "https://github.com/s/y" |};
    {| Server.at_time := 1758499199000; Server.drawn := "e07a";
       Server.sent := Some "https://github.com/s/z" |} ].

(** Two uses of the form in the browser, an hour apart. *)
Definition scenario_submits : list Browser.submit :=
  [ {| Browser.at_time := 1758326399000; Browser.drawn := "id_1";
       Browser.sent := "https://github.com/s/x" |};
    {| Browser.at_time := 1758329999000; Browser.drawn := "id_2";
       Browser.sent := "https://github.com/s/y" |} ].

(** * Properties *)

(** ** The server *)

Module ServerFacts.
Import Server.

Lemma with_assignments_same (d : database) : with_assignments (assignments d) d = d.
Proof. by destruct d. Qed.

Lemma with_submissions_same (d : database) : with_submissions (submissions d) d = d.
Proof. by destruct d. Qed.

(** [requireRole] lets through exactly the sessions that carry a user and
    the role asked for. *)
Lemma requireRole_next (r : string) (s : session) :
  requireRole r s = None <-> Js.truthy (userId s) = true /\ userRole s = Some r.
Proof.
  unfold requireRole.
  destruct (Js.truthy (userId s)); simpl; [|split; [done|by intros [? _]]].
  case_bool_decide; simpl; split; try done; by intros [_ ?].
Qed.

Lemma requireRole_auth (r : string) (s : session) :
  requireRole r s = None -> requireAuth s = None.
Proof.
  intros [H _]%requireRole_next. unfold requireAuth. by rewrite H.
Qed.

(** *** Ownership check of PUT and DELETE *)

Lemma filter_none {A} (P : A -> Prop) `{forall x, Decision (P x)} (l : list A) :
  (forall x, x ∈ l -> ~ P x) -> filter P l = [].
Proof.
  induction l as [|x l IH]; intros Hl; [done|].
  rewrite filter_cons_False; [|apply Hl; left].
  apply IH. intros y Hy. apply Hl. by right.
Qed.

Lemma map_unowned (f : assignment -> assignment) (k o : string) (l : list assignment) :
  (forall a, a ∈ l -> owned k o a = false) ->
  map (fun a => if owned k o a then f a else a) l = l.
Proof.
  induction l as [|x l IH]; intros Hl; [done|]. simpl.
  rewrite (Hl x); [|left]. f_equal. apply IH. intros y Hy. apply Hl. by right.
Qed.

Lemma update_assignment_unowned numeric t desc dl ins k o d :
  (forall a, a ∈ assignments d -> owned k o a = false) ->
  update_assignment numeric t desc dl ins k o d = Changes 0 d.
Proof.
  intros Hl. unfold update_assignment.
  rewrite map_unowned, with_assignments_same by done.
  rewrite filter_none; [done|].
  intros a Ha. rewrite (Hl a Ha). done.
Qed.

Lemma delete_assignment_sql_unowned fk k o d :
  (forall a, a ∈ assignments d -> owned k o a = false) ->
  delete_assignment_sql fk k o d = Changes 0 d.
Proof.
  intros Hl. unfold delete_assignment_sql.
  rewrite filter_none; [done|].
  intros a Ha. rewrite (Hl a Ha). done.
Qed.

Lemma existsb_false {A} (f : A -> bool) (l : list A) :
  existsb f l = false <-> forall x, x ∈ l -> f x = false.
Proof.
  induction l as [|x l IH]; simpl.
  - split; [|done]. intros _ y Hy. by apply elem_of_nil in Hy.
  - rewrite orb_false_iff, IH. split.
    + intros [Hx Hl] y [->|Hy]%elem_of_cons; auto.
    + intros H. split; [apply H; left|intros y Hy; apply H; by right].
Qed.

(** C7, as amended.  For a professor and an identifier under which the
    professor owns no assignment (the identifier may not exist at all):
    DELETE answers 404 "Assignment not found or not authorized"; PUT
    answers the same when title and deadline are both present and 400
    "Title and deadline are required" when one is missing; in every case
    the database is left as it was. *)
Theorem unowned_assignment_untouched (numeric : string -> option Js.number)
    (s : session) (k : string) (t desc dl ins : option string) (d : database) :
  requireRole "professor" s = None ->
  existsb (owned k (default "" (userId s))) (assignments d) = false ->
  delete_assignment s k d = (NotFoundOrForbidden, d) /\
  put_assignment numeric s k t desc dl ins d =
    (if Js.truthy t && Js.truthy dl then NotFoundOrForbidden
     else TitleDeadlineRequired, d).
Proof.
  intros Hrole Hown. pose proof (proj1 (existsb_false _ _) Hown) as Hall.
  unfold delete_assignment, put_assignment.
  rewrite Hrole. split.
  - by rewrite delete_assignment_sql_unowned.
  - destruct (Js.truthy t), (Js.truthy dl); cbn [negb orb andb]; try done.
    by rewrite update_assignment_unowned.
Qed.

Lemma unowned_assignment_untouched_witness :
  delete_assignment (as_user "prof2" "professor") "assign1" two_professors
    = (NotFoundOrForbidden, two_professors) /\
  put_assignment sample_numeric (as_user "prof2" "professor") "assign1"
    (Some "Renamed") None (Some "2025-10-01T00:00:00") None two_professors
    = (NotFoundOrForbidden, two_professors).
Proof.
  apply (unowned_assignment_untouched sample_numeric
           (as_user "prof2" "professor") "assign1"
           (Some "Renamed") None (Some "2025-10-01T00:00:00") None two_professors);
    reflexivity.
Defined.

(** C7 as stated fails for PUT: with the title missing the request is
    turned down by the field check before the ownership check is reached,
    with a different error. *)
Lemma put_unowned_without_title :
  requireRole "professor" (as_user "prof2" "professor") = None /\
  existsb (owned "assign1" "prof2") (assignments two_professors) = false /\
  put_assignment sample_numeric (as_user "prof2" "professor") "assign1"
    None None (Some "2025-10-01T00:00:00") None two_professors
    = (TitleDeadlineRequired, two_professors) /\
  TitleDeadlineRequired <> NotFoundOrForbidden.
Proof. repeat split; try reflexivity. discriminate. Qed.

(** *** Deleting an assignment *)

(** On the connection as server.js opens it, DELETE never touches the
    submissions table, whatever the schema declares. *)
Lemma delete_assignment_keeps_submissions (s : session) (k : string) (d : database) :
  submissions (snd (delete_assignment s k d)) = submissions d.
Proof.
  unfold delete_assignment. destruct (requireRole "professor" s); [done|].
  unfold delete_assignment_sql, foreign_keys.
  destruct (filter _ (assignments d)) as [|a l]; [done|]. done.
Qed.

(** Had the connection enabled enforcement over the schema of the
    initialisation script, the statement would have removed every
    referencing submission. *)
Lemma cascade_removes_references (k o : string) (d d' : database) (n : nat) :
  submissions_on_delete d = Cascade ->
  delete_assignment_sql true k o d = Changes (S n) d' ->
  existsb (references k) (submissions d') = false.
Proof.
  intros Hc. unfold delete_assignment_sql. rewrite Hc.
  destruct (filter _ (assignments d)) as [|a l]; [done|].
  intros [= _ <-]. apply existsb_false. simpl.
  intros s Hs%list_elem_of_filter. by destruct Hs.
Qed.

(** C6 at the sample data: professor prof1 deletes the own assignment
    assign1.  The request succeeds and the assignment is gone, yet the
    submission sub1 is still stored and still refers to assign1. *)
Theorem delete_leaves_submission_behind :
  let r := delete_assignment (as_user "prof1" "professor") "assign1" sample_db in
  code (fst r) = 200%nat /\
  assignment_by_id "assign1" (snd r) = None /\
  existsb (references "assign1") (submissions (snd r)) = true /\
  submissions (snd r) = submissions sample_db.
Proof. repeat split. Qed.

(** *** Listing assignments *)

(** GET /api/assignments has no role branch: any two logged-in callers get
    the same answer. *)
Lemma get_assignments_any_caller (s1 s2 : session) (d : database) :
  requireAuth s1 = None -> requireAuth s2 = None ->
  get_assignments s1 d = get_assignments s2 d.
Proof. intros H1 H2. unfold get_assignments. by rewrite H1, H2. Qed.

(** C4 at the sample data with two professors: the list the server hands
    to prof1 contains assign3, which prof2 created. *)
Theorem professor_sees_foreign_assignment :
  exists rows v,
    get_assignments (as_user "prof1" "professor") two_professors
      = reply 200 (AssignmentRows rows) /\
    v ∈ rows /\
    assignment_pk (av_row v) = "assign3" /\
    created_by (av_row v) = "prof2".
Proof.
  eexists _, _. split; [reflexivity|].
  split; [vm_compute; left|]. split; reflexivity.
Qed.

(** *** Order of the listings *)

Section OrderBy.
Context {A : Type} (key : A -> Z).

Lemma insert_desc_perm (x : A) (l : list A) : insert_desc key x l ≡ₚ x :: l.
Proof.
  induction l as [|y l IH]; simpl; [done|].
  case_bool_decide; [done|]. rewrite IH. apply Permutation_swap.
Qed.

Lemma order_by_desc_perm (l : list A) : order_by_desc key l ≡ₚ l.
Proof.
  induction l as [|x l IH]; simpl; [done|].
  rewrite insert_desc_perm. by f_equiv.
Qed.

Lemma insert_desc_HdRel (x y : A) (l : list A) :
  (descending key) y x -> HdRel (descending key) y l -> HdRel (descending key) y (insert_desc key x l).
Proof.
  intros Hyx Hl. destruct l as [|z l]; simpl; [by constructor|].
  case_bool_decide; constructor; [done|]. by inversion Hl.
Qed.

Lemma insert_desc_sorted (x : A) (l : list A) :
  Sorted (descending key) l -> Sorted (descending key) (insert_desc key x l).
Proof.
  induction 1 as [|y l Hs IH Hd]; simpl; [by repeat constructor|].
  case_bool_decide as Hle.
  - constructor; [by constructor|]. by constructor.
  - constructor; [done|]. apply insert_desc_HdRel; [|done].
    unfold descending. lia.
Qed.

Lemma order_by_desc_sorted (l : list A) : Sorted (descending key) (order_by_desc key l).
Proof.
  induction l as [|x l IH]; simpl; [constructor|]. by apply insert_desc_sorted.
Qed.

End OrderBy.

(** The server's half of C5: whatever the database and whoever the
    logged-in caller, the rows of GET /api/assignments come with
    [created_at] descending and the rows of GET /api/submissions with
    [submitted_at] descending. *)
Lemma server_listings_descending (s : session) (d : database) :
  requireAuth s = None ->
  (exists rows,
     get_assignments s d = reply 200 (AssignmentRows rows) /\
     Sorted (descending (fun v => created_at (av_row v))) rows) /\
  (exists rows,
     get_submissions s d = reply 200 (SubmissionRows rows) /\
     Sorted (descending (fun v => submitted_at (sv_row v))) rows).
Proof.
  intros Hs. unfold get_assignments, get_submissions. rewrite Hs. split.
  - eexists. split; [done|].
    apply order_by_desc_sorted.
  - case_bool_decide; eexists; (split; [done|]);
      apply order_by_desc_sorted.
Qed.

(** *** Submitting *)

(** C3 at the sample data: student stud2 posts the text "not a url" for
    assign2 before its deadline.  The server answers 200 and stores the
    text as the repository link: the handler checks only that the field
    is not empty. *)
Theorem server_stores_any_text :
  let r := post_submissions clock 1756728000000 "7d4c" (as_user "stud2" "student")
             (Some "assign2") (Some "not a url") sample_db in
  fst r = reply 200 (Message "Submission saved successfully") /\
  repo_link <$> filter (fun row => conflicts "assign2" "stud2" row = true)
                  (submissions (snd r)) = ["not a url"].
Proof. repeat split. Qed.

(** The answer of POST /api/submissions does not depend on the link
    beyond its being non-empty. *)
Lemma post_submissions_ignores_link parse now uuid s a (l1 l2 : string) d :
  l1 <> "" -> l2 <> "" ->
  code (fst (post_submissions parse now uuid s a (Some l1) d)) =
  code (fst (post_submissions parse now uuid s a (Some l2) d)).
Proof.
  intros H1 H2. unfold post_submissions.
  destruct (requireRole "student" s); [done|].
  assert (Js.truthy (Some l1) = true) as -> by (simpl; by case_bool_decide).
  assert (Js.truthy (Some l2) = true) as -> by (simpl; by case_bool_decide).
  destruct (Js.truthy a); cbn [negb orb]; [|done].
  destruct (assignment_by_id _ d); [|done].
  destruct (Js.date_gt _ _); [done|].
  unfold upsert_submission.
  destruct (existsb (conflicts _ _) _); [done|].
  by destruct (existsb _ _).
Qed.

(** The server's half of C2: a student's request that carries both fields
    and names an assignment whose deadline lies before the clock is
    answered 400 "Assignment deadline has passed", and the database is
    left as it was. *)
Lemma server_rejects_after_deadline parse now uuid s (k link : string) a dl d :
  requireRole "student" s = None ->
  k <> "" -> link <> "" ->
  assignment_by_id k d = Some a ->
  deadline_date parse (deadline a) = Some dl ->
  dl < now ->
  post_submissions parse now uuid s (Some k) (Some link) d = (DeadlinePassed, d).
Proof.
  intros Hs Hk Hl Ha Hp Hlt. unfold post_submissions. rewrite Hs.
  assert (Js.truthy (Some k) = true) as -> by (simpl; by case_bool_decide).
  assert (Js.truthy (Some link) = true) as -> by (simpl; by case_bool_decide).
  cbn [negb orb from_option id]. rewrite Ha, Hp. simpl.
  by rewrite bool_decide_eq_true_2.
Qed.

(** *** The upsert *)

Lemma truthy_default (v : option string) :
  Js.truthy v = true -> v = Some (default "" v).
Proof. by destruct v. Qed.

Lemma requireRole_refuses (r : string) (s : session) (x : response) :
  requireRole r s = Some x -> accepted x = false.
Proof.
  unfold requireRole. destruct (negb _); [by intros [= <-]|].
  destruct (negb _); [by intros [= <-]|done].
Qed.

(** What an accepted POST /api/submissions did: it ran the upsert for the
    assignment named and the caller, at the second of the clock. *)
Lemma post_submissions_accepted parse now uuid s a l d :
  accepted (fst (post_submissions parse now uuid s a l d)) = true ->
  requireRole "student" s = None /\ Js.truthy a = true /\ Js.truthy l = true /\
  upsert_submission (CURRENT_TIMESTAMP now) uuid (default "" a)
    (default "" (userId s)) (default "" l) d
    = Changes 1 (snd (post_submissions parse now uuid s a l d)).
Proof.
  unfold post_submissions.
  destruct (requireRole "student" s) as [x|] eqn:Hs;
    [simpl; by rewrite (requireRole_refuses _ _ _ Hs)|].
  destruct (Js.truthy a), (Js.truthy l); cbn [negb orb]; try done.
  destruct (assignment_by_id _ d); [|done].
  destruct (Js.date_gt _ _); [done|].
  unfold upsert_submission.
  destruct (existsb (conflicts _ _) _); [done|].
  by destruct (existsb _ _).
Qed.

(** A request that is not accepted leaves the database as it was. *)
Lemma post_submissions_refused parse now uuid s a l d :
  accepted (fst (post_submissions parse now uuid s a l d)) = false ->
  snd (post_submissions parse now uuid s a l d) = d.
Proof.
  unfold post_submissions.
  destruct (requireRole "student" s); [done|].
  destruct (_ || _); [done|].
  destruct (assignment_by_id _ d); [|done].
  destruct (Js.date_gt _ _); [done|].
  by destruct (upsert_submission _ _ _ _ _ _).
Qed.

Lemma conflicts_do_update a s link ts r :
  conflicts a s (do_update link ts r) = conflicts a s r.
Proof. done. Qed.

Lemma existsb_filter_nil {A} (f : A -> bool) (l : list A) :
  existsb f l = false <-> filter (fun x => f x = true) l = [].
Proof.
  rewrite existsb_false. split.
  - intros H. apply filter_none. intros x Hx. rewrite (H x Hx). done.
  - intros H x Hx. destruct (f x) eqn:Hfx; [|done].
    assert (x ∈ filter (fun x => f x = true) l) as Hin
      by (apply list_elem_of_filter; done).
    rewrite H in Hin. by apply elem_of_nil in Hin.
Qed.

Lemma filter_updated a s link ts (l : list submission) :
  filter (fun r => conflicts a s r = true)
    (map (fun r => if conflicts a s r then do_update link ts r else r) l)
  = map (do_update link ts) (filter (fun r => conflicts a s r = true) l).
Proof.
  induction l as [|r l IH]; [done|]. simpl.
  destruct (conflicts a s r) eqn:Hr.
  - rewrite !filter_cons_True by (by rewrite ?conflicts_do_update). simpl.
    by rewrite IH.
  - rewrite !filter_cons_False by (by rewrite Hr). done.
Qed.

(** The server's half of C8.  An accepted request leaves users and
    assignments alone.  When the caller already has a row for the
    assignment, the table keeps its length and its order, every row keeps
    its identifier, pair and status, the caller's row takes the new link
    and the second of the clock, and every other row is unchanged.  When
    there is none, one row is appended, with the identifier drawn, the
    pair, the link, the second of the clock and status 'submitted'. *)
Lemma server_upsert_frame parse now uuid s a l d :
  let r := post_submissions parse now uuid s a l d in
  let k := default "" a in
  let me := default "" (userId s) in
  accepted (fst r) = true ->
  users (snd r) = users d /\ assignments (snd r) = assignments d /\
  if existsb (conflicts k me) (submissions d) then
    length (submissions (snd r)) = length (submissions d) /\
    forall i row, submissions d !! i = Some row ->
      exists row', submissions (snd r) !! i = Some row' /\
        submission_pk row' = submission_pk row /\
        assignment_id row' = assignment_id row /\
        student_id row' = student_id row /\
        status row' = status row /\
        if conflicts k me row
        then repo_link row' = default "" l /\
             submitted_at row' = CURRENT_TIMESTAMP now
        else row' = row
  else
    exists row', submissions (snd r) = (submissions d ++ [row'])%list /\
      submission_pk row' = uuid /\ assignment_id row' = k /\
      student_id row' = me /\ repo_link row' = default "" l /\
      submitted_at row' = CURRENT_TIMESTAMP now /\ status row' = "submitted".
Proof.
  intros r k me Hacc.
  destruct (post_submissions_accepted _ _ _ _ _ _ _ Hacc) as (_ & _ & _ & Hup).
  fold r k me in Hup. revert Hup. unfold upsert_submission.
  destruct (existsb (conflicts k me) (submissions d)) eqn:Hex.
  - intros [= <-]. simpl. split; [done|]. split; [done|].
    split; [by rewrite length_map|].
    intros i row Hi. rewrite list_lookup_fmap, Hi. simpl.
    eexists. split; [done|].
    destruct (conflicts k me row); simpl; done.
  - clear Hex. destruct (existsb _ _); [done|]. intros [= <-]. simpl.
    split; [done|]. split; [done|]. eexists. split; [done|]. done.
Qed.

(** *** Sequences of requests *)

Lemma post_one_keeps_one_row parse s a st p :
  one_row (default "" a) (default "" (userId s)) st ->
  one_row (default "" a) (default "" (userId s)) (post_one parse s a st p).
Proof.
  destruct st as [d m]. unfold post_one, one_row. simpl.
  set (r := post_submissions _ _ _ _ _ _ _).
  destruct (accepted (fst r)) eqn:Hacc.
  - destruct (post_submissions_accepted _ _ _ _ _ _ _ Hacc) as (_ & _ & Hl & Hup).
    fold r in Hup. rewrite (truthy_default _ Hl). revert Hup.
    unfold upsert_submission.
    destruct (existsb _ (submissions d)) eqn:Hex.
    + intros [= <-]. simpl. rewrite filter_updated.
      destruct m as [l'|].
      * intros (row & -> & _). by eexists.
      * intros Hnil. apply existsb_filter_nil in Hnil. congruence.
    + apply existsb_filter_nil in Hex.
      destruct (existsb _ _); [done|]. intros [= <-] _. simpl.
      rewrite filter_app, Hex. simpl.
      rewrite filter_cons_True.
      * by eexists.
      * unfold conflicts. simpl. by rewrite !bool_decide_eq_true_2.
  - assert (snd r = d) as ->
      by exact (post_submissions_refused _ _ _ _ _ _ _ Hacc).
    done.
Qed.

Lemma post_all_keeps_one_row parse s a ps st :
  one_row (default "" a) (default "" (userId s)) st ->
  one_row (default "" a) (default "" (userId s)) (foldl (post_one parse s a) st ps).
Proof.
  revert st. induction ps as [|p ps IH]; intros st Hst; [done|].
  simpl. apply IH. by apply post_one_keeps_one_row.
Qed.

(** The server's half of C1, as amended. *)
Lemma server_single_row parse s a ps d :
  let k := default "" a in
  let me := default "" (userId s) in
  existsb (conflicts k me) (submissions d) = false ->
  match snd (post_all parse s a ps d) with
  | Some link =>
      exists row,
        filter (fun r => conflicts k me r = true)
          (submissions (fst (post_all parse s a ps d))) = [row] /\
        repo_link row = link
  | None =>
      filter (fun r => conflicts k me r = true)
        (submissions (fst (post_all parse s a ps d))) = []
  end.
Proof.
  intros k me Hnone.
  apply (post_all_keeps_one_row parse s a ps (d, None)).
  unfold one_row. simpl. by apply existsb_filter_nil.
Qed.

(** *** Login *)

Lemma user_by_email_none (e : string) (d : database) :
  user_by_email e d = None <-> forall u, u ∈ users d -> email u <> e.
Proof.
  unfold user_by_email. induction (users d) as [|u l IH]; simpl.
  - split; [|done]. intros _ u Hu. by apply elem_of_nil in Hu.
  - case_bool_decide as He.
    + split; [done|]. intros H. exfalso. apply (H u); [left|done].
    + rewrite IH. split.
      * intros H u' [->|Hu']%elem_of_cons; auto.
      * intros H u' Hu'. apply H. by right.
Qed.

(** The server's half of C9, as amended: with both fields present, an
    e-mail address no user has and a password bcrypt does not accept are
    both answered 401 "Invalid credentials" with the session untouched,
    and a 200 answer carries a profile with the keys id, email, name and
    role only. *)
Lemma server_login_outcomes compare (e p : string) (s : session) (d : database) :
  e <> "" -> p <> "" ->
  ((forall u, u ∈ users d -> email u <> e) ->
   login compare (Some e) (Some p) s d = (InvalidCredentials, s)) /\
  (forall u, user_by_email e d = Some u ->
     compare p (password_hash u) = Some false ->
     login compare (Some e) (Some p) s d = (InvalidCredentials, s)) /\
  (code (fst (login compare (Some e) (Some p) s d)) = 200%nat ->
   exists profile,
     body (fst (login compare (Some e) (Some p) s d))
       = Json (Js.JObject [("user", Js.JObject profile)]) /\
     fst <$> profile = ["id"; "email"; "name"; "role"] /\
     Js.get_field "password_hash" profile = None).
Proof.
  intros He Hp. unfold login.
  assert (Js.truthy (Some e) = true) as -> by (simpl; by case_bool_decide).
  assert (Js.truthy (Some p) = true) as -> by (simpl; by case_bool_decide).
  cbn [negb orb from_option id]. split; [|split].
  - intros Hnone%user_by_email_none. by rewrite Hnone.
  - intros u -> ->. done.
  - destruct (user_by_email e d) as [u|]; [|done].
    destruct (compare p (password_hash u)) as [[]|]; try done.
    intros _. eexists. split; [reflexivity|]. split; reflexivity.
Qed.

(** A missing or empty field is turned down before any user is looked
    up. *)
Lemma server_login_missing_field compare (e p : option string) (s : session)
    (d : database) :
  Js.truthy e = false \/ Js.truthy p = false ->
  login compare e p s d = (CredentialsRequired, s).
Proof.
  intros H. unfold login.
  assert (negb (Js.truthy e) || negb (Js.truthy p) = true) as ->; [|done].
  destruct H as [-> | ->]; [done|]. apply orb_true_r.
Qed.

(** An empty e-mail address is turned down before any user is looked up,
    with an error that is not "Invalid credentials". *)
Lemma server_login_empty_email :
  (forall u, u ∈ users sample_db -> email u <> "") /\
  login sample_compare (Some "") (Some "password123") no_session sample_db
    = (CredentialsRequired, no_session) /\
  CredentialsRequired <> InvalidCredentials.
Proof.
  split; [|split; [reflexivity|discriminate]].
  intros u Hu. vm_compute in Hu.
  repeat (apply elem_of_cons in Hu as [->|Hu]; [discriminate|]).
  by apply elem_of_nil in Hu.
Qed.

End ServerFacts.

(** ** The in-browser simulation *)

Module BrowserFacts.
Import Browser.

(** *** The statements the API sends, as the engine dispatches them *)

Lemma query_update (params : list string) (id : string) (now : Z) (e : engine) :
  query "UPDATE submissions SET repo_link = ? WHERE assignment_id = ? AND student_id = ?"
    params id now e
  = Normal
      match find (keyed e (params !! 1%nat) (params !! 2%nat)) (t_submissions e) with
      | Some l =>
          (VSubmission l,
           set_store (alter (overwrite (param params 0) now) l (store e)) e)
      | None => (VNull, e)
      end.
Proof. reflexivity. Qed.

Lemma query_insert_submission (params : list string) (id : string) (now : Z)
    (e : engine) :
  query "INSERT INTO submissions (assignment_id, student_id, repo_link) VALUES (?, ?, ?)"
    params id now e
  = executeInsert "insert into submissions (assignment_id, student_id, repo_link) values (?, ?, ?)"
      params id now e.
Proof. reflexivity. Qed.

Lemma query_user_by_email (params : list string) (id : string) (now : Z) (e : engine) :
  query "SELECT * FROM users WHERE email = ?" params id now e
  = Normal (match index_get (users_email e) params 0 with
            | Some u => VUser u
            | None => VUndefined
            end, e).
Proof. reflexivity. Qed.

Lemma query_assignments_by_creator (params : list string) (id : string) (now : Z)
    (e : engine) :
  query "SELECT * FROM assignments WHERE created_by = ?" params id now e
  = Normal (VAssignments
              (default [] (index_get (assignments_created_by e) params 0)), e).
Proof. reflexivity. Qed.

Lemma query_assignments (params : list string) (id : string) (now : Z) (e : engine) :
  query "SELECT * FROM assignments" params id now e
  = Normal (VAssignments (t_assignments e), e).
Proof. reflexivity. Qed.

(** *** [createSubmission], case by case *)

Lemma createSubmission_unauthorized k link id now a :
  session_role_is "student" a = false ->
  createSubmission k link id now a = (Reject "Unauthorized", a).
Proof.
  unfold session_role_is, createSubmission.
  destruct (currentSession a) as [s|]; [|done].
  intros ->. done.
Qed.

(** With a student logged in and a submission found for the pair, the
    object found is changed in place and the promise resolves with it. *)
Lemma createSubmission_update k link id now a s l :
  currentSession a = Some s ->
  role (session_user s) = "student" ->
  find (keyed (db a) (Some k) (Some (userId s))) (t_submissions (db a)) = Some l ->
  createSubmission k link id now a
  = (Resolve (RValue (VSubmission l)),
     {| db := set_store (alter (overwrite link now) l (store (db a))) (db a);
        currentSession := Some s |}).
Proof.
  intros Hs Hr Hf. unfold createSubmission.
  rewrite Hs, Hr, Hf, query_update. simpl. by rewrite Hf.
Qed.

(** With a student logged in and no submission for the pair, a new
    object is stored and pushed on the table and on both indexes. *)
Lemma createSubmission_insert k link id now a s :
  currentSession a = Some s ->
  role (session_user s) = "student" ->
  find (keyed (db a) (Some k) (Some (userId s))) (t_submissions (db a)) = None ->
  let new := {| submission_pk := id; assignment_id := k; student_id := userId s;
                repo_link := link; submitted_at := now; status := "submitted" |} in
  let l := length (store (db a)) in
  createSubmission k link id now a
  = (Resolve (RValue (VSubmission l)),
     {| db :=
          {| store := store (db a) ++ [new];
             t_users := t_users (db a);
             t_assignments := t_assignments (db a);
             t_submissions := t_submissions (db a) ++ [l];
             users_email := users_email (db a);
             assignments_created_by := assignments_created_by (db a);
             submissions_assignment_id :=
               index_push k l (submissions_assignment_id (db a));
             submissions_student_id :=
               index_push (userId s) l (submissions_student_id (db a)) |};
        currentSession := Some s |}).
Proof.
  intros Hs Hr Hf. unfold createSubmission.
  rewrite Hs, Hr, Hf, query_insert_submission. reflexivity.
Qed.

(** A student's call always resolves: nothing in [createSubmission] looks
    at the assignment, its deadline or the clock before writing. *)
Lemma createSubmission_resolves k link id now a :
  session_role_is "student" a = true ->
  resolved (fst (createSubmission k link id now a)) = true.
Proof.
  unfold session_role_is. destruct (currentSession a) as [s|] eqn:Hs; [|done].
  intros Hr%bool_decide_eq_true.
  destruct (find (keyed (db a) (Some k) (Some (userId s))) (t_submissions (db a)))
    as [l|] eqn:Hf.
  - by rewrite (createSubmission_update _ _ _ _ _ _ _ Hs Hr Hf).
  - by rewrite (createSubmission_insert _ _ _ _ _ _ Hs Hr Hf).
Qed.

Lemma createSubmission_resolved_student k link id now a :
  resolved (fst (createSubmission k link id now a)) = true ->
  session_role_is "student" a = true.
Proof.
  destruct (session_role_is "student" a) eqn:H; [done|].
  by rewrite createSubmission_unauthorized.
Qed.

(** *** Finding the submission of a pair *)

Lemma find_head {A} (f : A -> bool) (l : list A) :
  find f l = head (filter (fun x => f x = true) l).
Proof.
  induction l as [|x l IH]; [done|]. simpl.
  destruct (f x) eqn:Hx.
  - by rewrite filter_cons_True.
  - rewrite filter_cons_False by (by rewrite Hx). done.
Qed.

Lemma find_existsb {A} (f : A -> bool) (l : list A) :
  existsb f l = bool_decide (is_Some (find f l)).
Proof.
  induction l as [|x l IH]; [done|]. simpl.
  by destruct (f x).
Qed.

Lemma find_elem {A} (f : A -> bool) (l : list A) (x : A) :
  find f l = Some x -> f x = true /\ x ∈ l.
Proof.
  rewrite find_head. intros Hh.
  assert (x ∈ filter (fun x => f x = true) l) as Hin.
  { destruct (filter _ l) as [|y r]; [done|]. injection Hh as ->. left. }
  apply list_elem_of_filter in Hin. tauto.
Qed.

Lemma keyed_row e (k me : string) l :
  keyed e (Some k) (Some me) l = true <->
  exists row, store e !! l = Some row /\ row_keyed k me row = true.
Proof.
  unfold keyed, row_keyed. destruct (store e !! l) as [row|]; split.
  - intros H. exists row. split; [done|].
    apply andb_true_iff in H as [H1%bool_decide_eq_true H2%bool_decide_eq_true].
    apply andb_true_iff.
    split; apply bool_decide_eq_true_2; congruence.
  - intros (row' & [= <-] & H).
    apply andb_true_iff in H as [H1%bool_decide_eq_true H2%bool_decide_eq_true].
    apply andb_true_iff.
    split; apply bool_decide_eq_true_2; congruence.
  - done.
  - by intros (row' & ? & _).
Qed.

(** The browser's half of C8.  When the promise of [createSubmission]
    resolves, the users and assignments tables are as before.  If the
    table held a submission for the assignment and the caller, the promise
    resolves with the first such object; that object has the new link and
    the clock as [submitted_at] and keeps its identifier, pair and status;
    the table holds the same references and every other object of the
    store is as before.  Otherwise one new object is stored and its
    reference pushed on the table; it carries the identifier drawn, the
    pair, the link, the clock and status 'submitted'. *)
Lemma browser_upsert_frame k link id now a :
  let r := createSubmission k link id now a in
  let e := db a in
  let e' := db (snd r) in
  let me := default "" (userId <$> currentSession a) in
  resolved (fst r) = true ->
  t_users e' = t_users e /\ t_assignments e' = t_assignments e /\
  if existsb (keyed e (Some k) (Some me)) (t_submissions e) then
    exists l old new,
      fst r = Resolve (RValue (VSubmission l)) /\
      find (keyed e (Some k) (Some me)) (t_submissions e) = Some l /\
      store e !! l = Some old /\ store e' !! l = Some new /\
      submission_pk new = submission_pk old /\
      assignment_id new = assignment_id old /\
      student_id new = student_id old /\
      status new = status old /\
      repo_link new = link /\ submitted_at new = now /\
      t_submissions e' = t_submissions e /\
      length (store e') = length (store e) /\
      forall l', l' <> l -> store e' !! l' = store e !! l'
  else
    exists new,
      fst r = Resolve (RValue (VSubmission (length (store e)))) /\
      store e' = (store e ++ [new])%list /\
      t_submissions e' = (t_submissions e ++ [length (store e)])%list /\
      submission_pk new = id /\ assignment_id new = k /\ student_id new = me /\
      repo_link new = link /\ submitted_at new = now /\ status new = "submitted".
Proof.
  intros r e e' me Hres.
  pose proof (createSubmission_resolved_student _ _ _ _ _ Hres) as Hrole.
  unfold session_role_is in Hrole.
  destruct (currentSession a) as [s|] eqn:Hs; [|done].
  apply bool_decide_eq_true in Hrole.
  subst r e e' me. simpl. rewrite find_existsb.
  destruct (find (keyed (db a) (Some k) (Some (userId s))) (t_submissions (db a)))
    as [l|] eqn:Hf.
  - rewrite (createSubmission_update _ _ _ _ _ _ _ Hs Hrole Hf). simpl.
    split; [done|]. split; [done|].
    destruct (find_elem _ _ _ Hf) as [(old & Hold & _)%keyed_row _].
    exists l, old, (overwrite link now old).
    repeat split; try done.
    + by rewrite list_lookup_alter_eq, Hold.
    + by rewrite length_alter.
    + intros l' Hne. by rewrite list_lookup_alter_ne.
  - rewrite (createSubmission_insert _ _ _ _ _ _ Hs Hrole Hf). simpl.
    split; [done|]. split; [done|].
    eexists. repeat split.
Qed.

(** *** Sequences of calls *)

Lemma keyed_spec e (k me : string) l :
  keyed e (Some k) (Some me) l =
  match store e !! l with
  | Some row => row_keyed k me row
  | None => false
  end.
Proof.
  unfold keyed, row_keyed. destruct (store e !! l) as [row|]; [|done].
  f_equal; apply bool_decide_ext; split; congruence.
Qed.

Lemma filter_agree {A} (P Q : A -> Prop) `{forall x, Decision (P x)}
    `{forall x, Decision (Q x)} (l : list A) :
  (forall x, x ∈ l -> P x <-> Q x) -> filter P l = filter Q l.
Proof.
  induction l as [|x l IH]; intros Hl; [done|].
  assert (filter P l = filter Q l) as Hrec.
  { apply IH. intros y Hy. apply Hl. by right. }
  destruct (decide (P x)) as [HP|HP].
  - rewrite !filter_cons_True; [by rewrite Hrec| |done]. apply Hl; [left|done].
  - rewrite !filter_cons_False; [done| |done]. intros HQ. apply HP, Hl; [left|done].
Qed.

Lemma omap_cons_Some {A B} (f : A -> option B) (x : A) (l : list A) (y : B) :
  f x = Some y -> omap f (x :: l) = y :: omap f l.
Proof. intros H. simpl. by rewrite H. Qed.

Lemma omap_cons_None {A B} (f : A -> option B) (x : A) (l : list A) :
  f x = None -> omap f (x :: l) = omap f l.
Proof. intros H. simpl. by rewrite H. Qed.

(** The rows of the pair, read through the table. *)
Lemma rows_of_pair e (k me : string) :
  filter (fun r => row_keyed k me r = true) (rows e)
  = omap (fun l => store e !! l)
      (filter (fun l => keyed e (Some k) (Some me) l = true) (t_submissions e)).
Proof.
  unfold rows. induction (t_submissions e) as [|l t IH]; [done|].
  pose proof (keyed_spec e k me l) as Hk.
  destruct (store e !! l) as [row|] eqn:Hl.
  - rewrite (omap_cons_Some (fun l => store e !! l) l t row Hl).
    destruct (row_keyed k me row) eqn:Hr.
    + rewrite !filter_cons_True by congruence.
      by rewrite (omap_cons_Some (fun l => store e !! l) l _ row Hl), IH.
    + rewrite !filter_cons_False by congruence. done.
  - rewrite (omap_cons_None (fun l => store e !! l) l t Hl).
    rewrite filter_cons_False by congruence. done.
Qed.

Lemma keyed_after_update e link now l0 a b l :
  keyed (set_store (alter (overwrite link now) l0 (store e)) e) a b l
  = keyed e a b l.
Proof.
  unfold keyed. simpl. destruct (decide (l0 = l)) as [->|Hne].
  - rewrite list_lookup_alter_eq. by destruct (store e !! l).
  - by rewrite list_lookup_alter_ne.
Qed.

Lemma refs_valid_spec (e : engine) :
  refs_valid e = true <->
  Forall (fun l => (l < length (store e))%nat) (t_submissions e).
Proof.
  unfold refs_valid. rewrite forallb_forall, Forall_forall.
  split; intros H l Hl.
  - apply Nat.ltb_lt, H. by apply list_elem_of_In.
  - apply Nat.ltb_lt, H. by apply list_elem_of_In.
Qed.

Lemma create_one_keeps_one_row cs k st c :
  one_row cs k st -> one_row cs k (create_one k st c).
Proof.
  destruct st as [a m]. unfold one_row, create_one. simpl.
  intros (Hcs & Hvalid & Hrows).
  destruct (session_role_is "student" a) eqn:Hrole.
  2: { rewrite createSubmission_unauthorized by done. simpl. done. }
  unfold session_role_is in Hrole. rewrite Hcs in Hrole.
  destruct cs as [s|]; [|done]. apply bool_decide_eq_true in Hrole. simpl in *.
  destruct (find (keyed (db a) (Some k) (Some (userId s))) (t_submissions (db a)))
    as [l0|] eqn:Hf.
  - rewrite (createSubmission_update _ _ _ _ _ _ _ Hcs Hrole Hf). simpl.
    split; [done|]. split.
    { apply refs_valid_spec. apply refs_valid_spec in Hvalid. simpl.
      by rewrite length_alter. }
    rewrite find_head in Hf.
    destruct m as [link0|].
    + destruct Hrows as (l & row & Hl & Hrow & _).
      rewrite Hl in Hf. injection Hf as <-.
      exists l, (overwrite (sent c) (at_time c) row). split; [|split; [|done]].
      * rewrite <- Hl. apply filter_agree. intros x _.
        by rewrite keyed_after_update.
      * by rewrite list_lookup_alter_eq, Hrow.
    + by rewrite Hrows in Hf.
  - rewrite (createSubmission_insert _ _ _ _ _ _ Hcs Hrole Hf). simpl.
    rewrite find_head in Hf.
    assert (filter (fun l => keyed (db a) (Some k) (Some (userId s)) l = true)
              (t_submissions (db a)) = []) as Hnil.
    { destruct (filter _ _); [done|by simpl in Hf]. }
    split; [done|]. split.
    { apply refs_valid_spec. apply refs_valid_spec in Hvalid.
      simpl. rewrite length_app. simpl.
      apply Forall_app. split.
      - eapply Forall_impl; [exact Hvalid|]. simpl. lia.
      - apply Forall_singleton. lia. }
    eexists (length (store (db a))), _. split; [|split].
    2: { simpl. by rewrite list_lookup_middle. }
    2: done.
    rewrite filter_app.
    rewrite (filter_agree _ (fun l => keyed (db a) (Some k) (Some (userId s)) l = true)).
    + rewrite Hnil. simpl. rewrite filter_cons_True; [done|].
      unfold keyed. simpl. rewrite list_lookup_middle by done.
      by rewrite !bool_decide_eq_true_2.
    + intros x Hx. unfold keyed. simpl.
      rewrite lookup_app_l; [done|].
      apply refs_valid_spec in Hvalid. rewrite Forall_forall in Hvalid.
      by apply Hvalid.
Qed.

Lemma create_all_keeps_one_row cs k cs' st :
  one_row cs k st -> one_row cs k (foldl (create_one k) st cs').
Proof.
  revert st. induction cs' as [|c cs' IH]; intros st Hst; [done|].
  simpl. apply IH. by apply create_one_keeps_one_row.
Qed.

(** The browser's half of C1, as amended. *)
Lemma browser_single_row k cs a :
  let me := default "" (userId <$> currentSession a) in
  refs_valid (db a) = true ->
  existsb (row_keyed k me) (rows (db a)) = false ->
  match snd (create_all k cs a) with
  | Some link =>
      exists row,
        filter (fun r => row_keyed k me r = true)
          (rows (db (fst (create_all k cs a)))) = [row] /\
        repo_link row = link
  | None =>
      filter (fun r => row_keyed k me r = true)
        (rows (db (fst (create_all k cs a)))) = []
  end.
Proof.
  intros me Hvalid Hnone.
  assert (one_row (currentSession a) k (create_all k cs a)) as H.
  { apply create_all_keeps_one_row. unfold one_row. simpl.
    split; [done|]. split; [done|].
    apply ServerFacts.existsb_filter_nil in Hnone.
    rewrite rows_of_pair in Hnone.
    destruct (filter _ (t_submissions (db a))) as [|l t] eqn:Hfl; [done|].
    exfalso. simpl in Hnone.
    assert (l ∈ t_submissions (db a)) as Hin.
    { eapply (list_elem_of_filter _ _ l). rewrite Hfl. left. }
    apply refs_valid_spec in Hvalid. rewrite Forall_forall in Hvalid.
    apply Hvalid, lookup_lt_is_Some in Hin. destruct Hin as [row Hrow].
    by rewrite Hrow in Hnone. }
  destruct H as (_ & _ & H). subst me. rewrite rows_of_pair.
  destruct (snd (create_all k cs a)) as [link|].
  - destruct H as (l & row & Hl & Hrow & Hlink).
    exists row. split; [|done]. rewrite Hl. simpl. by rewrite Hrow.
  - by rewrite H.
Qed.

(** The table of a fresh engine holds valid references, and the API keeps
    it so. *)
Lemma initial_state_refs_valid : refs_valid (db appState) = true.
Proof. reflexivity. Qed.

Lemma createSubmission_keeps_refs_valid k link id now a :
  refs_valid (db a) = true ->
  refs_valid (db (snd (createSubmission k link id now a))) = true.
Proof.
  intros Hv. destruct (session_role_is "student" a) eqn:Hrole.
  2: { by rewrite createSubmission_unauthorized. }
  unfold session_role_is in Hrole.
  destruct (currentSession a) as [s|] eqn:Hs; [|done].
  apply bool_decide_eq_true in Hrole.
  apply refs_valid_spec in Hv. apply refs_valid_spec.
  destruct (find (keyed (db a) (Some k) (Some (userId s))) (t_submissions (db a)))
    as [l|] eqn:Hf.
  - rewrite (createSubmission_update _ _ _ _ _ _ _ Hs Hrole Hf). simpl.
    by rewrite length_alter.
  - rewrite (createSubmission_insert _ _ _ _ _ _ Hs Hrole Hf). simpl.
    rewrite length_app. simpl. apply Forall_app. split.
    + eapply Forall_impl; [exact Hv|]. simpl. lia.
    + apply Forall_singleton. lia.
Qed.

(** *** The simulated hash *)

Lemma latin1_app (s t : ustring) : latin1 (s ++ t)%list = latin1 s && latin1 t.
Proof. apply forallb_app. Qed.

Lemma hashPassword_latin1 (p : ustring) :
  latin1 p = true -> is_Some (hashPassword p).
Proof.
  intros H. unfold hashPassword, btoa. rewrite latin1_app, H. by eexists.
Qed.

Lemma hashPassword_throws (p : ustring) :
  latin1 p = false -> hashPassword p = None /\ forall h, verifyPassword p h = None.
Proof.
  intros H.
  assert (hashPassword p = None) as Hh.
  { unfold hashPassword, btoa. by rewrite latin1_app, H. }
  split; [done|]. intros h. unfold verifyPassword. by rewrite Hh.
Qed.

(** C10, as amended.  For a password whose code units are all at most
    255, [hashPassword] returns a hash, [verifyPassword] accepts the
    password against that hash, and any two calls on the password return
    the same hash. *)
Theorem hash_then_verify (p : ustring) :
  latin1 p = true ->
  (exists h, hashPassword p = Some h /\ verifyPassword p h = Some true) /\
  (forall h1 h2, hashPassword p = Some h1 -> hashPassword p = Some h2 -> h1 = h2).
Proof.
  intros Hp. split.
  - destruct (hashPassword_latin1 p Hp) as [h Hh]. exists h. split; [done|].
    unfold verifyPassword. rewrite Hh. by rewrite bool_decide_eq_true_2.
  - intros h1 h2 H1 H2. congruence.
Qed.

Lemma hash_then_verify_witness :
  (exists h, hashPassword (of_string "password123") = Some h /\
             verifyPassword (of_string "password123") h = Some true) /\
  (forall h1 h2, hashPassword (of_string "password123") = Some h1 ->
                 hashPassword (of_string "password123") = Some h2 -> h1 = h2).
Proof. apply (hash_then_verify (of_string "password123")). reflexivity. Defined.

(** C10 as stated fails on a password with a character beyond U+00FF, the
    euro sign for one: [btoa] throws, so [hashPassword] returns no hash
    and [verifyPassword] returns nothing either. *)
Lemma hash_of_euro_sign_throws :
  latin1 [8364%N] = false /\
  hashPassword [8364%N] = None /\
  verifyPassword [8364%N] "$2b$10$4oKsc2FsdA" = None.
Proof. repeat split. Qed.

(** *** The indexes *)

Lemma index_push_lookup {A} (k k' : string) (x : A) (m : gmap string (list A)) :
  default [] (index_push k x m !! k')
  = (default [] (m !! k') ++ if bool_decide (k = k') then [x] else [])%list.
Proof.
  unfold index_push. case_bool_decide as Hk.
  - subst. by rewrite lookup_insert_eq.
  - rewrite lookup_insert_ne by done. by rewrite app_nil_r.
Qed.

Lemma filter_snoc {A} (P : A -> Prop) `{forall x, Decision (P x)} (l : list A) (x : A) :
  filter P (l ++ [x])%list = (filter P l ++ if bool_decide (P x) then [x] else [])%list.
Proof.
  rewrite filter_app. f_equal. case_bool_decide.
  - by rewrite filter_cons_True.
  - by rewrite filter_cons_False.
Qed.

Lemma foldl_index_push {A} (key : A -> string) (l : list A)
    (m : gmap string (list A)) (k : string) :
  default [] (foldl (fun m a => index_push (key a) a m) m l !! k)
  = (default [] (m !! k) ++ filter (fun a => key a = k) l)%list.
Proof.
  revert m. induction l as [|x l IH] using rev_ind; intros m.
  - by rewrite app_nil_r.
  - rewrite foldl_app. simpl. rewrite index_push_lookup, IH, filter_snoc.
    by rewrite app_assoc.
Qed.

Lemma last_filter_snoc {A} (P : A -> Prop) `{forall x, Decision (P x)}
    (l : list A) (x : A) :
  last (filter P (l ++ [x])%list) = if bool_decide (P x) then Some x else last (filter P l).
Proof.
  rewrite filter_snoc. case_bool_decide.
  - by rewrite last_snoc.
  - by rewrite app_nil_r.
Qed.

Lemma foldl_users_email (l : list user) (k : string) :
  foldl (fun m u => <[email u := u]> m) (∅ : gmap string user) l !! k
  = last (filter (fun u => email u = k) l).
Proof.
  induction l as [|x l IH] using rev_ind; [done|].
  rewrite foldl_app, last_filter_snoc. simpl. case_bool_decide as Hk.
  - subst. by rewrite lookup_insert_eq.
  - by rewrite lookup_insert_ne.
Qed.

Lemma createIndexes_indexed (e : engine) : indexed (createIndexes e).
Proof.
  split; intros k; simpl.
  - by rewrite foldl_index_push.
  - apply foldl_users_email.
Qed.

Lemma initial_state_indexed : indexed (db appState).
Proof. apply createIndexes_indexed. Qed.

Lemma login_keeps_db e p sid now a : db (snd (login e p sid now a)) = db a.
Proof.
  unfold login. rewrite query_user_by_email.
  destruct (index_get _ _ _) as [u|]; [|done].
  by destruct (verifyPassword p (password_hash u)) as [[]|].
Qed.

Lemma createSubmission_keeps_indexed k link id now a :
  indexed (db a) -> indexed (db (snd (createSubmission k link id now a))).
Proof.
  intros Hi. destruct (session_role_is "student" a) eqn:Hrole.
  2: { by rewrite createSubmission_unauthorized. }
  unfold session_role_is in Hrole.
  destruct (currentSession a) as [s|] eqn:Hs; [|done].
  apply bool_decide_eq_true in Hrole.
  destruct (find (keyed (db a) (Some k) (Some (userId s))) (t_submissions (db a)))
    as [l|] eqn:Hf.
  - by rewrite (createSubmission_update _ _ _ _ _ _ _ Hs Hrole Hf).
  - by rewrite (createSubmission_insert _ _ _ _ _ _ Hs Hrole Hf).
Qed.

Lemma createAssignment_keeps_indexed t desc dl ins id now a :
  indexed (db a) -> indexed (db (snd (createAssignment t desc dl ins id now a))).
Proof.
  intros [Ha Hu]. unfold createAssignment.
  destruct (currentSession a) as [s|]; [|done].
  destruct (negb _); [done|].
  change (query _ _ id now (db a)) with
    (executeInsert "insert into assignments (title, description, deadline, instructions, created_by) values (?, ?, ?, ?, ?)"
       [t; desc; dl; ins; userId s] id now (db a)).
  unfold executeInsert.
  change (Js.includes _ "into assignments") with true. cbv iota. simpl.
  split; [|done]. intros k. simpl.
  by rewrite index_push_lookup, filter_snoc, Ha.
Qed.

(** The browser's half of C4: while the index agrees with the table, a
    professor is given exactly the assignments whose [created_by] is the
    professor's identifier, in table order, and anybody else the whole
    table. *)
Lemma browser_getAssignments (a : app) :
  indexed (db a) ->
  getAssignments a
  = Resolve (RValue (VAssignments
      (if session_role_is "professor" a then
         filter (fun x => created_by x = default "" (userId <$> currentSession a))
           (t_assignments (db a))
       else t_assignments (db a)))).
Proof.
  intros [Ha _]. unfold getAssignments.
  destruct (session_role_is "professor" a).
  - rewrite query_assignments_by_creator. unfold index_get. simpl.
    by rewrite Ha.
  - by rewrite query_assignments.
Qed.

(** C5 at the state the page starts in, with professor prof1 logged in:
    [getAssignments] resolves with assign1 before assign2, although
    assign1 was created two days earlier.  The listing is in insertion
    order, oldest first. *)
Theorem browser_lists_oldest_first :
  exists a1 a2,
    getAssignments (logged_in "prof.smith@university.edu")
      = Resolve (RValue (VAssignments [a1; a2])) /\
    assignment_pk a1 = "assign1" /\ assignment_pk a2 = "assign2" /\
    created_at a1 < created_at a2.
Proof. eexists _, _. split; [reflexivity|]. repeat split. Qed.

(** *** Submitting after the deadline *)

(** C2 at the state the page starts in, with student stud1 logged in, one
    second after the deadline of assign1: the assignment is overdue, yet
    [createSubmission] resolves, and the stored submission of stud1 for
    assign1 now carries the link sent. *)
Theorem browser_accepts_after_deadline :
  let a := logged_in "john.doe@university.edu" in
  let now := 1757980800000 in
  let r := createSubmission "assign1" "https://github.com/johndoe/late" "id_1" now a in
  (deadline <$> t_assignments (db a)) !! 0%nat = Some "2025-09-15T23:59:59.000Z" /\
  isOverdue clock now "2025-09-15T23:59:59.000Z" = true /\
  repo_link <$> rows (db a) = ["https://github.com/johndoe/web-dev-project"] /\
  fst r = Resolve (RValue (VSubmission 0%nat)) /\
  repo_link <$> rows (db (snd r)) = ["https://github.com/johndoe/late"] /\
  submitted_at <$> rows (db (snd r)) = [now].
Proof. repeat split. Qed.

(** *** The form's check of the link *)

Section Form.
Variable URL_parses : string -> bool.
Variable URL_error : string -> string.

(** The form lets a link through exactly when [new URL] accepts it and
    the text contains "github.com" somewhere. *)
Lemma submit_form_gate k link id now a :
  snd (submit_form URL_parses URL_error k link id now a)
  = if URL_parses link && Js.includes link "github.com"
    then snd (createSubmission k link id now a)
    else a.
Proof.
  unfold submit_form. destruct (URL_parses link); [|done].
  destruct (Js.includes link "github.com"); [|done]. simpl.
  by destruct (createSubmission k link id now a) as [[] ?].
Qed.

(** A well-formed link whose host is not GitHub's passes the form when
    "github.com" occurs in its path, and is stored. *)
Lemma form_accepts_foreign_host :
  URL_parses "https://example.com/github.com" = true ->
  let r := submit_form URL_parses URL_error "assign2" "https://example.com/github.com"
             "id_1" 1756728000000 (logged_in "jane.smith@university.edu") in
  fst r = Some ("Assignment submitted successfully!", "success") /\
  repo_link <$> filter (fun row => row_keyed "assign2" "stud2" row = true)
                  (rows (db (snd r)))
  = ["https://example.com/github.com"].
Proof.
  intros Hp. unfold submit_form. rewrite Hp. split; reflexivity.
Qed.

(** A link to GitHub written with a capital letter in the host is turned
    down, whatever [new URL] makes of it. *)
Lemma form_rejects_capital_host k id now a :
  submit_form URL_parses URL_error k "https://GitHub.com/johndoe/project" id now a
  = (Some (if URL_parses "https://GitHub.com/johndoe/project"
           then ("Please provide a GitHub repository URL", "error")
           else report (URL_error "https://GitHub.com/johndoe/project")), a).
Proof.
  unfold submit_form. by destruct (URL_parses _).
Qed.

End Form.

(** *** Login *)

(** The browser's half of C9: an e-mail address no user has and a
    password whose simulated hash differs from the stored one are both
    rejected with "Invalid credentials", the application untouched; a
    resolved login hands back a profile whose [password_hash] is
    [undefined]. *)
Lemma browser_login_outcomes (e : string) (p : ustring) sid now (a : app) :
  indexed (db a) ->
  ((forall u, u ∈ t_users (db a) -> email u <> e) ->
   login e p sid now a = (Reject "Invalid credentials", a)) /\
  (forall u, users_email (db a) !! e = Some u ->
     verifyPassword p (password_hash u) = Some false ->
     login e p sid now a = (Reject "Invalid credentials", a)) /\
  (resolved (fst (login e p sid now a)) = true ->
   exists profile sess,
     fst (login e p sid now a)
       = Resolve (RJson (Js.JObject [("user", Js.JObject profile); ("session", sess)])) /\
     Js.get_field "password_hash" profile = Some Js.JUndefined).
Proof.
  intros [_ Hu]. unfold login. rewrite query_user_by_email.
  unfold index_get. simpl. split; [|split].
  - intros Hnone. rewrite Hu, ServerFacts.filter_none; [done|].
    intros u Hin. by apply Hnone.
  - intros u -> ->. done.
  - destruct (users_email (db a) !! e) as [u|]; [|done].
    destruct (verifyPassword p (password_hash u)) as [[]|]; try done.
    intros _. eexists _, _. split; [reflexivity|]. reflexivity.
Qed.

(** A password that is not Latin-1, tried on an existing account, is
    rejected with the exception of [btoa]. *)
Lemma browser_login_not_latin1 (e : string) (p : ustring) sid now (a : app) u :
  users_email (db a) !! e = Some u ->
  latin1 p = false ->
  login e p sid now a = (Reject InvalidCharacterError, a).
Proof.
  intros Hu Hp. unfold login. rewrite query_user_by_email.
  unfold index_get. simpl. rewrite Hu.
  destruct (hashPassword_throws p Hp) as [_ Hv]. by rewrite Hv.
Qed.

(** What a resolved login hands back beside the profile: the session,
    whose [user] is the stored row, hash included. *)
Lemma browser_login_session_user :
  exists r sess usr,
    fst (login "john.doe@university.edu" (of_string "password123") "session_1"
           1756728000000 appState) = Resolve (RJson r) /\
    Js.prop "session" r = Some sess /\
    Js.prop "user" sess = Some usr /\
    Js.prop "password_hash" usr = Some (Js.JString "$2b$10$cGFzc3dvcmQxMjNzYWx0").
Proof. eexists _, _, _. repeat split. Qed.

End BrowserFacts.

(** ** Claims that hold on both implementations *)

(** C1, as amended.  Start from a state without a submission of student
    [s] for assignment [a] and let the student send any sequence of
    submissions for it.  If one of them was accepted, the table ends with
    exactly one row for the pair, and its [repo_link] is the link of the
    last one accepted; if none was, the table ends without a row for the
    pair.  First conjunct: POST /api/submissions, accepted meaning
    answered 200.  Second conjunct: [createSubmission] in the browser,
    accepted meaning the promise resolved. *)
Theorem one_row_per_pair
    (parse : string -> Js.Date) (s : Server.session) (a : option string)
    (ps : list Server.posting) (d : Server.database)
    (k : string) (cs : list Browser.submit) (b : Browser.app) :
  (existsb (Server.conflicts (default "" a) (default "" (Server.userId s)))
     (Server.submissions d) = false ->
   match snd (Server.post_all parse s a ps d) with
   | Some link =>
       exists row,
         filter (fun r => Server.conflicts (default "" a)
                            (default "" (Server.userId s)) r = true)
           (Server.submissions (fst (Server.post_all parse s a ps d))) = [row] /\
         Server.repo_link row = link
   | None =>
       filter (fun r => Server.conflicts (default "" a)
                          (default "" (Server.userId s)) r = true)
         (Server.submissions (fst (Server.post_all parse s a ps d))) = []
   end) /\
  (Browser.refs_valid (Browser.db b) = true ->
   existsb (Browser.row_keyed k
              (default "" (Browser.userId <$> Browser.currentSession b)))
     (Browser.rows (Browser.db b)) = false ->
   match snd (Browser.create_all k cs b) with
   | Some link =>
       exists row,
         filter (fun r => Browser.row_keyed k
                            (default "" (Browser.userId <$> Browser.currentSession b))
                            r = true)
           (Browser.rows (Browser.db (fst (Browser.create_all k cs b)))) = [row] /\
         Browser.repo_link row = link
   | None =>
       filter (fun r => Browser.row_keyed k
                          (default "" (Browser.userId <$> Browser.currentSession b))
                          r = true)
         (Browser.rows (Browser.db (fst (Browser.create_all k cs b)))) = []
   end).
Proof.
  split.
  - apply ServerFacts.server_single_row.
  - apply BrowserFacts.browser_single_row.
Qed.

Lemma one_row_per_pair_witness :
  (exists row,
     filter (fun r => Server.conflicts "assign2" "stud2" r = true)
       (Server.submissions
          (fst (Server.post_all clock (as_user "stud2" "student") (Some "assign2")
                  scenario_postings sample_db))) = [row] /\
     Server.repo_link row = "https://github.com/s/y") /\
  (exists row,
     filter (fun r => Browser.row_keyed "assign2" "stud2" r = true)
       (Browser.rows
          (Browser.db
             (fst (Browser.create_all "assign2" scenario_submits
                     (logged_in "jane.smith@university.edu"))))) = [row] /\
     Browser.repo_link row = "https://github.com/s/y").
Proof.
  pose proof (one_row_per_pair clock (as_user "stud2" "student") (Some "assign2")
                scenario_postings sample_db "assign2" scenario_submits
                (logged_in "jane.smith@university.edu")) as [Hs Hb].
  split.
  - exact (Hs eq_refl).
  - exact (Hb eq_refl eq_refl).
Defined.

(** C1 as stated fails on a sequence without an accepted submission.
    Student stud2 has no row for assign2 and submits once, a day after
    the deadline: the request is answered 400 and the table still has no
    row for the pair, where the claim says it has exactly one. *)
Lemma late_submission_leaves_no_row :
  let run := Server.post_all clock (as_user "stud2" "student") (Some "assign2")
               [ {| Server.at_time := 1758499199000; Server.drawn := "e07a";
                    Server.sent := Some "https://github.com/s/z" |} ] sample_db in
  existsb (Server.conflicts "assign2" "stud2") (Server.submissions sample_db) = false /\
  snd run = None /\
  filter (fun r => Server.conflicts "assign2" "stud2" r = true)
    (Server.submissions (fst run)) = [].
Proof. repeat split. Qed.

(** A student's request with both fields, for an assignment that exists
    and whose deadline the clock has not passed, is answered 200 when
    the student already has a row for the assignment, and also when
    there is none and the identifier drawn is not taken. *)
Lemma valid_submission_accepted parse now uuid s (a l : option string) d row :
  Server.requireRole "student" s = None ->
  Js.truthy a = true -> Js.truthy l = true ->
  Server.assignment_by_id (default "" a) d = Some row ->
  Js.date_gt (Some now) (Server.deadline_date parse (Server.deadline row)) = false ->
  existsb (Server.conflicts (default "" a) (default "" (Server.userId s)))
    (Server.submissions d) = true \/
  existsb (fun r => bool_decide (Server.submission_pk r = uuid))
    (Server.submissions d) = false ->
  fst (Server.post_submissions parse now uuid s a l d)
  = Server.reply 200 (Server.Message "Submission saved successfully").
Proof.
  intros Hs Ha Hl Hrow Hdl Hfree. unfold Server.post_submissions.
  rewrite Hs, Ha, Hl. cbn [negb orb]. rewrite Hrow, Hdl.
  unfold Server.upsert_submission.
  destruct (existsb (Server.conflicts _ _) _) eqn:Hc; [done|].
  destruct Hfree as [Hfree| ->]; [discriminate Hfree|done].
Qed.

(** C8.  A student's submission that passes the checks (both fields
    present, the assignment exists, the clock is not past its deadline;
    in the browser: a student is logged in) is accepted, whether or not
    the student already has a row for the assignment; on the server a
    first submission also needs the identifier drawn by [uuidv4()] not
    to be taken.  An accepted submission leaves users and assignments
    alone.  If
    the caller already has a row for the assignment, that row takes the
    new link and a fresh [submitted_at] and keeps its identifier, pair and
    status, and nothing else in the table changes; if not, one row is
    added, with status 'submitted'.  First conjunct: POST
    /api/submissions, where the rows are compared position by position.
    Second conjunct: [createSubmission] in the browser, where the row is
    the object the promise resolves with and the store is compared
    reference by reference. *)
Theorem resubmission_overwrites_link
    (parse : string -> Js.Date) (now : Z) (uuid : string) (s : Server.session)
    (a l : option string) (d : Server.database)
    (k link id : string) (now' : Z) (b : Browser.app) :
  (let r := Server.post_submissions parse now uuid s a l d in
   let k := default "" a in
   let me := default "" (Server.userId s) in
   (Server.requireRole "student" s = None ->
    Js.truthy a = true -> Js.truthy l = true ->
    forall row, Server.assignment_by_id k d = Some row ->
    Js.date_gt (Some now) (Server.deadline_date parse (Server.deadline row)) = false ->
    existsb (Server.conflicts k me) (Server.submissions d) = true \/
    existsb (fun r => bool_decide (Server.submission_pk r = uuid))
      (Server.submissions d) = false ->
    fst r = Server.reply 200 (Server.Message "Submission saved successfully")) /\
   (Server.accepted (fst r) = true ->
   Server.users (snd r) = Server.users d /\
   Server.assignments (snd r) = Server.assignments d /\
   if existsb (Server.conflicts k me) (Server.submissions d) then
     length (Server.submissions (snd r)) = length (Server.submissions d) /\
     forall i row, Server.submissions d !! i = Some row ->
       exists row', Server.submissions (snd r) !! i = Some row' /\
         Server.submission_pk row' = Server.submission_pk row /\
         Server.assignment_id row' = Server.assignment_id row /\
         Server.student_id row' = Server.student_id row /\
         Server.status row' = Server.status row /\
         if Server.conflicts k me row
         then Server.repo_link row' = default "" l /\
              Server.submitted_at row' = Server.CURRENT_TIMESTAMP now
         else row' = row
   else
     exists row',
       Server.submissions (snd r) = (Server.submissions d ++ [row'])%list /\
       Server.submission_pk row' = uuid /\ Server.assignment_id row' = k /\
       Server.student_id row' = me /\ Server.repo_link row' = default "" l /\
       Server.submitted_at row' = Server.CURRENT_TIMESTAMP now /\
       Server.status row' = "submitted")) /\
  (let r := Browser.createSubmission k link id now' b in
   let e := Browser.db b in
   let e' := Browser.db (snd r) in
   let me := default "" (Browser.userId <$> Browser.currentSession b) in
   (Browser.session_role_is "student" b = true ->
    Browser.resolved (fst r) = true) /\
   (Browser.resolved (fst r) = true ->
   Browser.t_users e' = Browser.t_users e /\
   Browser.t_assignments e' = Browser.t_assignments e /\
   if existsb (Browser.keyed e (Some k) (Some me)) (Browser.t_submissions e) then
     exists ref old new,
       fst r = Browser.Resolve (Browser.RValue (Browser.VSubmission ref)) /\
       find (Browser.keyed e (Some k) (Some me)) (Browser.t_submissions e) = Some ref /\
       Browser.store e !! ref = Some old /\ Browser.store e' !! ref = Some new /\
       Browser.submission_pk new = Browser.submission_pk old /\
       Browser.assignment_id new = Browser.assignment_id old /\
       Browser.student_id new = Browser.student_id old /\
       Browser.status new = Browser.status old /\
       Browser.repo_link new = link /\ Browser.submitted_at new = now' /\
       Browser.t_submissions e' = Browser.t_submissions e /\
       length (Browser.store e') = length (Browser.store e) /\
       forall ref', ref' <> ref -> Browser.store e' !! ref' = Browser.store e !! ref'
   else
     exists new,
       fst r = Browser.Resolve
                 (Browser.RValue (Browser.VSubmission (length (Browser.store e)))) /\
       Browser.store e' = (Browser.store e ++ [new])%list /\
       Browser.t_submissions e'
         = (Browser.t_submissions e ++ [length (Browser.store e)])%list /\
       Browser.submission_pk new = id /\ Browser.assignment_id new = k /\
       Browser.student_id new = me /\ Browser.repo_link new = link /\
       Browser.submitted_at new = now' /\ Browser.status new = "submitted")).
Proof.
  split; split.
  - intros Hs Ha Hl row Hrow Hdl Hfree.
    by apply (valid_submission_accepted parse now uuid s a l d row).
  - apply ServerFacts.server_upsert_frame.
  - apply BrowserFacts.createSubmission_resolves.
  - apply BrowserFacts.browser_upsert_frame.
Qed.

Lemma resubmission_overwrites_link_witness :
  ((exists row',
      Server.submissions
        (snd (Server.post_submissions clock 1756728000000 "a3f0"
                (as_user "stud1" "student") (Some "assign1")
                (Some "https://github.com/johndoe/v2") sample_db)) !! 0%nat
      = Some row' /\
      Server.submission_pk row' = "sub1" /\
      Server.status row' = "submitted" /\
      Server.repo_link row' = "https://github.com/johndoe/v2" /\
      Server.submitted_at row' = 1756728000) /\
   (exists row',
      Server.submissions
        (snd (Server.post_submissions clock 1756728000000 "b7c1"
                (as_user "stud2" "student") (Some "assign2")
                (Some "https://github.com/janesmith/db") sample_db))
      = (Server.submissions sample_db ++ [row'])%list /\
      Server.submission_pk row' = "b7c1" /\
      Server.assignment_id row' = "assign2" /\ Server.student_id row' = "stud2" /\
      Server.repo_link row' = "https://github.com/janesmith/db" /\
      Server.status row' = "submitted")) /\
  ((exists new,
      Browser.store
        (Browser.db
           (snd (Browser.createSubmission "assign1" "https://github.com/johndoe/v2"
                   "id_1" 1756728000000 (logged_in "john.doe@university.edu"))))
        !! 0%nat = Some new /\
      Browser.submission_pk new = "sub1" /\
      Browser.status new = "submitted" /\
      Browser.repo_link new = "https://github.com/johndoe/v2" /\
      Browser.submitted_at new = 1756728000000) /\
   (exists new,
      Browser.store
        (Browser.db
           (snd (Browser.createSubmission "assign2" "https://github.com/janesmith/db"
                   "id_2" 1756728000000 (logged_in "jane.smith@university.edu"))))
      = (Browser.store Browser.initializeDatabase ++ [new])%list /\
      Browser.submission_pk new = "id_2" /\
      Browser.assignment_id new = "assign2" /\ Browser.student_id new = "stud2" /\
      Browser.repo_link new = "https://github.com/janesmith/db" /\
      Browser.status new = "submitted")).
Proof.
  pose proof (resubmission_overwrites_link clock 1756728000000 "a3f0"
                (as_user "stud1" "student") (Some "assign1")
                (Some "https://github.com/johndoe/v2") sample_db
                "assign1" "https://github.com/johndoe/v2" "id_1" 1756728000000
                (logged_in "john.doe@university.edu")) as [[Hsa Hs] [Hba Hb]].
  pose proof (resubmission_overwrites_link clock 1756728000000 "b7c1"
                (as_user "stud2" "student") (Some "assign2")
                (Some "https://github.com/janesmith/db") sample_db
                "assign2" "https://github.com/janesmith/db" "id_2" 1756728000000
                (logged_in "jane.smith@university.edu")) as [[Hsa' Hs'] [Hba' Hb']].
  split; split.
  - cbv zeta in Hsa, Hs.
    pose proof (Hsa eq_refl eq_refl eq_refl _ eq_refl eq_refl (or_introl eq_refl))
      as Hok.
    assert (Server.accepted
              (fst (Server.post_submissions clock 1756728000000 "a3f0"
                      (as_user "stud1" "student") (Some "assign1")
                      (Some "https://github.com/johndoe/v2") sample_db)) = true)
      as Hacc by (by rewrite Hok).
    destruct (Hs Hacc) as (_ & _ & _ & Hall).
    destruct (Hall 0%nat _ eq_refl) as (row' & H0 & Hpk & _ & _ & Hst & Hl & Ht).
    exists row'. repeat split; assumption.
  - cbv zeta in Hsa', Hs'.
    pose proof (Hsa' eq_refl eq_refl eq_refl _ eq_refl eq_refl (or_intror eq_refl))
      as Hok.
    assert (Server.accepted
              (fst (Server.post_submissions clock 1756728000000 "b7c1"
                      (as_user "stud2" "student") (Some "assign2")
                      (Some "https://github.com/janesmith/db") sample_db)) = true)
      as Hacc by (by rewrite Hok).
    destruct (Hs' Hacc) as (_ & _ & row' & Happ & Hpk & Ha & Hst & Hl & _ & Hstat).
    exists row'. repeat split; assumption.
  - pose proof (Hb (Hba eq_refl)) as H. vm_compute in H.
    destruct H
      as (_ & _ & ref & old & new & _ & Hf & Hold & Hnew & Hpk & _ & _ & Hst & Hl & Ht & _).
    injection Hf as <-. injection Hold as <-.
    exists new. split; [exact Hnew|]. repeat split; assumption.
  - pose proof (Hb' (Hba' eq_refl)) as H. vm_compute in H.
    destruct H as (_ & _ & new & _ & Hstore & _ & Hpk & Ha & Hst & Hl & _ & Hstat).
    exists new. split; [|repeat split; assumption].
    vm_compute. exact Hstore.
Defined.

(** C9, as amended.  First conjunct, the server: a login with an empty
    e-mail address or an empty password is answered 400 "Email and
    password are required".  Second conjunct, the server with both
    non-empty: login answers 401 "Invalid credentials" and leaves the
    session alone when no user has exactly that address and when bcrypt
    rejects the password against the hash of the user found; a 200 answer
    carries a profile whose keys are id, email, name and role.  Third
    conjunct, the browser with the e-mail index in step with the users
    table: login rejects with "Invalid credentials" and leaves the
    application alone when no user has that address and when the
    simulated hash of the password differs from the stored one; a
    resolved login carries a profile whose [password_hash] is
    [undefined]. *)
Theorem login_outcomes
    (compare : string -> string -> option bool) (e p : string)
    (s : Server.session) (d : Server.database)
    (pw : Browser.ustring) (sid : string) (now : Z) (b : Browser.app) :
  (e = "" \/ p = "" ->
   Server.login compare (Some e) (Some p) s d = (Server.CredentialsRequired, s)) /\
  (e <> "" -> p <> "" ->
   ((forall u, u ∈ Server.users d -> Server.email u <> e) ->
    Server.login compare (Some e) (Some p) s d = (Server.InvalidCredentials, s)) /\
   (forall u, Server.user_by_email e d = Some u ->
      compare p (Server.password_hash u) = Some false ->
      Server.login compare (Some e) (Some p) s d = (Server.InvalidCredentials, s)) /\
   (Server.code (fst (Server.login compare (Some e) (Some p) s d)) = 200%nat ->
    exists profile,
      Server.body (fst (Server.login compare (Some e) (Some p) s d))
        = Server.Json (Js.JObject [("user", Js.JObject profile)]) /\
      fst <$> profile = ["id"; "email"; "name"; "role"] /\
      Js.get_field "password_hash" profile = None)) /\
  (Browser.indexed (Browser.db b) ->
   ((forall u, u ∈ Browser.t_users (Browser.db b) -> Browser.email u <> e) ->
    Browser.login e pw sid now b = (Browser.Reject "Invalid credentials", b)) /\
   (forall u, Browser.users_email (Browser.db b) !! e = Some u ->
      Browser.verifyPassword pw (Browser.password_hash u) = Some false ->
      Browser.login e pw sid now b = (Browser.Reject "Invalid credentials", b)) /\
   (Browser.resolved (fst (Browser.login e pw sid now b)) = true ->
    exists profile sess,
      fst (Browser.login e pw sid now b)
        = Browser.Resolve
            (Browser.RJson
               (Js.JObject [("user", Js.JObject profile); ("session", sess)])) /\
      Js.get_field "password_hash" profile = Some Js.JUndefined)).
Proof.
  split; [|split].
  - intros H. apply ServerFacts.server_login_missing_field.
    destruct H as [-> | ->]; [by left|by right].
  - apply ServerFacts.server_login_outcomes.
  - apply BrowserFacts.browser_login_outcomes.
Qed.

Lemma login_outcomes_witness :
  Server.login sample_compare (Some "john.doe@university.edu") (Some "letmein")
    Server.no_session sample_db = (Server.InvalidCredentials, Server.no_session) /\
  Browser.login "john.doe@university.edu" (Browser.of_string "letmein")
    "session_1" 1756728000000 Browser.appState
    = (Browser.Reject "Invalid credentials", Browser.appState).
Proof.
  pose proof (login_outcomes sample_compare "john.doe@university.edu" "letmein"
                Server.no_session sample_db (Browser.of_string "letmein")
                "session_1" 1756728000000 Browser.appState) as (_ & Hs & Hb).
  split.
  - refine (proj1 (proj2 (Hs _ _)) _ eq_refl eq_refl); discriminate.
  - exact (proj1 (proj2 (Hb BrowserFacts.initial_state_indexed)) _ eq_refl eq_refl).
Defined.

(** * The rest of the server *)

Module ServerRest.
Import Server.

(** *** Creating an assignment *)

(** [INSERT INTO assignments (id, title, description, deadline,
    instructions, created_by) VALUES (?, ?, ?, ?, ?, ?)]: a taken primary
    key fails the statement; the deadline is stored as the DATETIME
    column takes the text ([bind_datetime]); [created_at] takes its
    default. *)
Definition insert_assignment (numeric : string -> option Js.number) (ts : Z)
    (k t : string) (desc : option string)
    (dl : string) (ins : option string) (owner : string) (d : database)
  : run_result :=
  if existsb (id_is k) (assignments d) then SqlError
  else
    Changes 1
      (with_assignments
         (assignments d ++
            [{| assignment_pk := k; title := t; description := desc;
                deadline := bind_datetime numeric dl; instructions := ins;
                created_by := owner; created_at := ts |}]) d).

(** [SELECT a.*, u.name as creator_name FROM assignments a JOIN users u
    ON a.created_by = u.id WHERE a.id = ?] through [db.get]. *)
Definition assignment_with_creator (k : string) (d : database)
  : option assignment_view :=
  head (filter (fun v => assignment_pk (av_row v) = k) (assignments_join_users d)).

(** What POST /api/assignments answers: an error, or 201 with the row
    read back, which is [undefined] when the join finds no creator. *)
Inductive creation :=
| Refused (r : response)
| Created (a : option assignment_view).

(** POST /api/assignments; [now] is the clock, [uuid] the value of
    [uuidv4()]. *)
Definition post_assignments (numeric : string -> option Js.number) (now : Z)
    (uuid : string) (s : session)
    (t desc dl ins : option string) (d : database) : creation * database :=
  match requireRole "professor" s with
  | Some r => (Refused r, d)
  | None =>
      if negb (Js.truthy t) || negb (Js.truthy dl) then
        (Refused TitleDeadlineRequired, d)
      else
        match insert_assignment numeric (CURRENT_TIMESTAMP now) uuid
                (default "" t) desc
                (default "" dl) ins (default "" (userId s)) d with
        | SqlError => (Refused InternalError, d)
        | Changes _ d' => (Created (assignment_with_creator uuid d'), d')
        end
  end.

(** *** The session endpoints *)

(** [SELECT id, email, name, role FROM users WHERE id = ?] through
    [db.get]. *)
Definition user_by_id (k : string) (d : database) : option user :=
  find (fun u => bool_decide (user_id u = k)) (users d).

(** GET /api/auth/user *)
Definition get_auth_user (s : session) (d : database) : response :=
  match requireAuth s with
  | Some r => r
  | None =>
      match user_by_id (default "" (userId s)) d with
      | None => reply 404 (Error "User not found")
      | Some u => reply 200 (Json (Js.JObject [("user", profile_json u)]))
      end
  end.

(** POST /api/auth/logout: [req.session.destroy], which the default
    session store completes without an error. *)
Definition logout (s : session) : response * session :=
  (reply 200 (Message "Logged out successfully"), no_session).

(** *** The sample data *)

Definition user_conflict (u v : user) : bool :=
  bool_decide (user_id v = user_id u) || bool_decide (email v = email u).

(** [INSERT OR IGNORE INTO users ...]: the row is dropped when its
    primary key or its e-mail address is taken. *)
Definition insert_user_or_ignore (l : list user) (u : user) : list user :=
  if existsb (user_conflict u) l then l else l ++ [u].

(** [INSERT OR IGNORE INTO assignments ...] *)
Definition insert_assignment_or_ignore (l : list assignment) (a : assignment)
  : list assignment :=
  if existsb (id_is (assignment_pk a)) l then l else l ++ [a].

Definition submission_conflict (x y : submission) : bool :=
  bool_decide (submission_pk y = submission_pk x)
  || conflicts (assignment_id x) (student_id x) y.

(** [INSERT OR IGNORE INTO submissions ...]: dropped on a taken primary
    key or a taken (assignment, student) pair. *)
Definition insert_submission_or_ignore (l : list submission) (x : submission)
  : list submission :=
  if existsb (submission_conflict x) l then l else l ++ [x].

Definition sampleUsers (hashedPassword : string) (ts : Z) : list user :=
  [ {| user_id := "prof1"; email := "prof.smith@university.edu";
       password_hash := hashedPassword; name := "Dr. Sarah Smith";
       role := "professor"; user_created_at := ts |};
    {| user_id := "stud1"; email := "john.doe@university.edu";
       password_hash := hashedPassword; name := "John Doe";
       role := "student"; user_created_at := ts |};
    {| user_id := "stud2"; email := "jane.smith@university.edu";
       password_hash := hashedPassword; name := "Jane Smith";
       role := "student"; user_created_at := ts |} ].

Definition sampleAssignments (numeric : string -> option Js.number) (ts : Z)
  : list assignment :=
  [ {| assignment_pk := "assign1"; title := "Web Development Project";
       description := Some "Create a responsive website using HTML, CSS, and JavaScript. Include at least 3 pages and implement modern design principles.";
       deadline := bind_datetime numeric "2025-09-15T23:59:59";
       instructions := Some "Submit your GitHub repository link containing the complete project code.";
       created_by := "prof1"; created_at := ts |};
    {| assignment_pk := "assign2"; title := "Database Design Assignment";
       description := Some "Design and implement a normalized database schema for a library management system.";
       deadline := bind_datetime numeric "2025-09-20T23:59:59";
       instructions := Some "Include ER diagram, SQL scripts, and documentation in your repository.";
       created_by := "prof1"; created_at := ts |} ].

Definition sampleSubmissions (ts : Z) : list submission :=
  [ {| submission_pk := "sub1"; assignment_id := "assign1"; student_id := "stud1";
       repo_link := "https://github.com/johndoe/web-dev-project";
       submitted_at := ts; status := "submitted" |} ].

(** [insertSampleData], run at every start of the server once the
    tables exist; [hashedPassword] is what [bcrypt.hash] returned this
    time and [now] the clock.  With enforcement of foreign keys off the
    three tables are filled independently of each other. *)
Definition insertSampleData (numeric : string -> option Js.number)
    (hashedPassword : string) (now : Z) (d : database) : database :=
  let ts := CURRENT_TIMESTAMP now in
  {| users := foldl insert_user_or_ignore (users d) (sampleUsers hashedPassword ts);
     assignments :=
       foldl insert_assignment_or_ignore (assignments d)
         (sampleAssignments numeric ts);
     submissions :=
       foldl insert_submission_or_ignore (submissions d) (sampleSubmissions ts);
     submissions_on_delete := submissions_on_delete d |}.

(** *** The event stream *)

(** What is written on a response of GET /api/submissions/stream: the
    greeting with the client's identifier, or the text of a piece of data
    handed to [broadcastUpdate]. *)
Inductive chunk :=
| Connected (clientId : Z)
| Data (text : string).

(** A client of [global.sseClients]: its identifier and the connection
    its response writes to. *)
Record client := {
  client_id : Z;
  response_of : nat
}.

(** [global.sseClients], which is [undefined] until the first client,
    and what has been written on each connection so far. *)
Record streams := {
  sseClients : option (list client);
  written : gmap nat (list chunk)
}.

Definition write (conn : nat) (c : chunk) (w : gmap nat (list chunk))
  : gmap nat (list chunk) :=
  <[conn := (default [] (w !! conn) ++ [c])%list]> w.

(** GET /api/submissions/stream on connection [conn] at clock [now]:
    [None] is the 401 of [requireAuth]. *)
Definition open_stream (now : Z) (conn : nat) (s : session) (st : streams)
  : option streams :=
  match requireAuth s with
  | Some _ => None
  | None =>
      Some {| sseClients :=
                Some (default [] (sseClients st)
                        ++ [{| client_id := now; response_of := conn |}])%list;
              written := write conn (Connected now) (written st) |}
  end.

(** The handler of [close] that the request opened at clock [clientId]
    installed.  Were the list [undefined], [filter] would throw and
    nothing would be assigned. *)
Definition close_stream (clientId : Z) (st : streams) : streams :=
  match sseClients st with
  | None => st
  | Some l =>
      {| sseClients := Some (filter (fun c => client_id c <> clientId) l);
         written := written st |}
  end.

(** [broadcastUpdate] *)
Definition broadcastUpdate (text : string) (st : streams) : streams :=
  match sseClients st with
  | None => st
  | Some l =>
      {| sseClients := sseClients st;
         written := foldl (fun w c => write (response_of c) (Data text) w)
                      (written st) l |}
  end.

End ServerRest.

Module ServerRestFacts.
Import Server ServerRest.

(** *** Who may change what *)

(** X1.  Without a user in the session every changing request is answered 401
    "Authentication required"; with a user of another role than the one
    the route asks for it is answered 403 "Insufficient permissions"; the
    database is left as it was. *)
Theorem role_gate (numeric : string -> option Js.number)
    (parse : string -> Js.Date) (now : Z) (uuid k : string)
    (s : session) (t desc dl ins a l : option string) (d : database) :
  (Js.truthy (userId s) = false ->
   post_assignments numeric now uuid s t desc dl ins d = (Refused Unauthenticated, d) /\
   put_assignment numeric s k t desc dl ins d = (Unauthenticated, d) /\
   delete_assignment s k d = (Unauthenticated, d) /\
   post_submissions parse now uuid s a l d = (Unauthenticated, d)) /\
  (Js.truthy (userId s) = true -> userRole s <> Some "professor" ->
   post_assignments numeric now uuid s t desc dl ins d = (Refused Forbidden, d) /\
   put_assignment numeric s k t desc dl ins d = (Forbidden, d) /\
   delete_assignment s k d = (Forbidden, d)) /\
  (Js.truthy (userId s) = true -> userRole s <> Some "student" ->
   post_submissions parse now uuid s a l d = (Forbidden, d)).
Proof.
  unfold post_assignments, put_assignment, delete_assignment, post_submissions,
    requireRole.
  split; [|split].
  - intros ->. done.
  - intros -> Hr. simpl. by rewrite bool_decide_eq_false_2.
  - intros -> Hr. simpl. by rewrite bool_decide_eq_false_2.
Qed.

Lemma role_gate_witness :
  put_assignment sample_numeric no_session "assign1" (Some "Renamed") None
    (Some "2025-10-01T00:00:00") None sample_db = (Unauthenticated, sample_db) /\
  delete_assignment (as_user "stud1" "student") "assign1" sample_db
    = (Forbidden, sample_db) /\
  post_submissions clock 1756728000000 "7d4c" (as_user "prof1" "professor")
    (Some "assign1") (Some "https://github.com/s/x") sample_db
    = (Forbidden, sample_db).
Proof.
  split; [|split].
  - exact (proj1 (proj2 (proj1 (role_gate sample_numeric clock 0 "" "assign1" no_session
             (Some "Renamed") None (Some "2025-10-01T00:00:00") None None None
             sample_db) eq_refl))).
  - refine (proj2 (proj2 (proj1 (proj2 (role_gate sample_numeric clock 0 "" "assign1"
             (as_user "stud1" "student") None None None None None None sample_db))
             eq_refl _))).
    discriminate.
  - refine (proj2 (proj2 (role_gate sample_numeric clock 1756728000000 "7d4c" ""
             (as_user "prof1" "professor") None None None None
             (Some "assign1") (Some "https://github.com/s/x") sample_db))
             eq_refl _).
    discriminate.
Defined.

(** *** Requests that are turned down *)

Lemma update_assignment_changes (numeric : string -> option Js.number)
    t desc dl ins k o d :
  exists n d', update_assignment numeric t desc dl ins k o d = Changes n d' /\
    (n = 0%nat -> d' = d).
Proof.
  unfold update_assignment. eexists _, _. split; [done|].
  intros Hn. apply length_zero_iff_nil in Hn.
  rewrite ServerFacts.map_unowned, ServerFacts.with_assignments_same; [done|].
  intros a Ha. destruct (owned k o a) eqn:Ho; [|done].
  assert (a ∈ filter (fun a => owned k o a = true) (assignments d)) as Hin
    by (by apply list_elem_of_filter).
  rewrite Hn in Hin. by apply elem_of_nil in Hin.
Qed.

(** X2.  A changing request that is not answered 200 (201 for a creation)
    leaves the database exactly as it was. *)
Theorem refused_requests_change_nothing (numeric : string -> option Js.number)
    (parse : string -> Js.Date) (now : Z)
    (uuid k : string) (s : session) (t desc dl ins a l : option string)
    (d : database) :
  (code (fst (put_assignment numeric s k t desc dl ins d)) <> 200%nat ->
   snd (put_assignment numeric s k t desc dl ins d) = d) /\
  (code (fst (delete_assignment s k d)) <> 200%nat ->
   snd (delete_assignment s k d) = d) /\
  (code (fst (post_submissions parse now uuid s a l d)) <> 200%nat ->
   snd (post_submissions parse now uuid s a l d) = d) /\
  (forall r, fst (post_assignments numeric now uuid s t desc dl ins d) = Refused r ->
   snd (post_assignments numeric now uuid s t desc dl ins d) = d).
Proof.
  split; [|split; [|split]].
  - unfold put_assignment. destruct (requireRole "professor" s); [done|].
    destruct (_ || _); [done|].
    destruct (update_assignment_changes numeric (default "" t) desc
                (default "" dl) ins k (default "" (userId s)) d)
      as (n & d' & -> & Hn).
    destruct n; [done|]. simpl. done.
  - unfold delete_assignment. destruct (requireRole "professor" s); [done|].
    unfold delete_assignment_sql, foreign_keys.
    destruct (filter _ (assignments d)); [done|]. simpl. done.
  - intros Hc. apply ServerFacts.post_submissions_refused.
    unfold accepted. by apply bool_decide_eq_false_2.
  - intros r. unfold post_assignments.
    destruct (requireRole "professor" s); [done|].
    destruct (_ || _); [done|].
    unfold insert_assignment. by destruct (existsb _ _).
Qed.

Lemma refused_requests_change_nothing_witness :
  snd (post_submissions clock 1758499199000 "e07a" (as_user "stud2" "student")
         (Some "assign2") (Some "https://github.com/s/z") sample_db) = sample_db /\
  snd (post_assignments sample_numeric 1756728000000 "assign1"
         (as_user "prof1" "professor")
         (Some "Again") None (Some "2025-10-01T00:00:00") None sample_db) = sample_db.
Proof.
  split.
  - refine (proj1 (proj2 (proj2 (refused_requests_change_nothing sample_numeric clock
             1758499199000 "e07a" "" (as_user "stud2" "student") None None None None
             (Some "assign2") (Some "https://github.com/s/z") sample_db))) _).
    discriminate.
  - exact (proj2 (proj2 (proj2 (refused_requests_change_nothing sample_numeric clock
             1756728000000 "assign1" "" (as_user "prof1" "professor")
             (Some "Again") None (Some "2025-10-01T00:00:00") None None None
             sample_db))) InternalError eq_refl).
Defined.

(** *** Changing and deleting one's own assignment *)

(** X3.  PUT /api/assignments/:id is answered 200 exactly when the caller is
    a professor, title and deadline are present and the caller owns an
    assignment with that identifier.  Then users and submissions are
    untouched, the assignments keep their number and order, the
    assignment named takes title, description and instructions of the
    request (a missing description or instructions becomes NULL) and
    keeps its identifier, owner and creation time, and every other
    assignment is unchanged.  Its deadline becomes what the DATETIME
    column makes of the text sent: the number, when SQLite reads the
    text as a numeric literal, and the text itself otherwise. *)
Theorem owner_update (numeric : string -> option Js.number)
    (s : session) (k : string) (t desc dl ins : option string)
    (d : database) :
  let r := put_assignment numeric s k t desc dl ins d in
  let me := default "" (userId s) in
  (code (fst r) = 200%nat <->
   requireRole "professor" s = None /\ Js.truthy t = true /\ Js.truthy dl = true /\
   existsb (owned k me) (assignments d) = true) /\
  (code (fst r) = 200%nat ->
   users (snd r) = users d /\ submissions (snd r) = submissions d /\
   length (assignments (snd r)) = length (assignments d) /\
   forall i x, assignments d !! i = Some x ->
     exists x', assignments (snd r) !! i = Some x' /\
       assignment_pk x' = assignment_pk x /\ created_by x' = created_by x /\
       created_at x' = created_at x /\
       if owned k me x
       then title x' = default "" t /\ description x' = desc /\
            instructions x' = ins /\
            deadline x' = match numeric (default "" dl) with
                          | Some n => DateNumber n
                          | None => DateText (default "" dl)
                          end
       else x' = x).
Proof.
  intros r me. subst r. unfold put_assignment.
  destruct (requireRole "professor" s) as [x|] eqn:Hs.
  { split.
    - split; [|by intros [? _]]. simpl. intros Hc.
      pose proof (ServerFacts.requireRole_refuses _ _ _ Hs) as Hx.
      unfold accepted in Hx. by rewrite bool_decide_eq_true_2 in Hx.
    - simpl. intros Hc.
      pose proof (ServerFacts.requireRole_refuses _ _ _ Hs) as Hx.
      unfold accepted in Hx. by rewrite bool_decide_eq_true_2 in Hx. }
  destruct (Js.truthy t), (Js.truthy dl); cbn [negb orb];
    try (split; [split; [done|by intros (_ & ? & ? & _)]|done]).
  unfold update_assignment. fold me.
  destruct (filter (fun a => owned k me a = true) (assignments d)) as [|y ys] eqn:Hf.
  - assert (existsb (owned k me) (assignments d) = false) as ->
      by (by apply ServerFacts.existsb_filter_nil).
    simpl. split; [split; [done|by intros (_ & _ & _ & ?)]|done].
  - assert (existsb (owned k me) (assignments d) = true) as ->.
    { destruct (existsb (owned k me) (assignments d)) eqn:He; [done|].
      apply ServerFacts.existsb_filter_nil in He. congruence. }
    simpl. split; [done|]. intros _.
    split; [done|]. split; [done|]. split; [by rewrite length_map|].
    intros i x Hi. rewrite list_lookup_fmap, Hi. simpl.
    eexists. split; [done|]. by destruct (owned k me x).
Qed.

Lemma owner_update_witness :
  (exists x',
     assignments
       (snd (put_assignment sample_numeric (as_user "prof1" "professor") "assign2"
               (Some "Schema Design") None (Some "2025-10-01T00:00:00") None
               sample_db))
       !! 1%nat = Some x' /\
     title x' = "Schema Design" /\ description x' = None /\
     created_by x' = "prof1" /\
     deadline x' = DateText "2025-10-01T00:00:00") /\
  (exists x',
     assignments
       (snd (put_assignment sample_numeric (as_user "prof1" "professor") "assign2"
               (Some "Schema Design") None (Some "2030") None sample_db))
       !! 1%nat = Some x' /\
     deadline x' = DateNumber (Js.number_of_Z 2030)).
Proof.
  split.
  - pose proof (owner_update sample_numeric (as_user "prof1" "professor") "assign2"
                  (Some "Schema Design") None (Some "2025-10-01T00:00:00") None
                  sample_db) as [_ H].
    destruct (H eq_refl) as (_ & _ & _ & Hrows).
    destruct (Hrows 1%nat _ eq_refl) as (x' & H1 & _ & Hby & _ & Ht & Hd & _ & Hdl).
    exists x'. repeat split; assumption.
  - pose proof (owner_update sample_numeric (as_user "prof1" "professor") "assign2"
                  (Some "Schema Design") None (Some "2030") None
                  sample_db) as [_ H].
    destruct (H eq_refl) as (_ & _ & _ & Hrows).
    destruct (Hrows 1%nat _ eq_refl) as (x' & H1 & _ & _ & _ & _ & _ & _ & Hdl).
    exists x'. split; assumption.
Defined.

(** X4.  DELETE /api/assignments/:id is answered 200 exactly when the caller
    is a professor who owns an assignment with that identifier.  Then the
    assignments left are the others, in their order, and users and
    submissions are untouched. *)
Theorem owner_delete (s : session) (k : string) (d : database) :
  let r := delete_assignment s k d in
  let me := default "" (userId s) in
  (code (fst r) = 200%nat <->
   requireRole "professor" s = None /\
   existsb (owned k me) (assignments d) = true) /\
  (code (fst r) = 200%nat ->
   assignments (snd r) = filter (fun a => owned k me a = false) (assignments d) /\
   existsb (owned k me) (assignments (snd r)) = false /\
   users (snd r) = users d /\ submissions (snd r) = submissions d).
Proof.
  intros r me. subst r. unfold delete_assignment.
  destruct (requireRole "professor" s) as [x|] eqn:Hs.
  { pose proof (ServerFacts.requireRole_refuses _ _ _ Hs) as Hx.
    unfold accepted in Hx. simpl.
    split; [split; [|by intros [? _]]|]; intros Hc;
      by rewrite bool_decide_eq_true_2 in Hx. }
  unfold delete_assignment_sql, foreign_keys. fold me.
  destruct (filter (fun a => owned k me a = true) (assignments d)) as [|y ys] eqn:Hf.
  - assert (existsb (owned k me) (assignments d) = false) as ->
      by (by apply ServerFacts.existsb_filter_nil).
    simpl. split; [split; [done|by intros [_ ?]]|done].
  - assert (existsb (owned k me) (assignments d) = true) as ->.
    { destruct (existsb (owned k me) (assignments d)) eqn:He; [done|].
      apply ServerFacts.existsb_filter_nil in He. congruence. }
    simpl. split; [done|]. intros _. split; [done|]. split; [|done].
    apply ServerFacts.existsb_false. intros a Ha%list_elem_of_filter. tauto.
Qed.

Lemma owner_delete_witness :
  assignment_pk <$> assignments
    (snd (delete_assignment (as_user "prof1" "professor") "assign1" two_professors))
  = ["assign2"; "assign3"].
Proof.
  pose proof (owner_delete (as_user "prof1" "professor") "assign1" two_professors)
    as [_ H].
  destruct (H eq_refl) as (Ha & _). rewrite Ha. reflexivity.
Defined.

(** *** What the listings show *)

Lemma elem_of_order_by_desc {A} (key : A -> Z) (l : list A) (x : A) :
  x ∈ order_by_desc key l <-> x ∈ l.
Proof. by rewrite (ServerFacts.order_by_desc_perm key l). Qed.

(** X5.  A logged-in caller who is not a professor gets from GET
    /api/submissions only own submissions, each one a row of the table,
    without any student's name or address; and every own submission whose
    assignment exists is in the list. *)
Theorem student_sees_own_submissions (s : session) (d : database) :
  requireAuth s = None ->
  userRole s <> Some "professor" ->
  exists rows,
    get_submissions s d = reply 200 (SubmissionRows rows) /\
    (forall v, v ∈ rows ->
       student_id (sv_row v) = default "" (userId s) /\
       sv_row v ∈ submissions d /\ student v = None) /\
    (forall x, x ∈ submissions d ->
       student_id x = default "" (userId s) ->
       existsb (id_is (assignment_id x)) (assignments d) = true ->
       exists v, v ∈ rows /\ sv_row v = x).
Proof.
  intros Hs Hr. unfold get_submissions. rewrite Hs.
  rewrite bool_decide_eq_false_2 by done.
  eexists. split; [done|]. unfold select_submissions, submissions_for_student.
  split.
  - intros v Hv%elem_of_order_by_desc.
    apply list_elem_of_In, in_flat_map in Hv as (x & Hx & Hv).
    apply list_elem_of_In, list_elem_of_filter in Hx as [Hme Hx].
    apply list_elem_of_In, list_elem_of_fmap in Hv as (a & -> & _). done.
  - intros x Hx Hme Hex.
    apply existsb_exists in Hex as (a & Ha & Hk%bool_decide_eq_true).
    exists {| sv_row := x; student := None; assignment_title := title a |}.
    split; [|done]. apply elem_of_order_by_desc.
    apply list_elem_of_In, in_flat_map. exists x. split.
    + apply list_elem_of_In, list_elem_of_filter. done.
    + apply list_elem_of_In, list_elem_of_fmap. exists a. split; [done|].
      apply list_elem_of_filter. split; [done|]. by apply list_elem_of_In.
Qed.

Lemma student_sees_own_submissions_witness :
  exists rows,
    get_submissions (as_user "stud1" "student") sample_db
      = reply 200 (SubmissionRows rows) /\
    (forall v, v ∈ rows ->
       student_id (sv_row v) = "stud1" /\
       sv_row v ∈ submissions sample_db /\ student v = None) /\
    (forall x, x ∈ submissions sample_db ->
       student_id x = "stud1" ->
       existsb (id_is (assignment_id x)) (assignments sample_db) = true ->
       exists v, v ∈ rows /\ sv_row v = x).
Proof.
  apply (student_sees_own_submissions (as_user "stud1" "student") sample_db).
  - reflexivity.
  - discriminate.
Defined.

Lemma creator_unique (k : string) (l : list user) :
  NoDup (user_id <$> l) -> k ∈ user_id <$> l ->
  exists u, filter (fun u => k = user_id u) l = [u] /\ u ∈ l.
Proof.
  induction l as [|u l IH]; simpl; intros Hnd Hin.
  - by apply elem_of_nil in Hin.
  - apply NoDup_cons in Hnd as [Hu Hnd].
    destruct (decide (k = user_id u)) as [->|Hne].
    + exists u. split; [|left]. rewrite filter_cons_True by done. f_equal.
      apply ServerFacts.filter_none. intros v Hv Heq. apply Hu.
      rewrite Heq. apply list_elem_of_fmap. by exists v.
    + apply elem_of_cons in Hin as [?|Hin]; [done|].
      destruct (IH Hnd Hin) as (v & Hv & Hvl). exists v.
      split; [|by right]. by rewrite filter_cons_False.
Qed.

Lemma creator_missing (k : string) (l : list user) :
  k ∉ user_id <$> l -> filter (fun u => k = user_id u) l = [].
Proof.
  intros Hk. apply ServerFacts.filter_none. intros u Hu Heq. apply Hk.
  rewrite Heq. apply list_elem_of_fmap. by exists u.
Qed.

(** X7.  With user identifiers unique, as the primary key has them, GET
    /api/assignments shows a logged-in caller every assignment whose
    creator is a user, once, under the creator's name, and no assignment
    whose [created_by] names no user. *)
Theorem listing_joins_creators (s : session) (d : database) :
  requireAuth s = None ->
  NoDup (user_id <$> users d) ->
  exists rows,
    get_assignments s d = reply 200 (AssignmentRows rows) /\
    av_row <$> rows
      ≡ₚ filter (fun a => created_by a ∈ user_id <$> users d) (assignments d) /\
    (forall v, v ∈ rows ->
       exists u, u ∈ users d /\ user_id u = created_by (av_row v) /\
                 creator_name v = name u).
Proof.
  intros Hs Hnd. unfold get_assignments. rewrite Hs.
  eexists. split; [done|]. unfold select_assignments.
  split.
  - rewrite (ServerFacts.order_by_desc_perm _ (assignments_join_users d)).
    unfold assignments_join_users.
    induction (assignments d) as [|a l IH]; [done|]. simpl.
    rewrite fmap_app, IH.
    destruct (decide (created_by a ∈ user_id <$> users d)) as [Hin|Hout].
    + destruct (creator_unique _ _ Hnd Hin) as (u & -> & _).
      by rewrite filter_cons_True.
    + rewrite (creator_missing _ _ Hout). by rewrite filter_cons_False.
  - intros v Hv%elem_of_order_by_desc.
    apply list_elem_of_In, in_flat_map in Hv as (a & _ & Hv).
    apply list_elem_of_In, list_elem_of_fmap in Hv as (u & -> & Hu).
    apply list_elem_of_filter in Hu as [Hid Hu]. by exists u.
Qed.

Lemma listing_joins_creators_witness :
  exists rows,
    get_assignments (as_user "stud1" "student") two_professors
      = reply 200 (AssignmentRows rows) /\
    av_row <$> rows
      ≡ₚ filter (fun a => created_by a ∈ user_id <$> users two_professors)
           (assignments two_professors) /\
    (forall v, v ∈ rows ->
       exists u, u ∈ users two_professors /\ user_id u = created_by (av_row v) /\
                 creator_name v = name u).
Proof.
  apply (listing_joins_creators (as_user "stud1" "student") two_professors).
  - reflexivity.
  - apply (bool_decide_unpack _). vm_compute. exact I.
Defined.

(** *** Creating an assignment *)

Lemma filter_id_fresh (k : string) (l : list assignment) (P : assignment -> Prop)
    `{forall a, Decision (P a)} :
  existsb (id_is k) l = false -> (forall a, P a -> assignment_pk a = k) ->
  filter P l = [].
Proof.
  intros Hf HP. apply ServerFacts.filter_none. intros a Ha HPa.
  pose proof (proj1 (ServerFacts.existsb_false _ _) Hf a Ha) as Hk.
  unfold id_is in Hk. apply bool_decide_eq_false in Hk. by apply Hk, HP.
Qed.

Lemma join_fresh (k : string) (d : database) :
  existsb (id_is k) (assignments d) = false ->
  filter (fun v => assignment_pk (av_row v) = k) (assignments_join_users d) = [].
Proof.
  intros Hf. apply ServerFacts.filter_none. intros v Hv Hk.
  apply list_elem_of_In, in_flat_map in Hv as (a & Ha & Hv).
  apply list_elem_of_In, list_elem_of_fmap in Hv as (u & -> & _). simpl in Hk.
  apply list_elem_of_In in Ha.
  pose proof (proj1 (ServerFacts.existsb_false _ _) Hf a Ha) as Hk'.
  unfold id_is in Hk'. by apply bool_decide_eq_false in Hk'.
Qed.

Lemma find_filter_user (k : string) (l : list user) :
  find (fun u => bool_decide (user_id u = k)) l
  = head (filter (fun u => k = user_id u) l).
Proof.
  induction l as [|u l IH]; [done|]. simpl. case_bool_decide as Hk.
  - by rewrite filter_cons_True.
  - by rewrite filter_cons_False.
Qed.

(** X8.  A professor's POST /api/assignments with title and deadline present
    and an identifier no assignment has is answered 201.  One row is
    appended, owned by the caller, created at the second of the clock,
    its deadline being what the DATETIME column makes of the text sent
    (the number, when SQLite reads the text as a numeric literal, the
    text itself otherwise);
    the other tables are untouched; the row read back carries the name
    of the caller's user row, or is [undefined] when the caller has none.
    The caller can delete the new assignment at once, which restores the
    assignments as they were. *)
Theorem create_then_delete (numeric : string -> option Js.number)
    (now : Z) (uuid : string) (s : session)
    (t desc dl ins : option string) (d : database) :
  requireRole "professor" s = None ->
  Js.truthy t = true -> Js.truthy dl = true ->
  existsb (id_is uuid) (assignments d) = false ->
  let r := post_assignments numeric now uuid s t desc dl ins d in
  let me := default "" (userId s) in
  let row := {| assignment_pk := uuid; title := default "" t; description := desc;
                deadline := match numeric (default "" dl) with
                            | Some n => DateNumber n
                            | None => DateText (default "" dl)
                            end;
                instructions := ins; created_by := me;
                created_at := CURRENT_TIMESTAMP now |} in
  assignments (snd r) = (assignments d ++ [row])%list /\
  users (snd r) = users d /\ submissions (snd r) = submissions d /\
  fst r = Created ((fun u => {| av_row := row; creator_name := name u |})
                     <$> user_by_id me d) /\
  delete_assignment s uuid (snd r)
    = (reply 200 (Message "Assignment deleted successfully"), d).
Proof.
  intros Hs Ht Hdl Hfresh r me row. subst r.
  unfold post_assignments, insert_assignment, bind_datetime.
  rewrite Hs, Ht, Hdl, Hfresh.
  cbn [negb orb fst snd]. fold me row.
  split; [done|]. split; [done|]. split; [done|]. split.
  - f_equal. unfold assignment_with_creator, assignments_join_users. simpl.
    rewrite flat_map_app, filter_app.
    fold (assignments_join_users d). rewrite (join_fresh _ _ Hfresh). simpl.
    rewrite app_nil_r. unfold user_by_id. rewrite find_filter_user.
    destruct (filter (fun u => me = user_id u) (users d)) as [|u us]; [done|].
    simpl. by rewrite filter_cons_True.
  - unfold delete_assignment, delete_assignment_sql, foreign_keys.
    rewrite Hs. fold me. simpl.
    assert (filter (fun a => owned uuid me a = true) (assignments d) = []) as Hnone.
    { apply (filter_id_fresh uuid); [done|].
      intros a [Hk _]%andb_true_iff. by apply bool_decide_eq_true in Hk. }
    assert (filter (fun a => owned uuid me a = false) (assignments d)
            = assignments d) as Hall.
    { clear -Hnone. induction (assignments d) as [|a l IH]; [done|].
      destruct (owned uuid me a) eqn:Ho.
      - rewrite filter_cons_True in Hnone by done. done.
      - rewrite filter_cons_False in Hnone by congruence.
        rewrite filter_cons_True by done. by rewrite IH. }
    assert (owned uuid me row = true) as Hown.
    { unfold owned. simpl. by rewrite !bool_decide_eq_true_2. }
    rewrite !filter_app, Hnone, Hall. simpl.
    rewrite filter_cons_True by done.
    rewrite filter_cons_False by congruence. simpl.
    rewrite app_nil_r. f_equal. by destruct d.
Qed.

Lemma create_then_delete_witness :
  let r := post_assignments sample_numeric 1756728000000 "c41d"
             (as_user "prof1" "professor")
             (Some "Parsing") None (Some "2030") None sample_db in
  deadline <$> assignments (snd r)
    = [DateText "2025-09-15T23:59:59"; DateText "2025-09-20T23:59:59";
       DateNumber (Js.number_of_Z 2030)] /\
  delete_assignment (as_user "prof1" "professor") "c41d" (snd r)
    = (reply 200 (Message "Assignment deleted successfully"), sample_db).
Proof.
  pose proof (create_then_delete sample_numeric 1756728000000 "c41d"
                (as_user "prof1" "professor")
                (Some "Parsing") None (Some "2030") None sample_db
                eq_refl eq_refl eq_refl eq_refl) as (Ha & _ & _ & _ & Hd).
  split; [|exact Hd]. cbv zeta in Ha. rewrite Ha. reflexivity.
Defined.

(** A taken identifier is answered 500 and nothing is stored. *)
Lemma create_with_taken_identifier (numeric : string -> option Js.number)
    (now : Z) (uuid : string) (s : session)
    (t desc dl ins : option string) (d : database) :
  requireRole "professor" s = None ->
  Js.truthy t = true -> Js.truthy dl = true ->
  existsb (id_is uuid) (assignments d) = true ->
  post_assignments numeric now uuid s t desc dl ins d = (Refused InternalError, d).
Proof.
  intros Hs Ht Hdl Htaken. unfold post_assignments, insert_assignment.
  by rewrite Hs, Ht, Hdl, Htaken.
Qed.

(** *** The professor's listing of submissions *)

(** X6.  A professor gets from GET /api/submissions the submissions of every
    assignment, whoever created it: a row is listed exactly when it
    joins a stored submission with the user who is its student and with
    the assignment it refers to, and it carries that student's name and
    address and that assignment's title.  A stored submission whose
    assignment is gone is therefore in no listing. *)
Theorem professor_sees_every_submission (s : session) (d : database) :
  requireAuth s = None ->
  userRole s = Some "professor" ->
  exists rows,
    get_submissions s d = reply 200 (SubmissionRows rows) /\
    (forall v, v ∈ rows <->
       exists x u a,
         x ∈ submissions d /\ u ∈ users d /\ a ∈ assignments d /\
         student_id x = user_id u /\ assignment_id x = assignment_pk a /\
         v = {| sv_row := x; student := Some (name u, email u);
                assignment_title := title a |}) /\
    (forall x, existsb (id_is (assignment_id x)) (assignments d) = false ->
       forall v, v ∈ rows -> sv_row v <> x).
Proof.
  intros Hs Hr. unfold get_submissions. rewrite Hs.
  rewrite bool_decide_eq_true_2 by done.
  eexists. split; [done|].
  assert (forall v, v ∈ select_submissions submissions_for_professor d <->
            exists x u a,
              x ∈ submissions d /\ u ∈ users d /\ a ∈ assignments d /\
              student_id x = user_id u /\ assignment_id x = assignment_pk a /\
              v = {| sv_row := x; student := Some (name u, email u);
                     assignment_title := title a |}) as Hrows.
  { intros v. unfold select_submissions, submissions_for_professor.
    rewrite elem_of_order_by_desc. split.
    - intros Hv. apply list_elem_of_In, in_flat_map in Hv as (x & Hx & Hv).
      apply in_flat_map in Hv as (u & Hu & Hv).
      apply list_elem_of_In, list_elem_of_filter in Hu as [Hxu Hu].
      apply list_elem_of_In, list_elem_of_fmap in Hv as (a & -> & Ha).
      apply list_elem_of_filter in Ha as [Hxa Ha].
      exists x, u, a. split_and!; try done. by apply list_elem_of_In.
    - intros (x & u & a & Hx & Hu & Ha & Hxu & Hxa & ->).
      apply list_elem_of_In, in_flat_map. exists x.
      split; [by apply list_elem_of_In|].
      apply in_flat_map. exists u. split.
      + apply list_elem_of_In, list_elem_of_filter. done.
      + apply list_elem_of_In, list_elem_of_fmap. exists a. split; [done|].
        by apply list_elem_of_filter. }
  split; [exact Hrows|].
  intros x Hgone v Hv <-. apply Hrows in Hv as (x & u & a & _ & _ & Ha & _ & Hxa & ->).
  simpl in Hgone. pose proof (proj1 (ServerFacts.existsb_false _ _) Hgone) as Hall.
  specialize (Hall a Ha). unfold id_is in Hall. by rewrite bool_decide_eq_true_2 in Hall.
Qed.

Lemma professor_sees_every_submission_witness :
  exists rows,
    get_submissions (as_user "prof2" "professor") two_professors
      = reply 200 (SubmissionRows rows) /\
    (forall v, v ∈ rows <->
       exists x u a,
         x ∈ submissions two_professors /\ u ∈ users two_professors /\
         a ∈ assignments two_professors /\
         student_id x = user_id u /\ assignment_id x = assignment_pk a /\
         v = {| sv_row := x; student := Some (name u, email u);
                assignment_title := title a |}) /\
    (forall x,
       existsb (id_is (assignment_id x)) (assignments two_professors) = false ->
       forall v, v ∈ rows -> sv_row v <> x).
Proof.
  apply (professor_sees_every_submission (as_user "prof2" "professor")
           two_professors); reflexivity.
Defined.


(** *** Logging in, asking who one is, logging out *)

Lemma find_first_of_id (u : user) (l : list user) :
  NoDup (user_id <$> l) -> u ∈ l ->
  find (fun v => bool_decide (user_id v = user_id u)) l = Some u.
Proof.
  induction l as [|v l IH]; simpl; intros Hnd Hin.
  - by apply elem_of_nil in Hin.
  - apply NoDup_cons in Hnd as [Hv Hnd]. case_bool_decide as Hid.
    + apply elem_of_cons in Hin as [->|Hin]; [done|].
      exfalso. apply Hv. rewrite Hid. apply list_elem_of_fmap. by exists u.
    + apply elem_of_cons in Hin as [->|Hin]; [done|]. by apply IH.
Qed.

Lemma find_elem_of {A} (f : A -> bool) (l : list A) (x : A) :
  find f l = Some x -> x ∈ l.
Proof.
  induction l as [|y l IH]; [done|]. simpl. destruct (f y).
  - intros [= ->]. left.
  - intros H. right. by apply IH.
Qed.

(** X9.  With user identifiers unique and none of them empty: after a login
    answered 200, GET /api/auth/user under the session the login left
    answers 200 with the very profile the login returned, and after
    POST /api/auth/logout the same request is answered 401. *)
Theorem login_whoami_logout (compare : string -> string -> option bool)
    (e p : option string) (s : session) (d : database) :
  NoDup (user_id <$> users d) ->
  (forall u, u ∈ users d -> user_id u <> "") ->
  code (fst (login compare e p s d)) = 200%nat ->
  let s' := snd (login compare e p s d) in
  get_auth_user s' d = fst (login compare e p s d) /\
  get_auth_user (snd (logout s')) d = Unauthenticated.
Proof.
  intros Hnd Hne. unfold login.
  destruct (_ || _); [done|].
  destruct (user_by_email (default "" e) d) as [u|] eqn:Hu; [|done].
  destruct (compare (default "" p) (password_hash u)) as [[]|]; try done.
  intros _. simpl. split; [|done].
  apply find_elem_of in Hu.
  unfold get_auth_user, requireAuth, user_by_id. simpl.
  rewrite bool_decide_eq_false_2 by (by apply Hne). simpl.
  by rewrite find_first_of_id.
Qed.

Lemma login_whoami_logout_witness :
  let s' := snd (login sample_compare (Some "jane.smith@university.edu")
                   (Some "password123") no_session sample_db) in
  get_auth_user s' sample_db
    = fst (login sample_compare (Some "jane.smith@university.edu")
             (Some "password123") no_session sample_db) /\
  get_auth_user (snd (logout s')) sample_db = Unauthenticated.
Proof.
  apply (login_whoami_logout sample_compare (Some "jane.smith@university.edu")
           (Some "password123") no_session sample_db).
  - apply (bool_decide_unpack _). vm_compute. exact I.
  - apply (proj1 (Forall_forall _ _)). apply (bool_decide_unpack _).
    vm_compute. exact I.
  - reflexivity.
Defined.

(** *** Starting the server again *)

Section OrIgnore.
Context {A : Type} (conflict : A -> A -> bool).

Definition or_ignore (l : list A) (x : A) : list A :=
  if existsb (conflict x) l then l else (l ++ [x])%list.

Hypothesis conflict_refl : forall x, conflict x x = true.

Lemma or_ignore_prefix (l : list A) (x : A) : l `prefix_of` or_ignore l x.
Proof.
  unfold or_ignore. destruct (existsb _ l); [done|]. by apply prefix_app_r.
Qed.

Lemma foldl_or_ignore_prefix (rows l : list A) :
  l `prefix_of` foldl or_ignore l rows.
Proof.
  revert l. induction rows as [|x rows IH]; intros l; [done|]. simpl.
  etrans; [apply (or_ignore_prefix l x)|apply IH].
Qed.

Lemma existsb_prefix (f : A -> bool) (l l' : list A) :
  l `prefix_of` l' -> existsb f l = true -> existsb f l' = true.
Proof.
  intros [k ->] H. rewrite existsb_app, H. done.
Qed.

Lemma or_ignore_taken (l : list A) (x : A) :
  existsb (conflict x) (or_ignore l x) = true.
Proof.
  unfold or_ignore. destruct (existsb (conflict x) l) eqn:H; [done|].
  rewrite existsb_app. simpl. by rewrite conflict_refl, orb_true_r.
Qed.

Lemma foldl_or_ignore_taken (rows l : list A) (x : A) :
  x ∈ rows -> existsb (conflict x) (foldl or_ignore l rows) = true.
Proof.
  revert l. induction rows as [|y rows IH]; intros l Hx.
  - by apply elem_of_nil in Hx.
  - simpl. apply elem_of_cons in Hx as [->|Hx]; [|by apply IH].
    eapply existsb_prefix; [apply foldl_or_ignore_prefix|apply or_ignore_taken].
Qed.

Lemma foldl_or_ignore_skip (rows' l : list A) :
  Forall (fun x' => existsb (conflict x') l = true) rows' ->
  foldl or_ignore l rows' = l.
Proof.
  induction 1 as [|x' rows' Hx' _ IH]; [done|]. simpl.
  unfold or_ignore at 2. by rewrite Hx'.
Qed.

Lemma foldl_or_ignore_again (rows rows' l : list A) :
  Forall2 (fun x x' => forall y, conflict x' y = conflict x y) rows rows' ->
  foldl or_ignore (foldl or_ignore l rows) rows' = foldl or_ignore l rows.
Proof.
  intros H. apply foldl_or_ignore_skip. apply Forall_forall. intros x' Hx'.
  apply list_elem_of_lookup in Hx' as [i Hi].
  destruct (Forall2_lookup_r _ _ _ i x' H Hi) as (x & Hx & Hc).
  rewrite <- (foldl_or_ignore_taken rows l x) by (apply list_elem_of_lookup; by exists i).
  generalize (foldl or_ignore l rows). intros k.
  induction k as [|y k IHk]; [done|]. simpl. by rewrite Hc, IHk.
Qed.

End OrIgnore.

(** X10.  At every start of the server [insertSampleData] only appends: the
    rows already stored stay, in their order, as a prefix of each
    table.  Running it once more changes nothing, whatever the hash
    [bcrypt.hash] returns and whatever the clock says the second time:
    the sample accounts keep the password hash of the first run. *)
Theorem sample_data_on_restart (numeric : string -> option Js.number)
    (h : string) (now : Z) (d : database) :
  let d' := insertSampleData numeric h now d in
  users d `prefix_of` users d' /\
  assignments d `prefix_of` assignments d' /\
  submissions d `prefix_of` submissions d' /\
  forall (h' : string) (now' : Z), insertSampleData numeric h' now' d' = d'.
Proof.
  cbn zeta. split_and!.
  - apply (foldl_or_ignore_prefix user_conflict).
  - apply (foldl_or_ignore_prefix (fun a => id_is (assignment_pk a))).
  - apply (foldl_or_ignore_prefix submission_conflict).
  - intros h' now'. unfold insertSampleData.
    cbn [users assignments submissions submissions_on_delete]. f_equal.
    + refine (foldl_or_ignore_again user_conflict _
               (sampleUsers h (CURRENT_TIMESTAMP now))
               (sampleUsers h' (CURRENT_TIMESTAMP now')) (users d) _).
      * intros x. unfold user_conflict. by rewrite bool_decide_eq_true_2.
      * repeat constructor.
    + refine (foldl_or_ignore_again (fun a => id_is (assignment_pk a)) _
               (sampleAssignments numeric (CURRENT_TIMESTAMP now))
               (sampleAssignments numeric (CURRENT_TIMESTAMP now')) (assignments d) _).
      * intros x. unfold id_is. by rewrite bool_decide_eq_true_2.
      * repeat constructor.
    + refine (foldl_or_ignore_again submission_conflict _
               (sampleSubmissions (CURRENT_TIMESTAMP now))
               (sampleSubmissions (CURRENT_TIMESTAMP now')) (submissions d) _).
      * intros x. unfold submission_conflict. by rewrite bool_decide_eq_true_2.
      * repeat constructor.
Qed.


(** *** The event stream *)

Lemma write_lookup (conn conn' : nat) (c : chunk) (w : gmap nat (list chunk)) :
  write conn c w !! conn'
  = if bool_decide (conn' = conn) then Some (default [] (w !! conn) ++ [c])%list
    else w !! conn'.
Proof.
  unfold write. case_bool_decide as H.
  - subst. by rewrite lookup_insert_eq.
  - by rewrite lookup_insert_ne.
Qed.

Lemma broadcast_elsewhere (text : string) (l : list client)
    (w : gmap nat (list chunk)) (conn : nat) :
  conn ∉ response_of <$> l ->
  foldl (fun w c => write (response_of c) (Data text) w) w l !! conn = w !! conn.
Proof.
  revert w. induction l as [|c l IH]; intros w Hn; [done|]. simpl.
  rewrite fmap_cons in Hn. apply not_elem_of_cons in Hn as [Hc Hn].
  rewrite IH by done. rewrite write_lookup. by rewrite bool_decide_eq_false_2.
Qed.

Lemma broadcast_here (text : string) (l : list client)
    (w : gmap nat (list chunk)) (conn : nat) :
  NoDup (response_of <$> l) -> conn ∈ response_of <$> l ->
  foldl (fun w c => write (response_of c) (Data text) w) w l !! conn
  = Some (default [] (w !! conn) ++ [Data text])%list.
Proof.
  revert w. induction l as [|c l IH]; intros w Hnd Hin.
  - by apply elem_of_nil in Hin.
  - simpl. rewrite fmap_cons in Hnd, Hin. apply NoDup_cons in Hnd as [Hc Hnd].
    apply elem_of_cons in Hin as [->|Hin].
    + rewrite broadcast_elsewhere by done. rewrite write_lookup.
      by rewrite bool_decide_eq_true_2.
    + rewrite IH by done. rewrite write_lookup.
      rewrite bool_decide_eq_false_2; [done|]. by intros ->.
Qed.

(** X11.  [broadcastUpdate], with every registered client on a connection of
    its own, writes the piece of data exactly once at the end of each
    registered connection, writes on no other connection, and leaves
    the registry as it is; while no client has ever connected (the
    registry is still undefined) it does nothing. *)
Theorem broadcast_once_per_client (text : string) (st : streams) :
  NoDup (response_of <$> default [] (sseClients st)) ->
  sseClients (broadcastUpdate text st) = sseClients st /\
  (sseClients st = None -> broadcastUpdate text st = st) /\
  forall conn : nat,
    written (broadcastUpdate text st) !! conn
    = if bool_decide (conn ∈ response_of <$> default [] (sseClients st))
      then Some (default [] (written st !! conn) ++ [Data text])%list
      else written st !! conn.
Proof.
  intros Hnd. unfold broadcastUpdate.
  destruct (sseClients st) as [l|] eqn:El; simpl in *.
  - split_and!; [done..|]. intros conn. case_bool_decide as Hin.
    + by apply broadcast_here.
    + by apply broadcast_elsewhere.
  - by split_and!.
Qed.

Lemma broadcast_once_per_client_witness :
  let st := {| sseClients := Some [ {| client_id := 10; response_of := 0%nat |};
                                    {| client_id := 20; response_of := 1%nat |} ];
               written := {[ 0%nat := [Connected 10]; 1%nat := [Connected 20] ]} |} in
  written (broadcastUpdate "submission" st) !! 1%nat
    = Some [Connected 20; Data "submission"] /\
  written (broadcastUpdate "submission" st) !! 2%nat = None.
Proof.
  intros st.
  assert (NoDup (response_of <$> default [] (sseClients st))) as Hnd.
  { apply (bool_decide_unpack _). vm_compute. exact I. }
  destruct (broadcast_once_per_client "submission" st Hnd) as [_ [_ H]].
  split.
  - rewrite (H 1%nat). reflexivity.
  - rewrite (H 2%nat). reflexivity.
Defined.

Lemma filter_other_ids (now : Z) (l : list client) :
  Forall (fun c => client_id c <> now) l ->
  filter (fun c => client_id c <> now) l = l.
Proof.
  induction 1 as [|c l Hc _ IH]; [done|].
  rewrite filter_cons_True by done. by rewrite IH.
Qed.

(** X12.  A stream opened at a clock reading that no registered client has as
    its identifier: the request must carry a logged-in session, the
    greeting is the one thing written on the connection, and when the
    request closes the registry holds the clients it held before, in
    their order (an undefined registry has become the empty list). *)
Theorem stream_open_then_close (now : Z) (conn : nat) (s : session)
    (st : streams) :
  Forall (fun c => client_id c <> now) (default [] (sseClients st)) ->
  (requireAuth s <> None -> open_stream now conn s st = None) /\
  (requireAuth s = None ->
   exists st', open_stream now conn s st = Some st' /\
     written st' = write conn (Connected now) (written st) /\
     sseClients (close_stream now st') = Some (default [] (sseClients st)) /\
     written (close_stream now st') = written st').
Proof.
  intros Hfresh. unfold open_stream. split.
  - destruct (requireAuth s); done.
  - intros ->. eexists. split; [done|]. unfold close_stream. simpl.
    split_and!; [done| |done]. f_equal.
    rewrite filter_app, filter_other_ids by done.
    rewrite filter_cons_False, filter_nil by (simpl; tauto).
    apply app_nil_r.
Qed.

Lemma stream_open_then_close_witness :
  let st := {| sseClients := None; written := ∅ |} in
  exists st', open_stream 1755684000000 0 (as_user "stud1" "student") st = Some st' /\
    written st' = write 0 (Connected 1755684000000) (written st) /\
    sseClients (close_stream 1755684000000 st') = Some [] /\
    written (close_stream 1755684000000 st') = written st'.
Proof.
  intros st.
  assert (Forall (fun c => client_id c <> 1755684000000)
            (default [] (sseClients st))) as Hfresh by constructor.
  exact (proj2 (stream_open_then_close 1755684000000 0
                  (as_user "stud1" "student") st Hfresh) eq_refl).
Defined.

(** X13.  Two streams opened within the same millisecond get the same client
    identifier: when either of the two requests closes, both clients
    leave the registry, and the connection of the second, unless an
    earlier client shares it, receives nothing of what is broadcast
    afterwards although it is still open. *)
Theorem streams_of_one_millisecond (now : Z) (c1 c2 : nat) (s1 s2 : session)
    (st st1 st2 : streams) :
  open_stream now c1 s1 st = Some st1 ->
  open_stream now c2 s2 st1 = Some st2 ->
  sseClients (close_stream now st2)
    = Some (filter (fun c => client_id c <> now) (default [] (sseClients st))) /\
  (c2 ∉ response_of <$> default [] (sseClients st) ->
   forall text : string,
     written (broadcastUpdate text (close_stream now st2)) !! c2
     = written st2 !! c2).
Proof.
  unfold open_stream.
  destruct (requireAuth s1); [done|]. intros [= <-].
  destruct (requireAuth s2); [done|]. intros [= <-].
  unfold close_stream. simpl.
  rewrite !filter_app, !filter_cons_False, !filter_nil, !app_nil_r
    by (simpl; tauto).
  split; [done|]. intros Hn text. unfold broadcastUpdate. simpl.
  apply broadcast_elsewhere. intros Hin. apply Hn.
  apply list_elem_of_fmap in Hin as (c & -> & Hc).
  apply list_elem_of_fmap. exists c. split; [done|].
  by apply list_elem_of_filter in Hc as [_ Hc].
Qed.

Lemma streams_of_one_millisecond_witness :
  let st := {| sseClients := None; written := ∅ |} in
  exists st1 st2,
    open_stream 1755684000000 0 (as_user "stud1" "student") st = Some st1 /\
    open_stream 1755684000000 1 (as_user "prof1" "professor") st1 = Some st2 /\
    sseClients (close_stream 1755684000000 st2) = Some [] /\
    written (broadcastUpdate "submission" (close_stream 1755684000000 st2)) !! 1%nat
      = written st2 !! 1%nat.
Proof.
  intros st. eexists _, _.
  assert (forall A B C D : Prop, A -> B -> (A -> B -> C /\ D) -> A /\ B /\ C /\ D)
    as Hsplit by tauto.
  apply Hsplit; [reflexivity|reflexivity|]. intros H1 H2.
  destruct (streams_of_one_millisecond 1755684000000 0 1
              (as_user "stud1" "student") (as_user "prof1" "professor")
              st _ _ H1 H2) as [Ha Hb].
  split; [exact Ha|]. apply Hb. simpl. apply not_elem_of_nil.
Defined.


(** *** Deadlines the server cannot read *)

Section Unreadable.

Variable Date_parse : string -> Js.Date.

Lemma find_app_fresh (k : string) (l : list assignment) (row : assignment) :
  existsb (id_is k) l = false -> assignment_pk row = k ->
  find (id_is k) (l ++ [row])%list = Some row.
Proof.
  intros Hf Hk. induction l as [|a l IH]; simpl in *.
  - unfold id_is. by rewrite bool_decide_eq_true_2.
  - apply orb_false_iff in Hf as [-> Hf]. by apply IH.
Qed.

(** X14.  POST /api/assignments stores any non-empty deadline text, as
    the DATETIME column takes it: as a number when SQLite reads the
    text as a numeric literal, as the text otherwise.  POST
    /api/submissions applies [new Date] to what is stored.  When that
    gives no date (a text [new Date] cannot read, or a number beyond
    the range of dates) the comparison with the clock is false at every
    moment: a student's submission for the assignment, with a link and
    an identifier no submission has, is answered 200 whatever the clock
    says.  When the text was taken for a number, the number is read as
    milliseconds since 1970, whatever [new Date] would make of the
    text: once the clock is past that moment the submission is refused
    with 400 and nothing is stored. *)
Theorem unreadable_deadline_never_closes (numeric : string -> option Js.number)
    (now later : Z) (uuid1 uuid2 : string)
    (sp ss : session) (t dl : string) (desc ins : option string) (link : string)
    (d : database) :
  requireRole "professor" sp = None ->
  requireRole "student" ss = None ->
  t <> "" -> dl <> "" -> uuid1 <> "" -> link <> "" ->
  existsb (id_is uuid1) (assignments d) = false ->
  existsb (fun r => bool_decide (submission_pk r = uuid2)) (submissions d) = false ->
  let stored := match numeric dl with
                | Some n => DateNumber n
                | None => DateText dl
                end in
  let d1 := snd (post_assignments numeric now uuid1 sp (Some t) desc (Some dl) ins d) in
  let r := post_submissions Date_parse later uuid2 ss (Some uuid1) (Some link) d1 in
  (exists row, assignment_by_id uuid1 d1 = Some row /\ deadline row = stored) /\
  (deadline_date Date_parse stored = None ->
   fst r = reply 200 (Message "Submission saved successfully") /\
   exists x, x ∈ submissions (snd r) /\ assignment_id x = uuid1 /\
             student_id x = default "" (userId ss) /\ repo_link x = link) /\
  (forall n t0, numeric dl = Some n -> Js.Date_of_number n = Some t0 ->
   t0 < later -> r = (DeadlinePassed, d1)).
Proof.
  intros Hp Hs Ht Hdl Hu Hl Hfresh Hpk stored.
  unfold post_assignments. rewrite Hp. unfold Js.truthy.
  rewrite !bool_decide_eq_false_2 by done. cbn [negb orb from_option id].
  unfold insert_assignment, bind_datetime. rewrite Hfresh. cbn [snd]. fold stored.
  cbn zeta. unfold post_submissions. rewrite Hs. unfold Js.truthy.
  rewrite !bool_decide_eq_false_2 by done. cbn [negb orb from_option id].
  unfold assignment_by_id. cbn [assignments with_assignments].
  rewrite find_app_fresh by done. cbn [deadline].
  split; [by eexists|]. split.
  - intros ->. cbn [Js.date_gt].
    unfold upsert_submission. cbn [submissions with_assignments].
    destruct (existsb (conflicts uuid1 (default "" (userId ss))) (submissions d))
      eqn:Hc.
    + cbn [fst snd]. split; [done|].
      apply existsb_exists in Hc as (x & Hx & Hcx).
      exists (do_update link (CURRENT_TIMESTAMP later) x).
      unfold conflicts in Hcx. apply andb_prop in Hcx as [Ha Hb].
      apply bool_decide_eq_true in Ha, Hb.
      split_and!; try done. cbn [submissions with_submissions].
      apply list_elem_of_fmap. exists x. split; [|by apply list_elem_of_In].
      unfold conflicts. by rewrite !bool_decide_eq_true_2.
    + rewrite Hpk. cbn [fst snd]. split; [done|].
      eexists. split.
      * cbn [submissions with_submissions]. apply elem_of_app. right. left.
      * by split_and!.
  - intros n t0 Hn Ht0 Hlt. unfold stored. rewrite Hn. cbn [deadline_date].
    rewrite Ht0. cbn [Js.date_gt]. by rewrite bool_decide_eq_true_2.
Qed.

End Unreadable.

Lemma unreadable_deadline_never_closes_witness :
  (let d1 := snd (post_assignments sample_numeric 1755684000000 "7d3e"
                    (as_user "prof1" "professor")
                    (Some "Essay") None (Some "next Friday") None sample_db) in
   let r := post_submissions clock 4102444800000 "9f1a" (as_user "stud2" "student")
              (Some "7d3e") (Some "https://github.com/s/x") d1 in
   fst r = reply 200 (Message "Submission saved successfully")) /\
  (let d1 := snd (post_assignments sample_numeric 1755684000000 "7d3e"
                    (as_user "prof1" "professor")
                    (Some "Essay") None (Some "2030") None sample_db) in
   let r := post_submissions clock 1755684000001 "9f1a" (as_user "stud2" "student")
              (Some "7d3e") (Some "https://github.com/s/x") d1 in
   r = (DeadlinePassed, d1)).
Proof.
  split.
  - destruct (unreadable_deadline_never_closes clock sample_numeric
                1755684000000 4102444800000
                "7d3e" "9f1a" (as_user "prof1" "professor")
                (as_user "stud2" "student") "Essay" "next Friday" None None
                "https://github.com/s/x" sample_db) as (_ & H & _); [done..|].
    by apply H.
  - destruct (unreadable_deadline_never_closes clock sample_numeric
                1755684000000 1755684000001
                "7d3e" "9f1a" (as_user "prof1" "professor")
                (as_user "stud2" "student") "Essay" "2030" None None
                "https://github.com/s/x" sample_db) as (_ & _ & H); [done..|].
    apply (H (Js.number_of_Z 2030) 2030); [reflexivity|reflexivity|lia].
Defined.


End ServerRestFacts.

(** ** The rest of the browser's engine and API *)

From Stdlib Require DecimalString.

Module BrowserRest.
Import Browser.

(** [APIService.logout]; its promise resolves with [{success: true}]. *)
Definition logout (a : app) : app :=
  {| db := db a; currentSession := None |}.

(** The calls of the API that write.  Each runs in one timer callback,
    so a run of the page is a sequence of them. *)
Inductive call :=
| Login (e : string) (password : ustring)
| Logout
| CreateAssignment (t desc dl ins : string)
| CreateSubmission (assignmentId repoLink : string).

(** A call with the clock at the moment its callback runs and the
    identifier drawn for it (of the session or of the new record). *)
Record request := {
  clock_at : Z;
  fresh : string;
  called : call
}.

Definition serve (a : app) (r : request) : app :=
  match called r with
  | Login e p => snd (login e p (fresh r) (clock_at r) a)
  | Logout => logout a
  | CreateAssignment t desc dl ins =>
      snd (createAssignment t desc dl ins (fresh r) (clock_at r) a)
  | CreateSubmission k link =>
      snd (createSubmission k link (fresh r) (clock_at r) a)
  end.

(** The application after a sequence of calls on the fresh page. *)
Definition after (rs : list request) : app := foldl serve appState rs.

Definition student_of (e : engine) (l : ref) : option string :=
  student_id <$> store e !! l.

Definition assignment_of (e : engine) (l : ref) : option string :=
  assignment_id <$> store e !! l.

(** What every state of the application satisfies: the users are the
    sample users; the submissions table lists every object of the store
    once, in order of creation; the indexes agree with the tables; no
    two submissions have the same assignment and student; a session
    belongs to a user of the table. *)
Definition consistent (a : app) : Prop :=
  let e := db a in
  t_users e = seed_users /\
  t_submissions e = seq 0 (length (store e)) /\
  indexed e /\
  (forall k, default [] (submissions_student_id e !! k)
             = filter (fun l => student_of e l = Some k) (t_submissions e)) /\
  (forall k, default [] (submissions_assignment_id e !! k)
             = filter (fun l => assignment_of e l = Some k) (t_submissions e)) /\
  NoDup ((fun s => (assignment_id s, student_id s)) <$> store e) /\
  (forall s, currentSession a = Some s ->
     session_user s ∈ t_users e /\ userId s = user_id (session_user s)).

(** *** Deadlines on the page *)

(** One day in milliseconds, [1000 * 60 * 60 * 24]. *)
Definition day : Z := 1000 * 60 * 60 * 24.

(** [Math.ceil(x / d)] for an integer [x].  The page computes the
    quotient in floating point; its ceiling is the exact one whenever
    the two dates are less than 2^27 days apart. *)
Definition ceil_div (x d : Z) : Z := - ((- x) / d).

Section Deadline.

Variable Date_parse : string -> Js.Date.

(** [formatDeadline], at clock [now].  On an invalid date every
    comparison with NaN is false and the template prints it. *)
Definition formatDeadline (now : Z) (dateString : string) : string :=
  match Date_parse dateString with
  | None => "Due in NaN days"
  | Some t =>
      let diffDays := ceil_div (t - now) day in
      if bool_decide (diffDays < 0) then "Overdue"
      else if bool_decide (diffDays = 0) then "Due today"
      else if bool_decide (diffDays = 1) then "Due tomorrow"
      else "Due in " ++ DecimalString.NilZero.string_of_int (Z.to_int diffDays)
             ++ " days"
  end.

End Deadline.

End BrowserRest.

Module BrowserRestFacts.
Import Browser BrowserRest.

(** *** The dispatcher on the remaining statements *)

Lemma query_submissions (params : list string) (id : string) (now : Z) (e : engine) :
  query "SELECT * FROM submissions" params id now e
  = Normal (VSubmissions (t_submissions e), e).
Proof. reflexivity. Qed.

Lemma query_submissions_by_student (params : list string) (id : string) (now : Z)
    (e : engine) :
  query "SELECT * FROM submissions WHERE student_id = ?" params id now e
  = Normal (VSubmissions
              (default [] (index_get (submissions_student_id e) params 0)), e).
Proof. reflexivity. Qed.

Lemma query_insert_assignment (params : list string) (id : string) (now : Z)
    (e : engine) :
  query "INSERT INTO assignments (title, description, deadline, instructions, created_by) VALUES (?, ?, ?, ?, ?)"
    params id now e
  = let a := {| assignment_pk := id; title := param params 0;
                description := param params 1; deadline := param params 2;
                instructions := param params 3; created_by := param params 4;
                created_at := now |} in
    Normal (VAssignment a,
      {| store := store e; t_users := t_users e;
         t_assignments := t_assignments e ++ [a];
         t_submissions := t_submissions e;
         users_email := users_email e;
         assignments_created_by :=
           index_push (created_by a) a (assignments_created_by e);
         submissions_assignment_id := submissions_assignment_id e;
         submissions_student_id := submissions_student_id e |}).
Proof. reflexivity. Qed.

Lemma query_delete_assignment (params : list string) (id : string) (now : Z)
    (e : engine) :
  query "DELETE FROM assignments WHERE id = ?" params id now e
  = Normal (executeDelete "delete from assignments where id = ?" params e).
Proof. reflexivity. Qed.

(** *** The state of the application *)

Lemma foldl_ref_index (st : list submission) (key : submission -> string)
    (t : list nat) (m : gmap string (list nat)) (k : string) :
  default [] (foldl (fun m l => match st !! l with
                                | Some s => index_push (key s) l m
                                | None => m
                                end) m t !! k)
  = (default [] (m !! k) ++ filter (fun l => key <$> st !! l = Some k) t)%list.
Proof.
  revert m. induction t as [|l t IH] using rev_ind; intros m.
  - by rewrite app_nil_r.
  - rewrite foldl_app. simpl. rewrite BrowserFacts.filter_snoc.
    destruct (st !! l) as [s|] eqn:Hl; simpl.
    + rewrite BrowserFacts.index_push_lookup, IH, <- app_assoc. f_equal.
      rewrite (bool_decide_ext (key s = k) (Some (key s) = Some k)); [done|].
      split; congruence.
    + rewrite IH. by rewrite app_nil_r.
Qed.

Lemma createIndexes_by_student (e : engine) (k : string) :
  default [] (submissions_student_id (createIndexes e) !! k)
  = filter (fun l => student_of (createIndexes e) l = Some k)
      (t_submissions (createIndexes e)).
Proof.
  simpl. rewrite (foldl_ref_index (store e) student_id). by rewrite lookup_empty.
Qed.

Lemma createIndexes_by_assignment (e : engine) (k : string) :
  default [] (submissions_assignment_id (createIndexes e) !! k)
  = filter (fun l => assignment_of (createIndexes e) l = Some k)
      (t_submissions (createIndexes e)).
Proof.
  simpl. rewrite (foldl_ref_index (store e) assignment_id). by rewrite lookup_empty.
Qed.

Lemma consistent_appState : consistent appState.
Proof.
  unfold consistent. split_and!.
  - reflexivity.
  - reflexivity.
  - apply BrowserFacts.initial_state_indexed.
  - intros k. unfold appState, initializeDatabase, db.
    apply (createIndexes_by_student _ k).
  - intros k. unfold appState, initializeDatabase, db.
    apply (createIndexes_by_assignment _ k).
  - apply (bool_decide_unpack _). vm_compute. exact I.
  - done.
Qed.

Lemma createAssignment_unauthorized t desc dl ins id now a :
  session_role_is "professor" a = false ->
  createAssignment t desc dl ins id now a = (Reject "Unauthorized", a).
Proof.
  unfold session_role_is, createAssignment.
  destruct (currentSession a) as [s|]; [|done].
  intros ->. done.
Qed.

Lemma createAssignment_professor t desc dl ins id now a s :
  currentSession a = Some s ->
  role (session_user s) = "professor" ->
  let row := {| assignment_pk := id; title := t; description := desc;
                deadline := dl; instructions := ins; created_by := userId s;
                created_at := now |} in
  createAssignment t desc dl ins id now a
  = (Resolve (RValue (VAssignment row)),
     {| db :=
          {| store := store (db a); t_users := t_users (db a);
             t_assignments := t_assignments (db a) ++ [row];
             t_submissions := t_submissions (db a);
             users_email := users_email (db a);
             assignments_created_by :=
               index_push (userId s) row (assignments_created_by (db a));
             submissions_assignment_id := submissions_assignment_id (db a);
             submissions_student_id := submissions_student_id (db a) |};
        currentSession := Some s |}).
Proof.
  intros Hs Hr. unfold createAssignment.
  rewrite Hs, Hr, query_insert_assignment. reflexivity.
Qed.

Lemma student_of_update {B} (st : list submission) (key : submission -> B)
    (link : string) (now : Z) (l l' : nat) :
  (forall s, key (overwrite link now s) = key s) ->
  key <$> alter (overwrite link now) l st !! l' = key <$> st !! l'.
Proof.
  intros Hkey. destruct (decide (l = l')) as [->|Hne].
  - rewrite list_lookup_alter_eq. destruct (st !! l'); [|done]. simpl.
    by rewrite Hkey.
  - by rewrite list_lookup_alter_ne.
Qed.

Lemma pairs_of_update (st : list submission) (link : string) (now : Z) (l : nat) :
  (fun s => (assignment_id s, student_id s)) <$> alter (overwrite link now) l st
  = (fun s => (assignment_id s, student_id s)) <$> st.
Proof.
  apply list_eq. intros i. rewrite !list_lookup_fmap.
  apply (student_of_update st (fun s => (assignment_id s, student_id s))). done.
Qed.

Lemma consistent_login e p sid now a :
  consistent a -> consistent (snd (login e p sid now a)).
Proof.
  intros (Hu & Ht & Hi & Hs & Ha & Hn & Hsess).
  unfold login. rewrite BrowserFacts.query_user_by_email.
  destruct (index_get (users_email (db a)) [e] 0) as [u|] eqn:Hget.
  2: { unfold consistent. simpl. by split_and!. }
  destruct (verifyPassword p (password_hash u)) as [[]|].
  2, 3: unfold consistent; simpl; by split_and!.
  unfold consistent. simpl. split_and!; try done.
  intros s [= <-]. simpl. split; [|done].
  unfold index_get in Hget. simpl in Hget.
  rewrite (proj2 Hi) in Hget. apply last_Some_elem_of in Hget.
  by apply list_elem_of_filter in Hget as [_ Hget].
Qed.

Lemma consistent_logout a : consistent a -> consistent (logout a).
Proof.
  intros (Hu & Ht & Hi & Hs & Ha & Hn & Hsess).
  unfold consistent. simpl. by split_and!.
Qed.

Lemma consistent_createAssignment t desc dl ins id now a :
  consistent a -> consistent (snd (createAssignment t desc dl ins id now a)).
Proof.
  intros Hc. destruct (session_role_is "professor" a) eqn:Hrole.
  2: { by rewrite createAssignment_unauthorized. }
  unfold session_role_is in Hrole.
  destruct (currentSession a) as [s|] eqn:Hsn; [|done].
  apply bool_decide_eq_true in Hrole.
  rewrite (createAssignment_professor _ _ _ _ _ _ _ _ Hsn Hrole).
  destruct Hc as (Hu & Ht & [Hia Hiu] & Hs & Ha & Hn & Hsess).
  unfold consistent. simpl. split_and!; try done.
  - split; [|done]. intros k. simpl.
    by rewrite BrowserFacts.index_push_lookup, BrowserFacts.filter_snoc, Hia.
  - intros s' [= <-]. by apply Hsess.
Qed.

Lemma consistent_createSubmission k link id now a :
  consistent a -> consistent (snd (createSubmission k link id now a)).
Proof.
  intros Hc. destruct (session_role_is "student" a) eqn:Hrole.
  2: { by rewrite BrowserFacts.createSubmission_unauthorized. }
  unfold session_role_is in Hrole.
  destruct (currentSession a) as [s|] eqn:Hsn; [|done].
  apply bool_decide_eq_true in Hrole.
  destruct Hc as (Hu & Ht & Hi & Hs & Ha & Hn & Hsess).
  destruct (find (keyed (db a) (Some k) (Some (userId s))) (t_submissions (db a)))
    as [l|] eqn:Hf.
  - rewrite (BrowserFacts.createSubmission_update _ _ _ _ _ _ _ Hsn Hrole Hf).
    unfold consistent, student_of, assignment_of. simpl. split_and!; try done.
    + by rewrite length_alter.
    + intros k'. rewrite Hs. apply BrowserFacts.filter_agree. intros l' _.
      unfold student_of. by rewrite (student_of_update _ student_id).
    + intros k'. rewrite Ha. apply BrowserFacts.filter_agree. intros l' _.
      unfold assignment_of. by rewrite (student_of_update _ assignment_id).
    + by rewrite pairs_of_update.
    + intros s' [= <-]. by apply Hsess.
  - rewrite (BrowserFacts.createSubmission_insert _ _ _ _ _ _ Hsn Hrole Hf).
    assert (forall l', l' ∈ t_submissions (db a) -> forall new : submission,
              (store (db a) ++ [new])%list !! l' = store (db a) !! l') as Hold.
    { intros l' Hl' new. apply lookup_app_l. rewrite Ht in Hl'.
      apply elem_of_seq in Hl'. lia. }
    unfold consistent, student_of, assignment_of. simpl. split_and!; try done.
    + rewrite length_app, Ht. simpl. by rewrite seq_app.
    + intros k'. rewrite BrowserFacts.index_push_lookup, BrowserFacts.filter_snoc, Hs.
      f_equal.
      * apply BrowserFacts.filter_agree. intros l' Hl'. unfold student_of.
        by rewrite Hold.
      * rewrite list_lookup_middle by done. simpl.
        rewrite (bool_decide_ext (userId s = k') (Some (userId s) = Some k')); [done|].
        split; congruence.
    + intros k'. rewrite BrowserFacts.index_push_lookup, BrowserFacts.filter_snoc, Ha.
      f_equal.
      * apply BrowserFacts.filter_agree. intros l' Hl'. unfold assignment_of.
        by rewrite Hold.
      * rewrite list_lookup_middle by done. simpl.
        rewrite (bool_decide_ext (k = k') (Some k = Some k')); [done|].
        split; congruence.
    + rewrite fmap_app. apply NoDup_app. split_and!; [done| |apply NoDup_singleton].
      intros pr Hpr Hnew. apply list_elem_of_singleton in Hnew. subst pr.
      apply list_elem_of_fmap in Hpr as (row & Hrow & Hin).
      apply list_elem_of_lookup in Hin as [l Hl].
      assert (l ∈ t_submissions (db a)) as Hlt.
      { rewrite Ht. apply elem_of_seq. apply lookup_lt_Some in Hl. lia. }
      pose proof (find_none _ _ Hf l (proj1 (list_elem_of_In _ _) Hlt)) as Hk.
      unfold keyed in Hk. rewrite Hl in Hk. simpl in Hrow.
      injection Hrow as Hk1 Hk2.
      by rewrite Hk1, Hk2, !bool_decide_eq_true_2 in Hk.
    + intros s' [= <-]. by apply Hsess.
Qed.

(** X15.  Whatever calls the page has made, in whatever order and with
    whatever arguments, the application is in a consistent state: the
    submissions table lists each stored object once, the indexes agree
    with the tables, no two submissions share assignment and student,
    and the session belongs to one of the sample users. *)
Theorem every_state_consistent (rs : list request) : consistent (after rs).
Proof.
  unfold after. induction rs as [|r rs IH] using rev_ind.
  - apply consistent_appState.
  - rewrite foldl_app. simpl. unfold serve. destruct (called r).
    + by apply consistent_login.
    + by apply consistent_logout.
    + by apply consistent_createAssignment.
    + by apply consistent_createSubmission.
Qed.


(** *** What the listings return *)

(** X16.  In a consistent state [getSubmissions] resolves for a professor with
    the whole submissions table and for any other logged-in user with
    exactly the references of the table, in table order, whose object
    has the caller as its student.  Without a session the timer callback
    throws on [this.currentSession.userId] and the promise never
    settles. *)
Theorem browser_submission_listing (a : app) :
  consistent a ->
  match currentSession a with
  | None => getSubmissions a = Uncaught
  | Some s =>
      getSubmissions a
      = Resolve (RValue (VSubmissions
          (if bool_decide (role (session_user s) = "professor")
           then t_submissions (db a)
           else filter (fun l => student_of (db a) l = Some (userId s))
                  (t_submissions (db a)))))
  end.
Proof.
  intros (_ & _ & _ & Hs & _). unfold getSubmissions, session_role_is.
  destruct (currentSession a) as [s|]; [|done].
  case_bool_decide as Hr.
  - by rewrite query_submissions.
  - rewrite query_submissions_by_student. unfold index_get. simpl.
    by rewrite Hs.
Qed.

Lemma browser_submission_listing_witness :
  getSubmissions (logged_in "john.doe@university.edu")
  = Resolve (RValue (VSubmissions [0%nat])).
Proof.
  assert (consistent (logged_in "john.doe@university.edu")) as Hc.
  { apply consistent_login, consistent_appState. }
  exact (browser_submission_listing (logged_in "john.doe@university.edu") Hc).
Defined.

(** X17.  A professor's [createAssignment] resolves with a new row that has
    the fields given, whatever they are, and the caller as its creator;
    the professor's next [getAssignments] is the previous listing with
    that row added at its end. *)
Theorem create_assignment_then_list (t desc dl ins id : string) (now : Z)
    (a : app) (s : session) :
  indexed (db a) ->
  currentSession a = Some s ->
  role (session_user s) = "professor" ->
  let r := createAssignment t desc dl ins id now a in
  let row := {| assignment_pk := id; title := t; description := desc;
                deadline := dl; instructions := ins; created_by := userId s;
                created_at := now |} in
  fst r = Resolve (RValue (VAssignment row)) /\
  t_assignments (db (snd r)) = (t_assignments (db a) ++ [row])%list /\
  forall before,
    getAssignments a = Resolve (RValue (VAssignments before)) ->
    getAssignments (snd r) = Resolve (RValue (VAssignments (before ++ [row])%list)).
Proof.
  intros Hi Hs Hr. cbn zeta.
  pose proof (BrowserFacts.createAssignment_keeps_indexed t desc dl ins id now a Hi)
    as Hi'.
  rewrite (createAssignment_professor _ _ _ _ _ _ _ _ Hs Hr) in *.
  cbn [fst snd] in *. split_and!; [done..|]. intros before.
  rewrite !BrowserFacts.browser_getAssignments by done.
  unfold session_role_is. cbn [currentSession db t_assignments].
  rewrite Hs, Hr. rewrite bool_decide_eq_true_2 by done. simpl.
  intros [= <-]. by rewrite filter_app, filter_cons_True, filter_nil.
Qed.

Lemma create_assignment_then_list_witness :
  let a := logged_in "prof.smith@university.edu" in
  let r := createAssignment "Compilers" "A parser" "2025-10-01T12:00:00.000Z"
             "One repository" "id_1756728000000_k3j9x2m1q" 1756728000000 a in
  exists row,
    fst r = Resolve (RValue (VAssignment row)) /\
    created_by row = "prof1" /\
    getAssignments (snd r)
    = Resolve (RValue (VAssignments (seed_assignments ++ [row])%list)).
Proof.
  intros a r.
  assert (indexed (db a)) as Hi.
  { unfold a, logged_in. rewrite BrowserFacts.login_keeps_db.
    apply BrowserFacts.initial_state_indexed. }
  assert (exists s, currentSession a = Some s /\ role (session_user s) = "professor")
    as (s & Hs & Hr) by (eexists; split; reflexivity).
  destruct (create_assignment_then_list "Compilers" "A parser"
              "2025-10-01T12:00:00.000Z" "One repository"
              "id_1756728000000_k3j9x2m1q" 1756728000000 a s Hi Hs Hr)
    as (H1 & H2 & H3).
  eexists. split; [exact H1|]. split.
  - simpl. vm_compute in Hs. by injection Hs as <-.
  - apply (H3 seed_assignments). reflexivity.
Defined.


(** *** Calls without the right to make them *)

(** X18.  [createAssignment] rejects with "Unauthorized" exactly when no
    professor is logged in, [createSubmission] exactly when no student
    is logged in, and a rejected call leaves the application as it was.
    The two listings ask for no role: [getAssignments] resolves with the
    whole table even when nobody is logged in. *)
Theorem browser_writes_need_role (a : app) (t desc dl ins k link id : string)
    (now : Z) :
  (fst (createAssignment t desc dl ins id now a) = Reject "Unauthorized"
   <-> session_role_is "professor" a = false) /\
  (fst (createSubmission k link id now a) = Reject "Unauthorized"
   <-> session_role_is "student" a = false) /\
  (resolved (fst (createAssignment t desc dl ins id now a)) = false ->
   snd (createAssignment t desc dl ins id now a) = a) /\
  (resolved (fst (createSubmission k link id now a)) = false ->
   snd (createSubmission k link id now a) = a) /\
  (currentSession a = None ->
   getAssignments a = Resolve (RValue (VAssignments (t_assignments (db a))))).
Proof.
  split_and!.
  - destruct (session_role_is "professor" a) eqn:Hrole.
    + unfold session_role_is in Hrole.
      destruct (currentSession a) as [s|] eqn:Hs; [|done].
      apply bool_decide_eq_true in Hrole.
      by rewrite (createAssignment_professor _ _ _ _ _ _ _ _ Hs Hrole).
    + by rewrite createAssignment_unauthorized.
  - destruct (session_role_is "student" a) eqn:Hrole.
    + pose proof (BrowserFacts.createSubmission_resolves k link id now a Hrole) as Hres.
      split; [|done]. intros Hrej. by rewrite Hrej in Hres.
    + by rewrite BrowserFacts.createSubmission_unauthorized.
  - destruct (session_role_is "professor" a) eqn:Hrole.
    + unfold session_role_is in Hrole.
      destruct (currentSession a) as [s|] eqn:Hs; [|done].
      apply bool_decide_eq_true in Hrole.
      by rewrite (createAssignment_professor _ _ _ _ _ _ _ _ Hs Hrole).
    + by rewrite createAssignment_unauthorized.
  - destruct (session_role_is "student" a) eqn:Hrole.
    + by rewrite (BrowserFacts.createSubmission_resolves k link id now a Hrole).
    + by rewrite BrowserFacts.createSubmission_unauthorized.
  - intros Hs. unfold getAssignments, session_role_is. rewrite Hs.
    by rewrite BrowserFacts.query_assignments.
Qed.

(** X19.  After [logout] the database is as before, both writing calls are
    rejected, [getSubmissions] never settles, and a new login with the
    same credentials gets the same answer as it would have got before
    the logout. *)
Theorem browser_after_logout (a : app) (t desc dl ins k link id e sid : string)
    (p : ustring) (now : Z) :
  let a' := logout a in
  db a' = db a /\
  createAssignment t desc dl ins id now a' = (Reject "Unauthorized", a') /\
  createSubmission k link id now a' = (Reject "Unauthorized", a') /\
  getSubmissions a' = Uncaught /\
  fst (login e p sid now a') = fst (login e p sid now a) /\
  currentSession (snd (login e p sid now a'))
  = if resolved (fst (login e p sid now a)) then
      currentSession (snd (login e p sid now a))
    else None.
Proof.
  cbn zeta. split_and!; try done.
  - unfold login, logout. cbn [db]. rewrite BrowserFacts.query_user_by_email.
    destruct (index_get _ _ _) as [u|]; [|done].
    by destruct (verifyPassword p (password_hash u)) as [[]|].
  - unfold login, logout. cbn [db]. rewrite BrowserFacts.query_user_by_email.
    destruct (index_get _ _ _) as [u|]; [|done].
    by destruct (verifyPassword p (password_hash u)) as [[]|].
Qed.

(** *** Deleting through the engine *)

Lemma NoDup_fmap_eq {A B} (f : A -> B) (l : list A) (i j : nat) (x y : A) :
  NoDup (f <$> l) -> l !! i = Some x -> l !! j = Some y -> f x = f y -> i = j.
Proof.
  intros Hnd Hi Hj Hf.
  apply (NoDup_lookup (f <$> l) i j (f x) Hnd).
  - by rewrite list_lookup_fmap, Hi.
  - by rewrite list_lookup_fmap, Hj, Hf.
Qed.

(** X20.  The engine's DELETE of an assignment, on a table without repeated
    identifiers and with its index in agreement: the row leaves the
    table and is returned, but the index by creator is not touched and
    still holds it, so index and table no longer agree; and no
    submission is removed with it. *)
Theorem delete_leaves_index_entry (e : engine) (a : assignment) (id : string)
    (now : Z) :
  indexed e ->
  NoDup (assignment_pk <$> t_assignments e) ->
  a ∈ t_assignments e ->
  exists e',
    query "DELETE FROM assignments WHERE id = ?" [assignment_pk a] id now e
    = Normal (VAssignment a, e') /\
    (a ∉ t_assignments e') /\
    a ∈ default [] (assignments_created_by e' !! created_by a) /\
    ~ indexed e' /\
    store e' = store e /\ t_submissions e' = t_submissions e.
Proof.
  intros Hi Hnd Ha. rewrite query_delete_assignment. unfold executeDelete.
  change (Js.includes _ _) with true. cbv iota.
  change ([assignment_pk a] !! 0%nat) with (Some (assignment_pk a)).
  destruct (list_find_elem_of (fun x => Some (assignment_pk x) = Some (assignment_pk a))
              (t_assignments e) a Ha eq_refl) as [[i x] Hfind].
  rewrite Hfind. apply list_find_Some in Hfind as (Hix & Hpk & _).
  apply list_elem_of_lookup in Ha as [j Hj].
  assert (i = j) as <- by (eapply (NoDup_fmap_eq assignment_pk); [done..|congruence]).
  assert (x = a) as -> by congruence.
  assert (a ∉ delete i (t_assignments e)) as Hgone.
  { intros [n Hn]%list_elem_of_lookup. rewrite list_lookup_delete in Hn.
    destruct (decide (n < i)%nat) as [Hlt|Hge].
    - pose proof (NoDup_fmap_eq assignment_pk _ _ _ _ _ Hnd Hn Hix eq_refl). lia.
    - pose proof (NoDup_fmap_eq assignment_pk _ _ _ _ _ Hnd Hn Hix eq_refl). lia. }
  assert (a ∈ default [] (assignments_created_by e !! created_by a)) as Hidx.
  { rewrite (proj1 Hi). apply list_elem_of_filter. split; [done|].
    apply list_elem_of_lookup. by exists i. }
  eexists. split; [done|]. simpl. split_and!; try done.
  intros [Hi' _]. simpl in Hi'. rewrite Hi' in Hidx.
  by apply list_elem_of_filter in Hidx as [_ Hidx].
Qed.

Lemma delete_leaves_index_entry_witness :
  exists a e',
    a ∈ seed_assignments /\
    query "DELETE FROM assignments WHERE id = ?" ["assign1"] "" 0 initializeDatabase
    = Normal (VAssignment a, e') /\
    (a ∉ t_assignments e') /\
    a ∈ default [] (assignments_created_by e' !! "prof1") /\
    ~ indexed e'.
Proof.
  destruct seed_assignments as [|a rest] eqn:Hseed; [discriminate Hseed|].
  assert (a ∈ t_assignments initializeDatabase) as Ha.
  { change (t_assignments initializeDatabase) with seed_assignments.
    rewrite Hseed. left. }
  assert (NoDup (assignment_pk <$> t_assignments initializeDatabase)) as Hnd.
  { apply (bool_decide_unpack _). vm_compute. exact I. }
  destruct (delete_leaves_index_entry initializeDatabase a "" 0
              BrowserFacts.initial_state_indexed Hnd Ha)
    as (e' & H1 & H2 & H3 & H4 & _).
  injection Hseed as <- _.
  exists {| assignment_pk := "assign1"; title := "Web Development Project";
            description := "Create a responsive website using HTML, CSS, and JavaScript. Include at least 3 pages and implement modern design principles.";
            deadline := "2025-09-15T23:59:59.000Z";
            instructions := "Submit your GitHub repository link containing the complete project code.";
            created_by := "prof1"; created_at := 1755684000000 |}, e'.
  split_and!; [left|exact H1|exact H2|exact H3|exact H4].
Defined.


(** *** A submission for an assignment that does not exist *)

(** X21.  The server answers a student's POST /api/submissions for an
    identifier no assignment has with 404 and stores nothing.  The
    browser's [createSubmission] never looks at the assignments: for a
    logged-in student it resolves for every identifier, and afterwards
    the table holds a submission of the caller for that identifier with
    the link given. *)
Theorem submission_for_unknown_assignment (Date_parse : string -> Js.Date)
    (now : Z) (uuid : string) (ss : Server.session) (k link : string)
    (d : Server.database) (a : app) (s : session) (id : string) :
  Server.requireRole "student" ss = None ->
  k <> "" -> link <> "" ->
  Server.assignment_by_id k d = None ->
  currentSession a = Some s ->
  role (session_user s) = "student" ->
  Server.post_submissions Date_parse now uuid ss (Some k) (Some link) d
  = (Server.NotFound, d) /\
  let r := createSubmission k link id now a in
  resolved (fst r) = true /\
  exists l row,
    l ∈ t_submissions (db (snd r)) /\ store (db (snd r)) !! l = Some row /\
    assignment_id row = k /\ student_id row = userId s /\ repo_link row = link.
Proof.
  intros Hss Hk Hl Hnone Hs Hr. split.
  - unfold Server.post_submissions. rewrite Hss. unfold Js.truthy.
    rewrite !bool_decide_eq_false_2 by done. cbn [negb orb from_option Datatypes.id].
    by rewrite Hnone.
  - cbn zeta.
    destruct (find (keyed (db a) (Some k) (Some (userId s))) (t_submissions (db a)))
      as [l|] eqn:Hf.
    + rewrite (BrowserFacts.createSubmission_update _ _ _ _ _ _ _ Hs Hr Hf).
      split; [done|]. apply BrowserFacts.find_elem in Hf as [Hkeyed Hin].
      apply BrowserFacts.keyed_row in Hkeyed as (old & Hold & Hrow).
      unfold row_keyed in Hrow. apply andb_prop in Hrow as [Ha Hb].
      apply bool_decide_eq_true in Ha, Hb.
      exists l, (overwrite link now old). simpl. split_and!; try done.
      by rewrite list_lookup_alter_eq, Hold.
    + rewrite (BrowserFacts.createSubmission_insert _ _ _ _ _ _ Hs Hr Hf).
      split; [done|]. eexists _, _. simpl. split_and!.
      * apply elem_of_app. right. left.
      * by apply list_lookup_middle.
      * done.
      * done.
      * done.
Qed.

Lemma submission_for_unknown_assignment_witness :
  Server.post_submissions clock 1756728000000 "5b1f" (as_user "stud1" "student")
    (Some "assign9") (Some "https://github.com/s/x") sample_db
  = (Server.NotFound, sample_db) /\
  resolved (fst (createSubmission "assign9" "https://github.com/s/x" "id_1"
                   1756728000000 (logged_in "john.doe@university.edu"))) = true.
Proof.
  assert (exists s, currentSession (logged_in "john.doe@university.edu") = Some s /\
                    role (session_user s) = "student")
    as (s & Hs & Hr) by (eexists; split; reflexivity).
  destruct (submission_for_unknown_assignment clock 1756728000000 "5b1f"
              (as_user "stud1" "student") "assign9" "https://github.com/s/x"
              sample_db (logged_in "john.doe@university.edu") s "id_1")
    as (H1 & H2 & _); try done.
Defined.

(** *** Long passwords *)

Lemma base64_app (p r : list N) :
  (length p mod 3 = 0)%nat -> base64 (p ++ r)%list = base64 p ++ base64 r.
Proof.
  intros Hm.
  assert (exists n, length p = (3 * n)%nat) as [n Hn].
  { exists (length p / 3)%nat. pose proof (Nat.div_mod_eq (length p) 3). lia. }
  clear Hm. revert p Hn. induction n as [|n IH]; intros p Hn.
  - by destruct p.
  - destruct p as [|a [|b [|c p]]]; simpl in Hn; try lia.
    rewrite <- !app_comm_cons. cbn [base64 String.append]. rewrite IH by lia. done.
Qed.

Lemma strip_non_alnum_app (s t : string) :
  strip_non_alnum (s ++ t) = strip_non_alnum s ++ strip_non_alnum t.
Proof.
  induction s as [|c s IH]; [done|]. simpl.
  destruct (alnum c); simpl; by rewrite IH.
Qed.

Lemma substring_app_l (n : nat) (s t : string) :
  (n <= String.length s)%nat ->
  String.substring 0 n (s ++ t) = String.substring 0 n s.
Proof.
  revert n. induction s as [|c s IH]; intros n Hn.
  - simpl in Hn. assert (n = 0%nat) as -> by lia. by destruct t.
  - destruct n as [|n]; [done|]. simpl. rewrite IH; [done|]. simpl in Hn. lia.
Qed.

(** X22.  [hashPassword] keeps fifty characters of the encoding.  When the
    first characters of a password, a multiple of three in number, are
    already encoded to fifty letters and digits, the hash is that of
    those characters alone: any other password that begins with them
    verifies against it. *)
Theorem long_passwords_share_hash (p x y : ustring) :
  latin1 (p ++ x)%list = true ->
  latin1 y = true ->
  (length p mod 3 = 0)%nat ->
  (50 <= String.length (strip_non_alnum (base64 p)))%nat ->
  let h := "$2b$10$" ++ String.substring 0 50 (strip_non_alnum (base64 p)) in
  hashPassword (p ++ x)%list = Some h /\
  hashPassword (p ++ y)%list = Some h /\
  verifyPassword (p ++ y)%list h = Some true.
Proof.
  intros Hpx Hy Hm Hlen.
  rewrite BrowserFacts.latin1_app in Hpx. apply andb_prop in Hpx as [Hp Hx].
  assert (forall z, latin1 z = true ->
            hashPassword (p ++ z)%list
            = Some ("$2b$10$" ++ String.substring 0 50 (strip_non_alnum (base64 p))))
    as Hhash.
  { intros z Hz. unfold hashPassword, btoa.
    rewrite !BrowserFacts.latin1_app, Hp, Hz.
    change (latin1 (of_string "salt")) with true. cbn [andb].
    rewrite <- app_assoc, base64_app, strip_non_alnum_app, substring_app_l by done.
    done. }
  cbn zeta. split_and!; [by apply Hhash..|].
  unfold verifyPassword. rewrite Hhash by done. by rewrite bool_decide_eq_true_2.
Qed.

Lemma long_passwords_share_hash_witness :
  let p := replicate 39 97%N in
  verifyPassword (p ++ of_string "2")%list
    (default "" (hashPassword (p ++ of_string "1")%list)) = Some true.
Proof.
  intros p.
  destruct (long_passwords_share_hash p (of_string "1") (of_string "2"))
    as (H1 & _ & H3); [reflexivity|reflexivity|reflexivity|vm_compute; lia|].
  rewrite H1. exact H3.
Defined.

(** *** The label of a deadline *)

Section DeadlineFacts.

Variable Date_parse : string -> Js.Date.

Lemma ceil_div_day (x : Z) :
  (ceil_div x day < 0 <-> x <= - day) /\
  (ceil_div x day = 0 <-> - day < x <= 0) /\
  (ceil_div x day = 1 <-> 0 < x <= day).
Proof.
  unfold ceil_div, day.
  pose proof (Z.div_mod (- x) 86400000 ltac:(lia)) as Hd.
  pose proof (Z.mod_pos_bound (- x) 86400000 ltac:(lia)) as Hm.
  change (1000 * 60 * 60 * 24) with 86400000. lia.
Qed.

(** X23.  The label [formatDeadline] puts on an assignment and the test
    [isOverdue] that closes it disagree during the first day after the
    deadline: the label is "Overdue" only from one full day after the
    deadline on, and "Due today" from the deadline until then, while
    [isOverdue] holds as soon as the deadline has passed.  "Due
    tomorrow" is the label during the last day before the deadline.  On
    an unreadable date the label is "Due in NaN days" and nothing is
    overdue. *)
Theorem deadline_label (now : Z) (dl : string) :
  match Date_parse dl with
  | None =>
      formatDeadline Date_parse now dl = "Due in NaN days" /\
      isOverdue Date_parse now dl = false
  | Some t =>
      (formatDeadline Date_parse now dl = "Overdue" <-> t + day <= now) /\
      (formatDeadline Date_parse now dl = "Due today" <-> t <= now < t + day) /\
      (formatDeadline Date_parse now dl = "Due tomorrow" <-> now < t <= now + day) /\
      (isOverdue Date_parse now dl = true <-> t < now)
  end.
Proof.
  unfold formatDeadline, isOverdue, Js.date_gt.
  destruct (Date_parse dl) as [t|]; [|done].
  destruct (ceil_div_day (t - now)) as (Hneg & Hzero & Hone).
  cbn zeta. split_and!.
  - repeat case_bool_decide; (split; [try done; intros _; lia | intros; try done; lia]).
  - repeat case_bool_decide; (split; [try done; intros _; lia | intros; try done; lia]).
  - repeat case_bool_decide; (split; [try done; intros _; lia | intros; try done; lia]).
  - by rewrite bool_decide_eq_true.
Qed.

End DeadlineFacts.


End BrowserRestFacts.

(** ** The initialisation script *)

Module InitScript.
Import Server.

(** The file before any table has rows, under the schema of the script. *)
Definition fresh_file : database :=
  {| users := []; assignments := []; submissions := [];
     submissions_on_delete := Cascade |}.

(** [INSERT OR REPLACE INTO users ...]: the rows that hold the new row's
    primary key or its e-mail address are deleted, then the row is
    inserted.  With enforcement of foreign keys off nothing else is
    deleted with them. *)
Definition replace_user (l : list user) (u : user) : list user :=
  (filter (fun v => ServerRest.user_conflict u v = false) l ++ [u])%list.

(** [INSERT OR REPLACE INTO assignments ...] *)
Definition replace_assignment (l : list assignment) (a : assignment)
  : list assignment :=
  (filter (fun b => id_is (assignment_pk a) b = false) l ++ [a])%list.

(** [INSERT OR REPLACE INTO submissions ...] *)
Definition replace_submission (l : list submission) (x : submission)
  : list submission :=
  (filter (fun y => ServerRest.submission_conflict x y = false) l ++ [x])%list.

(** The values of the seven calls of [uuidv4()], in the order of the
    calls. *)
Record uuids := {
  id_professor : string;
  id_student1 : string;
  id_student2 : string;
  id_assignment1 : string;
  id_assignment2 : string;
  id_assignment3 : string;
  id_submission : string
}.

Definition sample_users (hashedPassword : string) (ts : Z) (ids : uuids) : list user :=
  [ {| user_id := id_professor ids; email := "prof.smith@university.edu";
       password_hash := hashedPassword; name := "Dr. Sarah Smith";
       role := "professor"; user_created_at := ts |};
    {| user_id := id_student1 ids; email := "john.doe@university.edu";
       password_hash := hashedPassword; name := "John Doe";
       role := "student"; user_created_at := ts |};
    {| user_id := id_student2 ids; email := "jane.smith@university.edu";
       password_hash := hashedPassword; name := "Jane Smith";
       role := "student"; user_created_at := ts |} ].

Definition sample_assignments (numeric : string -> option Js.number) (ts : Z)
    (ids : uuids) : list assignment :=
  [ {| assignment_pk := id_assignment1 ids; title := "Web Development Project";
       description := Some "Create a responsive website using HTML, CSS, and JavaScript. Include at least 3 pages and implement modern design principles. Focus on accessibility, performance, and mobile-first design.";
       deadline := bind_datetime numeric "2025-09-15T23:59:59";
       instructions := Some "Submit your GitHub repository link containing the complete project code. Ensure your README.md includes setup instructions and project description.";
       created_by := id_professor ids; created_at := ts |};
    {| assignment_pk := id_assignment2 ids; title := "Database Design Assignment";
       description := Some "Design and implement a normalized database schema for a library management system. Include entity relationships, constraints, and sample data.";
       deadline := bind_datetime numeric "2025-09-20T23:59:59";
       instructions := Some "Include ER diagram, SQL scripts, and comprehensive documentation in your repository. Add sample queries demonstrating database functionality.";
       created_by := id_professor ids; created_at := ts |};
    {| assignment_pk := id_assignment3 ids; title := "Algorithm Analysis Report";
       description := Some "Analyze the time and space complexity of various sorting algorithms. Implement at least 3 different sorting algorithms and compare their performance.";
       deadline := bind_datetime numeric "2025-09-25T23:59:59";
       instructions := Some "Submit code implementations with detailed analysis report. Include performance benchmarks and complexity analysis.";
       created_by := id_professor ids; created_at := ts |} ].

Definition sample_submissions (ts : Z) (ids : uuids) : list submission :=
  [ {| submission_pk := id_submission ids; assignment_id := id_assignment1 ids;
       student_id := id_student1 ids;
       repo_link := "https://github.com/johndoe/web-development-project";
       submitted_at := ts; status := "submitted" |} ].

(** [insertSampleData] of the script, on the file as it is. *)
Definition insertSampleData (numeric : string -> option Js.number)
    (hashedPassword : string) (now : Z) (ids : uuids) (d : database)
  : database :=
  let ts := CURRENT_TIMESTAMP now in
  {| users := foldl replace_user (users d) (sample_users hashedPassword ts ids);
     assignments :=
       foldl replace_assignment (assignments d)
         (sample_assignments numeric ts ids);
     submissions :=
       foldl replace_submission (submissions d) (sample_submissions ts ids);
     submissions_on_delete := submissions_on_delete d |}.

Definition sample_emails : list string :=
  ["prof.smith@university.edu"; "john.doe@university.edu";
   "jane.smith@university.edu"].

(** The identifiers of a run, for the examples. *)
Definition first_run : uuids :=
  {| id_professor := "0b6d3a52"; id_student1 := "1f0c9e77"; id_student2 := "2a4be810";
     id_assignment1 := "3c55d0f1"; id_assignment2 := "4e917a26";
     id_assignment3 := "5d02c4b9"; id_submission := "6a8f13e4" |}.

Definition second_run : uuids :=
  {| id_professor := "70c1e5d8"; id_student1 := "81b2f6a9"; id_student2 := "92a307ba";
     id_assignment1 := "a39418cb"; id_assignment2 := "b48529dc";
     id_assignment3 := "c5763aed"; id_submission := "d6674bfe" |}.

End InitScript.

Module InitScriptFacts.
Import Server InitScript.

Section Replace.
Context {A : Type} (conflict : A -> A -> bool).

Definition or_replace (l : list A) (x : A) : list A :=
  (filter (fun y => conflict x y = false) l ++ [x])%list.

Lemma elem_of_or_replace (l : list A) (x y : A) :
  y ∈ or_replace l x <-> y = x \/ (y ∈ l /\ conflict x y = false).
Proof.
  unfold or_replace. rewrite elem_of_app, list_elem_of_filter, list_elem_of_singleton.
  tauto.
Qed.

(** A row is in the table after a run of replacing inserts only if it
    is one of the new rows or an old row none of them conflicts with. *)
Lemma elem_of_foldl_or_replace (news l : list A) (y : A) :
  y ∈ foldl or_replace l news ->
  y ∈ news \/ (y ∈ l /\ forall n, n ∈ news -> conflict n y = false).
Proof.
  revert l. induction news as [|x news IH]; intros l; simpl.
  - intros Hy. right. split; [done|]. intros n Hn. by apply elem_of_nil in Hn.
  - intros Hy. apply IH in Hy as [Hy|[Hy Hall]].
    + left. by right.
    + apply elem_of_or_replace in Hy as [->|[Hy Hc]].
      * left. left.
      * right. split; [done|]. intros n [->|Hn]%elem_of_cons; auto.
Qed.

(** An old row none of the new rows conflicts with stays. *)
Lemma foldl_or_replace_keeps (news l : list A) (y : A) :
  y ∈ l -> (forall n, n ∈ news -> conflict n y = false) ->
  y ∈ foldl or_replace l news.
Proof.
  revert l. induction news as [|x news IH]; intros l Hy Hall; [done|]. simpl.
  apply IH.
  - apply elem_of_or_replace. right. split; [done|]. apply Hall. left.
  - intros n Hn. apply Hall. by right.
Qed.

End Replace.

Lemma listed_has_creator (d : database) (v : assignment_view) :
  v ∈ select_assignments d ->
  av_row v ∈ assignments d /\
  exists u, u ∈ users d /\ user_id u = created_by (av_row v).
Proof.
  unfold select_assignments.
  rewrite (ServerFacts.order_by_desc_perm _ (assignments_join_users d)).
  intros Hv. apply list_elem_of_In, in_flat_map in Hv as (a & Ha & Hv).
  apply list_elem_of_In, list_elem_of_fmap in Hv as (u & -> & Hu).
  apply list_elem_of_filter in Hu as [Hid Hu]. simpl.
  split; [by apply list_elem_of_In|]. by exists u.
Qed.

Lemma sample_user_ids (h : string) (ts : Z) (ids : uuids) (v : user) :
  v ∈ sample_users h ts ids ->
  user_id v ∈ [id_professor ids; id_student1 ids; id_student2 ids].
Proof.
  intros Hv. change [id_professor ids; id_student1 ids; id_student2 ids]
    with (user_id <$> sample_users h ts ids).
  by apply list_elem_of_fmap_2.
Qed.

Lemma sample_assignment_ids (numeric : string -> option Js.number)
    (ts : Z) (ids : uuids) (a : assignment) :
  a ∈ sample_assignments numeric ts ids ->
  assignment_pk a ∈ [id_assignment1 ids; id_assignment2 ids; id_assignment3 ids].
Proof.
  intros Ha. change [id_assignment1 ids; id_assignment2 ids; id_assignment3 ids]
    with (assignment_pk <$> sample_assignments numeric ts ids).
  by apply list_elem_of_fmap_2.
Qed.

Lemma sample_address_taken (h : string) (ts : Z) (ids : uuids) (e : string) :
  e ∈ sample_emails -> exists n, n ∈ sample_users h ts ids /\ email n = e.
Proof.
  change sample_emails with (email <$> sample_users h ts ids).
  intros (n & -> & Hn)%list_elem_of_fmap. by exists n.
Qed.

(** X24.  Running the script on a file that already holds an account with
    one of the three sample addresses replaces that account by a new
    row with a new identifier.  An assignment the old account created,
    whose identifier is not one of those drawn now, stays in its table,
    but no user has the identifier its [created_by] holds any more, and
    GET /api/assignments no longer lists it. *)
Theorem rerun_orphans_assignments (numeric : string -> option Js.number)
    (h : string) (now : Z) (ids : uuids)
    (d : database) (u : user) (a : assignment) :
  NoDup (user_id <$> users d) ->
  u ∈ users d -> a ∈ assignments d -> created_by a = user_id u ->
  email u ∈ sample_emails ->
  user_id u ∉ [id_professor ids; id_student1 ids; id_student2 ids] ->
  assignment_pk a ∉ [id_assignment1 ids; id_assignment2 ids; id_assignment3 ids] ->
  let d' := insertSampleData numeric h now ids d in
  a ∈ assignments d' /\
  (forall v, v ∈ users d' -> user_id v <> created_by a) /\
  (forall s rows, get_assignments s d' = reply 200 (AssignmentRows rows) ->
     forall v, v ∈ rows -> av_row v <> a).
Proof.
  intros Hnd Hu Ha Hby Hmail Hfresh Hpk d'.
  assert (forall v, v ∈ users d' -> user_id v <> created_by a) as Hnone.
  { intros v Hv Hid. rewrite Hby in Hid.
    apply (elem_of_foldl_or_replace ServerRest.user_conflict) in Hv as [Hv|[Hv Hall]].
    - apply Hfresh. rewrite <- Hid. by apply sample_user_ids in Hv.
    - assert (v = u) as ->.
      { apply list_elem_of_lookup in Hv as [i Hi].
        apply list_elem_of_lookup in Hu as [j Hj].
        assert (i = j) as ->; [|congruence].
        apply (NoDup_lookup (user_id <$> users d) i j (user_id u) Hnd).
        - by rewrite list_lookup_fmap, Hi, <- Hid.
        - by rewrite list_lookup_fmap, Hj. }
      destruct (sample_address_taken h (CURRENT_TIMESTAMP now) ids _ Hmail)
        as (n & Hn & He).
      specialize (Hall n Hn). unfold ServerRest.user_conflict in Hall.
      rewrite (bool_decide_eq_true_2 (email u = email n)) in Hall by done.
      by rewrite orb_true_r in Hall. }
  split_and!; [|exact Hnone|].
  - apply (foldl_or_replace_keeps (fun x => id_is (assignment_pk x))); [done|].
    intros n Hn. unfold id_is. apply bool_decide_eq_false_2. intros Heq.
    apply Hpk. rewrite Heq. by apply sample_assignment_ids in Hn.
  - intros s rows Hrows v Hv Hav. unfold get_assignments in Hrows.
    destruct (requireAuth s) as [r|] eqn:Hr.
    + unfold requireAuth in Hr. destruct (negb _); [|done].
      injection Hr as <-. discriminate Hrows.
    + injection Hrows as <-.
      apply listed_has_creator in Hv as [_ (w & Hw & Hid)].
      rewrite Hav in Hid. by apply (Hnone w).
Qed.

Lemma rerun_orphans_assignments_witness :
  let d := insertSampleData sample_numeric "bcrypt:password123" 1755684000000
             first_run fresh_file in
  let d' := insertSampleData sample_numeric "bcrypt:password123" 1755770400000
              second_run d in
  exists a,
    head (assignments d) = Some a /\
    a ∈ assignments d' /\
    (forall v, v ∈ users d' -> user_id v <> created_by a) /\
    (forall s rows, get_assignments s d' = reply 200 (AssignmentRows rows) ->
       forall v, v ∈ rows -> av_row v <> a).
Proof.
  intros d d'.
  destruct (users d) as [|u us] eqn:Hus; [discriminate Hus|].
  destruct (assignments d) as [|a rest] eqn:Has; [discriminate Has|].
  exists a. split; [done|].
  apply (rerun_orphans_assignments sample_numeric "bcrypt:password123"
           1755770400000 second_run
           d u a).
  - apply (bool_decide_unpack _). vm_compute. exact I.
  - rewrite Hus. left.
  - rewrite Has. left.
  - vm_compute in Hus, Has. by injection Hus as <- _; injection Has as <- _.
  - vm_compute in Hus. injection Hus as <- _. left.
  - vm_compute in Hus. injection Hus as <- _.
    apply (bool_decide_unpack _). vm_compute. exact I.
  - vm_compute in Has. injection Has as <- _.
    apply (bool_decide_unpack _). vm_compute. exact I.
Defined.

(** X25.  The server started on a file the script has filled.  The sample
    accounts of server.js are dropped, their addresses being taken, so
    no user gets the identifier prof1; its first sample assignment,
    whose identifier is free, is inserted with [created_by] prof1 all
    the same, and GET /api/assignments never lists it. *)
Theorem server_start_after_script (numeric : string -> option Js.number)
    (h : string) (now : Z) (d : database) :
  Forall (fun e => e ∈ email <$> users d) sample_emails ->
  "prof1" ∉ user_id <$> users d ->
  "assign1" ∉ assignment_pk <$> assignments d ->
  let d' := ServerRest.insertSampleData numeric h now d in
  users d' = users d /\
  (exists a, a ∈ assignments d' /\ assignment_pk a = "assign1" /\
             created_by a = "prof1") /\
  (forall s rows, get_assignments s d' = reply 200 (AssignmentRows rows) ->
     forall v, v ∈ rows -> created_by (av_row v) <> "prof1").
Proof.
  intros Hmail Hprof Hassign d'.
  assert (users d' = users d) as Hsame.
  { apply (ServerRestFacts.foldl_or_ignore_skip ServerRest.user_conflict).
    apply Forall_forall. intros n Hn. apply existsb_exists.
    rewrite Forall_forall in Hmail.
    destruct (proj1 (list_elem_of_fmap _ _ _) (Hmail (email n)
      ltac:(change sample_emails with
              (email <$> ServerRest.sampleUsers h (CURRENT_TIMESTAMP now));
            by apply list_elem_of_fmap_2))) as (u & He & Hu).
    exists u. split; [by apply list_elem_of_In|].
    unfold ServerRest.user_conflict.
    by rewrite (bool_decide_eq_true_2 (email u = email n)), orb_true_r. }
  split_and!; [done| |].
  - assert (existsb (id_is "assign1") (assignments d) = false) as Hfree.
    { apply ServerFacts.existsb_false. intros b Hb. unfold id_is.
      apply bool_decide_eq_false_2. intros Hpk. apply Hassign.
      rewrite <- Hpk. by apply list_elem_of_fmap_2. }
    eexists. split.
    + unfold d', ServerRest.insertSampleData, ServerRest.sampleAssignments.
      cbn [assignments foldl].
      unfold ServerRest.insert_assignment_or_ignore at 1.
      assert (forall (X Y : list assignment) (b : bool) x,
                x ∈ X -> x ∈ if b then X else (X ++ Y)%list) as Hif.
      { intros X Y [] x Hx; [done|]. apply elem_of_app. by left. }
      apply Hif. unfold ServerRest.insert_assignment_or_ignore.
      cbn [assignment_pk]. rewrite Hfree. apply elem_of_app. right. left.
    + split; reflexivity.
  - intros s rows Hrows v Hv Hby. unfold get_assignments in Hrows.
    destruct (requireAuth s) as [r|] eqn:Hr.
    + unfold requireAuth in Hr. destruct (negb _); [|done].
      injection Hr as <-. discriminate Hrows.
    + injection Hrows as <-.
      apply listed_has_creator in Hv as [_ (w & Hw & Hid)].
      apply Hprof. rewrite <- Hby, <- Hid, <- Hsame. by apply list_elem_of_fmap_2.
Qed.

Lemma server_start_after_script_witness :
  let d := insertSampleData sample_numeric "bcrypt:password123" 1755684000000
             first_run fresh_file in
  let d' := ServerRest.insertSampleData sample_numeric "bcrypt:password123"
              1755770400000 d in
  users d' = users d /\
  (exists a, a ∈ assignments d' /\ assignment_pk a = "assign1" /\
             created_by a = "prof1") /\
  (forall s rows, get_assignments s d' = reply 200 (AssignmentRows rows) ->
     forall v, v ∈ rows -> created_by (av_row v) <> "prof1").
Proof.
  intros d.
  apply (server_start_after_script sample_numeric "bcrypt:password123" 1755770400000 d).
  - apply (bool_decide_unpack _). vm_compute. exact I.
  - apply (bool_decide_unpack _). vm_compute. exact I.
  - apply (bool_decide_unpack _). vm_compute. exact I.
Defined.


End InitScriptFacts.
